(** * The validators of [src/python/data_validation.py]

  A shallow embedding of [FinancialDataValidator.validate_field] and
  [FinancialDataValidator._apply_rule], of the methods that call them
  ([validate_financial_statement], [validate_rental_data],
  [validate_expense_data], [validate_cash_flow_data] and
  [validate_excel_data]) and of the functions [validate_loan_parameters]
  and [validate_npv_parameters], together with the parts of the Python
  runtime that they call ([str.strip], [float], the [re] module on the
  fixed patterns of the file, [datetime.strptime] on the four date formats
  of the file, the operators on numbers, strings and dates), followed by
  the properties that are proved about them.  The method
  [clean_financial_dataset], which works on a pandas data frame, is not
  part of the embedding.

  Python values are modelled as they are at run time: a [str] is a
  sequence of Unicode code points, an [int] is unbounded, a [float] is an
  IEEE 754 binary64 number, and an exception that leaves a method is an
  explicit result of the method. *)

From Stdlib Require Import ZArith NArith List String Ascii Bool Lia.
From Stdlib Require Import Floats.
Import ListNotations.

Set Implicit Arguments.

(** ** Strings *)

Module Str.

(** A Python [str]: its code points, in order. *)
Definition pychar := N.
Definition pystr := list pychar.

(** An ASCII literal of the source, as a [pystr]. *)
Definition lit (s : string) : pystr :=
  map N_of_ascii (list_ascii_of_string s).

Fixpoint eqb (s t : pystr) : bool :=
  match s, t with
  | [], [] => true
  | c :: s', d :: t' => N.eqb c d && eqb s' t'
  | _, _ => false
  end.

(** [str.isspace] on one character, which is also [\s] of [re] on a
    [str] pattern and the set [str.strip()] removes (Unicode 14.0, the
    table of CPython 3.11). *)
Definition whitespace_table : list N :=
  [9; 10; 11; 12; 13; 28; 29; 30; 31; 32; 133; 160; 5760; 8192; 8193; 8194;
   8195; 8196; 8197; 8198; 8199; 8200; 8201; 8202; 8232; 8233; 8239; 8287;
   12288]%N.

Definition isspace (c : pychar) : bool := existsb (N.eqb c) whitespace_table.

(** The decimal digits of Unicode 14.0 (general category Nd): each entry
    is the code point of a digit zero, followed by its digits one to nine.
    This is [\d] of [re] on a [str] pattern, and the digits [float] and
    [int] read. *)
Definition decimal_table : list N :=
  [48; 1632; 1776; 1984; 2406; 2534; 2662; 2790; 2918; 3046; 3174; 3302;
   3430; 3558; 3664; 3792; 3872; 4160; 4240; 6112; 6160; 6470; 6608; 6784;
   6800; 6992; 7088; 7232; 7248; 42528; 43216; 43264; 43472; 43504; 43600;
   44016; 65296; 66720; 68912; 69734; 69872; 69942; 70096; 70384; 70736;
   70864; 71248; 71360; 71472; 71904; 72016; 72784; 73040; 73120; 92768;
   92864; 93008; 120782; 120792; 120802; 120812; 120822; 123200; 123632;
   125264; 130032]%N.

Definition decimal_value (c : pychar) : option N :=
  match find (fun z => (z <=? c) && (c <? z + 10))%N decimal_table with
  | Some z => Some (c - z)%N
  | None => None
  end.

Definition isdecimal (c : pychar) : bool :=
  match decimal_value c with Some _ => true | None => false end.

Definition in_range (lo hi : string) (c : pychar) : bool :=
  match lit lo, lit hi with
  | [a], [b] => (a <=? c)%N && (c <=? b)%N
  | _, _ => false
  end.

Definition is_char (x : string) (c : pychar) : bool :=
  match lit x with
  | [a] => N.eqb a c
  | _ => false
  end.

Definition is_ascii_digit : pychar -> bool := in_range "0" "9".

(** [str.strip()]. *)
Fixpoint lstrip (s : pystr) : pystr :=
  match s with
  | c :: t => if isspace c then lstrip t else s
  | [] => []
  end.

Definition rstrip (s : pystr) : pystr := rev (lstrip (rev s)).

Definition strip (s : pystr) : pystr := rstrip (lstrip s).

(** [str.lower()] on the letters A to Z; the validator lower-cases only
    strings made of ASCII characters. *)
Definition lower_char (c : pychar) : pychar :=
  if in_range "A" "Z" c then (c + 32)%N else c.

Definition lower (s : pystr) : pystr := map lower_char s.

(** [sub in s], for a one-character [sub]. *)
Definition contains (x : string) (s : pystr) : bool := existsb (is_char x) s.

(** [str(n)] for an [int]. *)
Fixpoint digits_of_pos (fuel : nat) (n : N) (acc : pystr) : pystr :=
  match fuel with
  | O => acc
  | S fuel' =>
      let acc' := (48 + n mod 10)%N :: acc in
      if (n <? 10)%N then acc' else digits_of_pos fuel' (n / 10)%N acc'
  end.

Definition of_N (n : N) : pystr := digits_of_pos (S (N.to_nat (N.log2 n))) n [].

Definition of_Z (z : Z) : pystr :=
  match z with
  | Zneg p => lit "-" ++ of_N (Npos p)
  | _ => of_N (Z.to_N z)
  end.

(** The value of a run of ASCII digits. *)
Definition value_of_digits (ds : pystr) : N :=
  fold_left (fun acc c => (10 * acc + (c - 48))%N) ds 0%N.

Fixpoint span (p : pychar -> bool) (s : pystr) : pystr * pystr :=
  match s with
  | c :: t => if p c then let '(a, b) := span p t in (c :: a, b) else ([], s)
  | [] => ([], [])
  end.

End Str.

Import Str.

(** ** Floating-point numbers *)

Module PyFloat.

(** A Python [float]: an IEEE 754 binary64 number, in the Standard
    Library's specification of floating-point arithmetic. *)
Definition float := spec_float.

(** The nearest [float] of an integer, ties to even; infinite when the
    integer is too large. *)
Definition round_Z (z : Z) : float := binary_normalize prec emax z 0 false.

(** [float(n)] for an [int]: [None] stands for the [OverflowError] that
    Python raises when [n] is too large for a [float]. *)
Definition of_int (n : Z) : option float :=
  match round_Z n with
  | S754_infinity _ => None
  | f => Some f
  end.

(** The [float] nearest to [m * 10 ^ e], ties to even, with the sign
    [neg]: what [float] returns for a decimal literal. *)
Definition of_decimal (neg : bool) (m : N) (e : Z) : float :=
  match m with
  | N0 => S754_zero neg
  | Npos p =>
      match e with
      | Zneg k =>
          let '(q, e', l) :=
            SFdiv_core_binary prec emax (Zpos p) 0 (Zpos (Pos.pow 10 k)) 0 in
          binary_round_aux prec emax neg q e' l
      | _ => binary_round prec emax neg (p * Z.to_pos (10 ^ e)) 0
      end
  end.

(** *** [float(s)] for a [str]

    The steps of CPython's [PyFloat_FromString]. *)

(** Non-ASCII white space becomes a space and a non-ASCII decimal digit
    its ASCII digit; the first other character from code point 127 on
    becomes a question mark and ends the string.  A string of ASCII
    characters is left as it is. *)
Fixpoint transform (s : pystr) : pystr :=
  match s with
  | [] => []
  | c :: t =>
      if (c <? 127)%N then c :: transform t
      else if isspace c then 32%N :: transform t
      else match decimal_value c with
           | Some d => (48 + d)%N :: transform t
           | None => [63%N]
           end
  end.

Definition to_ascii (s : pystr) : pystr :=
  if forallb (fun c => (c <? 128)%N) s then s else transform s.

(** Underscores: allowed between two digits only.  The C code looks for
    an underscore with [strchr], which stops at a NUL character. *)
Fixpoint before_nul (s : pystr) : pystr :=
  match s with
  | c :: t => if (c =? 0)%N then [] else c :: before_nul t
  | [] => []
  end.

Fixpoint strip_underscores (prev : pychar) (s : pystr) : option pystr :=
  match s with
  | [] => if is_char "_" prev then None else Some []
  | c :: t =>
      if is_char "_" c then
        if is_ascii_digit prev then strip_underscores c t else None
      else if is_char "_" prev && negb (is_ascii_digit c) then None
      else option_map (cons c) (strip_underscores c t)
  end.

Definition remove_underscores (s : pystr) : option pystr :=
  if contains "_" (before_nul s) then
    match strip_underscores 0%N s with
    | Some t => if existsb (N.eqb 0) t then None else Some t
    | None => None
    end
  else Some s.

(** White space of the C locale, removed at both ends. *)
Definition c_isspace (c : pychar) : bool :=
  ((9 <=? c) && (c <=? 13))%N || (c =? 32)%N.

Fixpoint c_lstrip (s : pystr) : pystr :=
  match s with
  | c :: t => if c_isspace c then c_lstrip t else s
  | [] => []
  end.

Definition c_strip (s : pystr) : pystr := rev (c_lstrip (rev (c_lstrip s))).

Definition split_sign (s : pystr) : bool * pystr :=
  match s with
  | c :: t => if is_char "-" c then (true, t)
              else if is_char "+" c then (false, t)
              else (false, s)
  | [] => (false, [])
  end.

(** [inf], [infinity] and [nan], in any case. *)
Definition parse_special (neg : bool) (s : pystr) : option float :=
  let w := lower s in
  if Str.eqb w (lit "inf") || Str.eqb w (lit "infinity")
  then Some (S754_infinity neg)
  else if Str.eqb w (lit "nan") then Some S754_nan
  else None.

(** A decimal literal: digits, an optional point and digits, with a digit
    on one side of the point at least, and an optional exponent. *)
Definition parse_number (neg : bool) (s : pystr) : option float :=
  let '(ip, r1) := span is_ascii_digit s in
  let '(fp, r2) :=
    match r1 with
    | c :: t => if is_char "." c then span is_ascii_digit t else ([], r1)
    | [] => ([], r1)
    end in
  match ip ++ fp with
  | [] => None
  | ds =>
      let m := value_of_digits ds in
      let fe := (- Z.of_nat (List.length fp))%Z in
      match r2 with
      | [] => Some (of_decimal neg m fe)
      | c :: r3 =>
          if is_char "e" c || is_char "E" c then
            let '(eneg, r4) := split_sign r3 in
            let '(ed, r5) := span is_ascii_digit r4 in
            match ed, r5 with
            | _ :: _, [] =>
                let x := Z.of_N (value_of_digits ed) in
                Some (of_decimal neg m (fe + (if eneg then - x else x)))
            | _, _ => None
            end
          else None
      end
  end.

(** [float(s)]: [None] stands for the [ValueError] of a string that is
    not a number. *)
Definition of_str (s : pystr) : option float :=
  match remove_underscores (to_ascii s) with
  | None => None
  | Some t =>
      let '(neg, r) := split_sign (c_strip t) in
      match parse_special neg r with
      | Some f => Some f
      | None => parse_number neg r
      end
  end.

(** *** Comparisons

    Python compares a [float] with an [int] by their exact values. *)

Definition compare_Z (f : float) (n : Z) : option comparison :=
  match f with
  | S754_nan => None
  | S754_infinity s => Some (if s then Lt else Gt)
  | S754_zero _ => Some (0 ?= n)%Z
  | S754_finite s m e =>
      let v := if s then Zneg m else Zpos m in
      Some match e with
           | Zneg k => (v ?= n * 2 ^ Zpos k)%Z
           | _ => (v * 2 ^ e ?= n)%Z
           end
  end.

Definition compare (f g : float) : option comparison := SFcompare f g.

Definition div (f g : float) : float := SFdiv prec emax f g.

Definition eqb (f g : float) : bool :=
  match f, g with
  | S754_nan, S754_nan => true
  | S754_zero s, S754_zero t => Bool.eqb s t
  | S754_infinity s, S754_infinity t => Bool.eqb s t
  | S754_finite s m e, S754_finite t n k =>
      Bool.eqb s t && Pos.eqb m n && Z.eqb e k
  | _, _ => false
  end.

(** *** [repr(f)], which is also [str(f)] and how an f-string prints [f]

    The shortest decimal digits that [float] reads back as [f], the
    nearest to [f] among them, printed with an exponent when the decimal
    point would lie more than sixteen digits to the right of the first
    digit or more than three zeros to its left. *)

(** [p / q < 10 ^ k]. *)
Definition lt_pow10 (p q k : Z) : bool :=
  match k with
  | Zneg j => (p * 10 ^ Zpos j <? q)%Z
  | _ => (p <? q * 10 ^ k)%Z
  end.

(** The least [k] from [k0] on with [p / q < 10 ^ k]. *)
Fixpoint find_decpt (fuel : nat) (p q k0 : Z) : Z :=
  match fuel with
  | O => k0
  | S fuel' => if lt_pow10 p q k0 then k0 else find_decpt fuel' p q (k0 + 1)
  end.

(** A lower estimate of that [k], at most three below it, from the
    binary logarithms of [p] and [q]. *)
Definition decpt_estimate (p q : Z) : Z :=
  ((Z.log2 p - Z.log2 q - 1) * 30103 / 100000 - 1)%Z.

(** The [n]-digit decimal nearest to [p / q] (which lies below [10 ^ k])
    among those that read back as [x], when there is one. *)
Definition digits_at (x : float) (p q k n : Z) : option Z :=
  let '(p', q') :=
    match (n - k)%Z with
    | Zneg i => (p, q * 10 ^ Zpos i)%Z
    | j => (p * 10 ^ j, q)%Z
    end in
  let lo := (p' / q')%Z in
  let r := (p' mod q')%Z in
  let ok d := eqb (of_decimal false (Z.to_N d) (k - n)) x in
  match ok lo, ok (lo + 1)%Z with
  | true, true => Some (if (2 * r <? q')%Z then lo else lo + 1)%Z
  | true, false => Some lo
  | false, true => Some (lo + 1)%Z
  | false, false => None
  end.

Fixpoint shortest (fuel : nat) (x : float) (p q k n : Z) : Z * Z :=
  match fuel with
  | O => (0, n)%Z
  | S fuel' =>
      match digits_at x p q k n with
      | Some d => (d, n)
      | None => shortest fuel' x p q k (n + 1)
      end
  end.

Fixpoint strip_zeros (rev_digits : pystr) : pystr :=
  match rev_digits with
  | c :: t => if is_char "0" c then strip_zeros t else rev_digits
  | [] => []
  end.

Definition zeros (n : Z) : pystr := repeat 48%N (Z.to_nat n).

Definition format_exponent (e : Z) : pystr :=
  let ds := of_N (Z.to_N (Z.abs e)) in
  lit "e" ++ lit (if (e <? 0)%Z then "-" else "+")
    ++ (if (Z.abs e <? 10)%Z then lit "0" else []) ++ ds.

Definition format_digits (ds : pystr) (decpt : Z) : pystr :=
  let n := Z.of_nat (List.length ds) in
  if ((decpt <=? -4) || (16 <? decpt))%Z then
    match ds with
    | [] => []
    | d :: [] => [d] ++ format_exponent (decpt - 1)
    | d :: rest => [d] ++ lit "." ++ rest ++ format_exponent (decpt - 1)
    end
  else if (decpt <=? 0)%Z then lit "0." ++ zeros (- decpt) ++ ds
  else if (n <=? decpt)%Z then ds ++ zeros (decpt - n) ++ lit ".0"
  else firstn (Z.to_nat decpt) ds ++ lit "." ++ skipn (Z.to_nat decpt) ds.

Definition repr (x : float) : pystr :=
  match x with
  | S754_nan => lit "nan"
  | S754_infinity s => lit (if s then "-inf" else "inf")
  | S754_zero s => lit (if s then "-0.0" else "0.0")
  | S754_finite s m e =>
      let '(p, q) :=
        match e with
        | Zneg j => (Zpos m, 2 ^ Zpos j)%Z
        | _ => (Zpos m * 2 ^ e, 1)%Z
        end in
      let k := find_decpt 8 p q (decpt_estimate p q) in
      let '(d, n) := shortest 17 (S754_finite false m e) p q k 1 in
      let all := of_N (Z.to_N d) in
      let decpt := (k + (Z.of_nat (List.length all) - n))%Z in
      lit (if s then "-" else "")
        ++ format_digits (rev (strip_zeros (rev all))) decpt
  end.

End PyFloat.

(** ** Regular expressions

  The [re] module on the patterns that are written in the source: a
  backtracking matcher with Python's priorities (the first alternative
  first, the longest repetition first) and capture groups. *)

Module Re.

(** A pattern: the empty pattern, a character of a class, a sequence, an
    alternative, a greedy repetition, a group, and the dollar sign, which
    matches at the end of the string and before a newline that ends it. *)
Inductive regex :=
| Eps
| Chr (p : pychar -> bool)
| Seq (r1 r2 : regex)
| Alt (r1 r2 : regex)
| Star (r : regex)
| Group (name : string) (r : regex)
| Dollar.

Definition captures := list (string * pystr).

(** [exec r s caps k]: match [r] at the start of [s] in every way, best
    first, and give the rest of [s] to [k] until [k] accepts it. *)
Fixpoint exec {A : Type} (r : regex) (s : pystr) (caps : captures)
    (k : pystr -> captures -> option A) : option A :=
  match r with
  | Eps => k s caps
  | Chr p =>
      match s with
      | c :: t => if p c then k t caps else None
      | [] => None
      end
  | Seq r1 r2 => exec r1 s caps (fun s' caps' => exec r2 s' caps' k)
  | Alt r1 r2 =>
      match exec r1 s caps k with
      | Some x => Some x
      | None => exec r2 s caps k
      end
  | Star r1 =>
      (fix star (n : nat) (s : pystr) (caps : captures) : option A :=
         match n with
         | O => k s caps
         | S n' =>
             match exec r1 s caps
                     (fun s' caps' =>
                        if (List.length s' <? List.length s)%nat
                        then star n' s' caps' else None) with
             | Some x => Some x
             | None => k s caps
             end
         end) (List.length s) s caps
  | Group name r1 =>
      exec r1 s caps
        (fun s' caps' =>
           k s' ((name, firstn (List.length s - List.length s') s) :: caps'))
  | Dollar =>
      match s with
      | [] => k s caps
      | [c] => if (c =? 10)%N then k s caps else None
      | _ => None
      end
  end.

(** [re.match(r, s)]: the rest of [s] after the match and the groups, or
    [None] when there is no match. *)
Definition re_match (r : regex) (s : pystr) : option (pystr * captures) :=
  exec r s [] (fun s' caps => Some (s', caps)).

(** [re.search(r, s)]: the match that starts first. *)
Fixpoint re_search (r : regex) (s : pystr) : option (pystr * captures) :=
  match re_match r s with
  | Some m => Some m
  | None =>
      match s with
      | [] => None
      | _ :: t => re_search r t
      end
  end.

(** [m.group(name)]; [None] when the group did not take part in the
    match. *)
Fixpoint group (name : string) (caps : captures) : option pystr :=
  match caps with
  | (n, v) :: rest => if String.eqb n name then Some v else group name rest
  | [] => None
  end.

(** The notations of patterns: a sequence, alternatives in the order of
    the pattern, [r?], [r+], one character, a character of a set, [r{n}],
    at most [m] times [r], [r{n,m}] and [r{n,}]. *)
Definition seq (rs : list regex) : regex := fold_right Seq Eps rs.

Definition alt (r : regex) (rs : list regex) : regex := fold_left Alt rs r.

Definition opt (r : regex) : regex := Alt r Eps.

Definition plus (r : regex) : regex := Seq r (Star r).

Definition chr (x : string) : regex := Chr (is_char x).

Definition one_of (xs : string) (c : pychar) : bool :=
  existsb (N.eqb c) (lit xs).

Fixpoint rep (n : nat) (r : regex) : regex :=
  match n with
  | O => Eps
  | S n' => Seq r (rep n' r)
  end.

Fixpoint upto (m : nat) (r : regex) : regex :=
  match m with
  | O => Eps
  | S m' => opt (Seq r (upto m' r))
  end.

Definition between (n m : nat) (r : regex) : regex :=
  Seq (rep n r) (upto (m - n) r).

Definition at_least (n : nat) (r : regex) : regex := Seq (rep n r) (Star r).

End Re.

(** ** Dates *)

Module DateTime.
Import Re.

(** A [datetime.date]. *)
Record date := Date { year : N; month : N; day : N }.

Definition is_leap (y : N) : bool :=
  ((y mod 4 =? 0) && (negb (y mod 100 =? 0) || (y mod 400 =? 0)))%N.

Definition days_in_month (y m : N) : N :=
  match m with
  | 2 => if is_leap y then 29 else 28
  | 4 | 6 | 9 | 11 => 30
  | _ => 31
  end%N.

(** What the constructor of [date] accepts. *)
Definition valid_date (y m d : N) : bool :=
  ((1 <=? y) && (y <=? 9999) && (1 <=? m) && (m <=? 12)
   && (1 <=? d) && (d <=? days_in_month y m))%N.

(** The directives of the formats of the source: year, month, day, hour,
    minute and second. *)
Inductive directive := dY | dm | dd | dH | dM | dS.

(** A format: directives, characters that stand for themselves, and white
    space, which stands for the pattern "\s+". *)
Inductive item :=
| Dir (d : directive)
| Lit (c : string)
| Spaces.

Definition digit : regex := Chr isdecimal.
Definition rng (lo hi : string) : regex := Chr (in_range lo hi).

Definition directive_name (d : directive) : string :=
  match d with
  | dY => "Y" | dm => "m" | dd => "d" | dH => "H" | dM => "M" | dS => "S"
  end.

(** The patterns that [_strptime.TimeRE] gives the directives, each in a
    group of the name of its directive: "\d\d\d\d" for the year,
    "1[0-2]|0[1-9]|[1-9]" for the month,
    "3[0-1]|[1-2]\d|0[1-9]|[1-9]| [1-9]" for the day,
    "2[0-3]|[0-1]\d|\d" for the hour, "[0-5]\d|\d" for the minute and
    "6[0-1]|[0-5]\d|\d" for the second. *)
Definition directive_regex (d : directive) : regex :=
  Group (directive_name d)
    match d with
    | dY => seq [digit; digit; digit; digit]
    | dm => alt (seq [chr "1"; rng "0" "2"])
              [seq [chr "0"; rng "1" "9"]; rng "1" "9"]
    | dd => alt (seq [chr "3"; rng "0" "1"])
              [seq [rng "1" "2"; digit]; seq [chr "0"; rng "1" "9"];
               rng "1" "9"; seq [chr " "; rng "1" "9"]]
    | dH => alt (seq [chr "2"; rng "0" "3"])
              [seq [rng "0" "1"; digit]; digit]
    | dM => alt (seq [rng "0" "5"; digit]) [digit]
    | dS => alt (seq [chr "6"; rng "0" "1"])
              [seq [rng "0" "5"; digit]; digit]
    end.

Definition item_regex (i : item) : regex :=
  match i with
  | Dir d => directive_regex d
  | Lit c => chr c
  | Spaces => plus (Chr isspace)
  end.

Definition format_regex (fmt : list item) : regex := seq (map item_regex fmt).

(** [int(s)] on the text of a group: decimal digits, after an optional
    space. *)
Definition int_of (s : pystr) : N :=
  fold_left
    (fun acc c =>
       match decimal_value c with
       | Some d => (10 * acc + d)%N
       | None => acc
       end) s 0%N.

(** The number a directive has read, and its default when the format
    does not have the directive. *)
Definition field (d : directive) (default : N) (caps : captures) : N :=
  match group (directive_name d) caps with
  | Some text => int_of text
  | None => default
  end.

(** [datetime.strptime(s, fmt).date()]: [None] stands for the
    [ValueError] of text that does not match the format, of text left
    after the match, and of a date or a second that does not exist. *)
Definition strptime_date (s : pystr) (fmt : list item) : option date :=
  match re_match (format_regex fmt) s with
  | Some ([], caps) =>
      let y := field dY 1900 caps in
      let m := field dm 1 caps in
      let d := field dd 1 caps in
      if valid_date y m d && (field dS 0 caps <=? 59)%N
      then Some (Date y m d) else None
  | _ => None
  end.

(** [date.isoformat()], which is [str] of a date. *)
Definition pad (width : nat) (n : N) : pystr :=
  let ds := of_N n in
  repeat 48%N (width - List.length ds) ++ ds.

Definition isoformat (d : date) : pystr :=
  pad 4 (year d) ++ lit "-" ++ pad 2 (month d) ++ lit "-" ++ pad 2 (day d).

End DateTime.

(** ** The validator *)

Module Validator.
Import Re DateTime.

(** *** Values, exceptions *)

(** The values a caller passes to the validator and puts into the
    parameters of a rule: [None], a [bool], an [int], a [float], a [str]
    and a [datetime.date]. *)
Inductive pyval :=
| VNone
| VBool (b : bool)
| VInt (n : Z)
| VFloat (f : PyFloat.float)
| VStr (s : pystr)
| VDate (d : date).

(** The exceptions that can leave [_apply_rule]. *)
Inductive exn :=
| NameError
| RecursionError
| OverflowError
| TypeError
| AttributeError
| ReError.

(** What a call does: it returns a value or raises an exception. *)
Inductive outcome (A : Type) :=
| Ret (a : A)
| Raise (e : exn).
Arguments Ret {A} a.
Arguments Raise {A} e.

Definition bind {A B : Type} (x : outcome A) (k : A -> outcome B) : outcome B :=
  match x with
  | Ret a => k a
  | Raise e => Raise e
  end.

Notation "x <- e ;; k" := (bind e (fun x => k))
  (at level 61, e at next level, right associativity).

(** [bool(v)]. *)
Definition truthy (v : pyval) : bool :=
  match v with
  | VNone => false
  | VBool b => b
  | VInt n => negb (n =? 0)%Z
  | VFloat (S754_zero _) => false
  | VFloat _ => true
  | VStr s => match s with [] => false | _ => true end
  | VDate _ => true
  end.

(** [str(v)], the text an f-string puts for [{v}]. *)
Definition str (v : pyval) : pystr :=
  match v with
  | VNone => lit "None"
  | VBool b => lit (if b then "True" else "False")
  | VInt n => of_Z n
  | VFloat f => PyFloat.repr f
  | VStr s => s
  | VDate d => isoformat d
  end.

(** The order of two strings, by code points, and of two dates. *)
Fixpoint compare_str (s t : pystr) : comparison :=
  match s, t with
  | [], [] => Eq
  | [], _ :: _ => Lt
  | _ :: _, [] => Gt
  | c :: s', d :: t' =>
      match (c ?= d)%N with
      | Eq => compare_str s' t'
      | o => o
      end
  end.

Definition compare_date (a b : date) : comparison :=
  match (year a ?= year b)%N with
  | Eq => match (month a ?= month b)%N with
          | Eq => (day a ?= day b)%N
          | o => o
          end
  | o => o
  end.

(** A number: an [int] (of which [bool] is a subclass) or a [float]. *)
Inductive number :=
| Int (n : Z)
| Float (f : PyFloat.float).

Definition as_number (v : pyval) : option number :=
  match v with
  | VBool b => Some (Int (Z.b2z b))
  | VInt n => Some (Int n)
  | VFloat f => Some (Float f)
  | _ => None
  end.

(** The order of two numbers, by their exact values. *)
Definition compare_numbers (a b : number) : option comparison :=
  match a, b with
  | Int n, Int m => Some (n ?= m)%Z
  | Float f, Float g => PyFloat.compare f g
  | Float f, Int n => PyFloat.compare_Z f n
  | Int n, Float g => option_map CompOpp (PyFloat.compare_Z g n)
  end.

(** The order of two values: [Ret None] for two numbers that do not
    compare (one of them is not a number), [TypeError] when Python has no
    order between the types of the values. *)
Definition compare (a b : pyval) : outcome (option comparison) :=
  match as_number a, as_number b with
  | Some x, Some y => Ret (compare_numbers x y)
  | _, _ =>
      match a, b with
      | VStr s, VStr t => Ret (Some (compare_str s t))
      | VDate d, VDate e => Ret (Some (compare_date d e))
      | _, _ => Raise TypeError
      end
  end.

(** [a < b], [a <= b], [a > b] and [a >= b]. *)
Definition lt (a b : pyval) : outcome bool :=
  c <- compare a b ;; Ret match c with Some Lt => true | _ => false end.
Definition le (a b : pyval) : outcome bool :=
  c <- compare a b ;; Ret match c with Some (Lt | Eq) => true | _ => false end.
Definition gt (a b : pyval) : outcome bool :=
  c <- compare a b ;; Ret match c with Some Gt => true | _ => false end.
Definition ge (a b : pyval) : outcome bool :=
  c <- compare a b ;; Ret match c with Some (Gt | Eq) => true | _ => false end.

(** A [dict] with [str] keys, as the list of its items. *)
Definition dict := list (pystr * pyval).

Fixpoint get (d : dict) (key : string) : option pyval :=
  match d with
  | (k, v) :: rest => if Str.eqb k (lit key) then Some v else get rest key
  | [] => None
  end.

(** *** The data model of the source *)

Inductive ValidationRule :=
| REQUIRED | NUMERIC | POSITIVE | NEGATIVE | PERCENTAGE | CURRENCY | DATE
| EMAIL | PHONE | TAX_ID | RANGE | LENGTH | REGEX | CUSTOM.

(** [cleaned_value] is [VNone] when the constructor is called with three
    arguments. *)
Record ValidationResult := Result {
  is_valid : bool;
  errors : list pystr;
  warnings : list pystr;
  cleaned_value : pyval
}.

Record ValidationRuleConfig := Config {
  rule_type : ValidationRule;
  parameters : option dict;
  error_message : option pystr;
  warning_message : option pystr
}.

(** [ValidationRuleConfig(rule)]. *)
Definition RuleConfig (r : ValidationRule) : ValidationRuleConfig :=
  Config r None None None.

(** [message or default]: the default also replaces an empty message. *)
Definition or_default (message : option pystr) (default : string) : pystr :=
  match message with
  | Some (c :: s) => c :: s
  | _ => lit default
  end.

(** *** The patterns of the source *)

(** The pattern "[$,€£¥₹\s]". *)
Definition numeric_noise (c : pychar) : bool :=
  one_of "$," c || existsb (N.eqb c) [8364; 163; 165; 8377]%N || isspace c.

(** The pattern of line 128, with a space between its parts:
    "[^\d.,]* ( [\d,]+ \.? \d* )". *)
Definition currency_pattern : regex :=
  seq [Star (Chr (fun c => negb (isdecimal c || one_of ".," c)));
       Group "1" (seq [plus (Chr (fun c => isdecimal c || is_char "," c));
                       opt (chr "."); Star (Chr isdecimal)])].

(** The pattern "^[a-zA-Z0-9._%+-]+@[a-zA-Z0-9.-]+\.[a-zA-Z]{2,}$". *)
Definition alnum (c : pychar) : bool :=
  in_range "a" "z" c || in_range "A" "Z" c || in_range "0" "9" c.

Definition email_pattern : regex :=
  seq [plus (Chr (fun c => alnum c || one_of "._%+-" c)); chr "@";
       plus (Chr (fun c => alnum c || one_of ".-" c)); chr ".";
       at_least 2 (Chr (fun c => in_range "a" "z" c || in_range "A" "Z" c));
       Dollar].

(** The patterns
    "^\+?1?[-.\s]?\(?([0-9]{3})\)?[-.\s]?([0-9]{3})[-.\s]?([0-9]{4})$"
    and
    "^\+?([0-9]{1,4})[-.\s]?([0-9]{3,4})[-.\s]?([0-9]{3,4})[-.\s]?([0-9]{3,4})$". *)
Definition separator : regex := Chr (fun c => one_of "-." c || isspace c).
Definition digit09 : regex := Chr (in_range "0" "9").

Definition phone_patterns : list regex :=
  [seq [opt (chr "+"); opt (chr "1"); opt separator; opt (chr "(");
        Group "1" (rep 3 digit09); opt (chr ")"); opt separator;
        Group "2" (rep 3 digit09); opt separator;
        Group "3" (rep 4 digit09); Dollar];
   seq [opt (chr "+"); Group "1" (between 1 4 digit09); opt separator;
        Group "2" (between 3 4 digit09); opt separator;
        Group "3" (between 3 4 digit09); opt separator;
        Group "4" (between 3 4 digit09); Dollar]].

(** The patterns "^\d{2}-\d{7}$" and "^\d{3}-\d{2}-\d{4}$". *)
Definition ein_pattern : regex :=
  seq [rep 2 digit; chr "-"; rep 7 digit; Dollar].
Definition ssn_pattern : regex :=
  seq [rep 3 digit; chr "-"; rep 2 digit; chr "-"; rep 4 digit; Dollar].

(** The formats "%Y-%m-%d", "%m/%d/%Y", "%d/%m/%Y" and
    "%Y-%m-%d %H:%M:%S", and their list in the order of the source. *)
Definition year_month_day : list item :=
  [Dir dY; Lit "-"; Dir dm; Lit "-"; Dir dd].
Definition month_day_year : list item :=
  [Dir dm; Lit "/"; Dir dd; Lit "/"; Dir dY].
Definition day_month_year : list item :=
  [Dir dd; Lit "/"; Dir dm; Lit "/"; Dir dY].
Definition year_month_day_time : list item :=
  [Dir dY; Lit "-"; Dir dm; Lit "-"; Dir dd; Spaces;
   Dir dH; Lit ":"; Dir dM; Lit ":"; Dir dS].

Definition date_formats : list (list item) :=
  [year_month_day; month_day_year; day_month_year; year_month_day_time].

Definition matches (r : regex) (s : pystr) : bool :=
  match re_match r s with Some _ => true | None => false end.

(** *** The two methods *)

(** [rule == ValidationRule.REQUIRED] *)
Definition is_required (r : ValidationRule) : bool :=
  match r with REQUIRED => true | _ => false end.

(** [value is None or value == ''] *)
Definition none_or_empty (value : pyval) : bool :=
  match value with
  | VNone => true
  | VStr [] => true
  | _ => false
  end.

(** [value is None or value == '' or
     (isinstance(value, str) and value.strip() == '')] *)
Definition blank (value : pyval) : bool :=
  none_or_empty value
  || match value with
     | VStr s => match strip s with [] => true | _ => false end
     | _ => false
     end.

(** [d.get(key)] and [d.get(key, default)]. *)
Definition get_or (d : dict) (key : string) (default : pyval) : pyval :=
  match get d key with
  | Some v => v
  | None => default
  end.

(** [val / 100]: the division of floats for a [float], and the [float]
    nearest to the quotient for an [int]. *)
Definition div_100 (val : pyval) : outcome pyval :=
  match as_number val with
  | Some (Float f) => Ret (VFloat (PyFloat.div f (PyFloat.round_Z 100)))
  | Some (Int n) =>
      match PyFloat.of_decimal (n <? 0)%Z (Z.to_N (Z.abs n)) (-2) with
      | S754_infinity _ => Raise OverflowError
      | f => Ret (VFloat f)
      end
  | None => Raise TypeError
  end.

(** The loop over [date_formats]: the first format that parses wins. *)
Fixpoint first_parse (s : pystr) (formats : list (list item)) : option date :=
  match formats with
  | fmt :: rest =>
      match strptime_date s fmt with
      | Some parsed_date => Some parsed_date
      | None => first_parse s rest
      end
  | [] => None
  end.

(** [return ValidationResult(True, [], [], float(value))] for an [int],
    of which [bool] is a subclass. *)
Definition float_of_int (n : Z) : outcome ValidationResult :=
  match PyFloat.of_int n with
  | Some f => Ret (Result true [] [] (VFloat f))
  | None => Raise OverflowError
  end.

(** The last line of [_apply_rule],
    [return ValidationResult(True, [], [], cleaned_value)]: the name
    [cleaned_value] is bound neither in [_apply_rule] nor in the module,
    so the line raises [NameError]. *)
Definition return_cleaned_value : outcome ValidationResult := Raise NameError.

(** [return ValidationResult(False,
      [rule_config.error_message or default], [])] *)
Definition failure (rule_config : ValidationRuleConfig) (default : string)
    : outcome ValidationResult :=
  Ret (Result false [or_default (error_message rule_config) default] [] VNone).

Section Rules.

(** [re.match(pattern, s)] for a pattern that the caller puts into the
    parameters of a REGEX rule: whether there is a match, or the
    exception of a pattern that does not compile.  The syntax of
    patterns is not part of the repository. *)
Variable re_match_user : pystr -> pystr -> outcome bool.

(** [depth] is the number of nested calls the interpreter still
    allows; a call beyond it raises [RecursionError]. *)
Fixpoint _apply_rule (depth : nat) (value : pyval)
    (rule_config : ValidationRuleConfig) {struct depth}
    : outcome ValidationResult :=
  match depth with
  | O => Raise RecursionError
  | S depth' =>
    let rule := rule_type rule_config in
    let params := match parameters rule_config with
                  | Some d => d
                  | None => []
                  end in
    if is_required rule && blank value then failure rule_config "Field is required"
    else if none_or_empty value then Ret (Result true [] [] VNone)
    else
      match rule with
      | NUMERIC =>
          match value with
          | VStr s =>
              let cleaned := filter (fun c => negb (numeric_noise c)) (strip s) in
              match PyFloat.of_str cleaned with
              | Some float_val => Ret (Result true [] [] (VFloat float_val))
              | None => failure rule_config "Invalid numeric value"
              end
          | VInt n => float_of_int n
          | VBool b => float_of_int (Z.b2z b)
          | VFloat f => Ret (Result true [] [] (VFloat f))
          | _ => failure rule_config "Value must be numeric"
          end
      | POSITIVE =>
          numeric_result <- _apply_rule depth' value (RuleConfig NUMERIC) ;;
          if negb (is_valid numeric_result) then Ret numeric_result
          else
            not_positive <- le (cleaned_value numeric_result) (VInt 0) ;;
            if not_positive then failure rule_config "Value must be positive"
            else return_cleaned_value
      | NEGATIVE =>
          numeric_result <- _apply_rule depth' value (RuleConfig NEGATIVE) ;;
          if negb (is_valid numeric_result) then Ret numeric_result
          else
            not_negative <- ge (cleaned_value numeric_result) (VInt 0) ;;
            if not_negative then failure rule_config "Value must be negative"
            else return_cleaned_value
      | PERCENTAGE =>
          numeric_result <- _apply_rule depth' value (RuleConfig NUMERIC) ;;
          if negb (is_valid numeric_result) then Ret numeric_result
          else
            val <- match value with
                   | VStr s =>
                       if contains "%" s
                       then div_100 (cleaned_value numeric_result)
                       else Ret (cleaned_value numeric_result)
                   | _ => Ret (cleaned_value numeric_result)
                   end ;;
            at_least_0 <- le (VInt 0) val ;;
            in_unit <- (if at_least_0 then le val (VInt 1) else Ret false) ;;
            if negb in_unit then
              Ret (Result false []
                     [or_default (warning_message rule_config)
                        "Percentage should be between 0% and 100%"] VNone)
            else Ret (Result true [] [] val)
      | CURRENCY =>
          match value with
          | VStr s =>
              match re_search currency_pattern s with
              | Some (_, caps) =>
                  match group "1" caps with
                  | Some text =>
                      let amount_str :=
                        filter (fun c => negb (is_char "," c)) text in
                      match PyFloat.of_str amount_str with
                      | Some amount => Ret (Result true [] [] (VFloat amount))
                      | None => failure rule_config "Invalid currency format"
                      end
                  | None => Raise AttributeError
                  end
              | None => failure rule_config "Invalid currency format"
              end
          | _ => return_cleaned_value
          end
      | DATE =>
          match value with
          | VDate _ => Ret (Result true [] [] value)
          | VStr s =>
              match first_parse s date_formats with
              | Some parsed_date => Ret (Result true [] [] (VDate parsed_date))
              | None => failure rule_config "Invalid date format"
              end
          | _ => return_cleaned_value
          end
      | EMAIL =>
          match value with
          | VStr s =>
              if matches email_pattern s
              then Ret (Result true [] [] (VStr (lower s)))
              else failure rule_config "Invalid email format"
          | _ => failure rule_config "Invalid email format"
          end
      | PHONE =>
          match value with
          | VStr s =>
              if existsb (fun pattern => matches pattern s) phone_patterns then
                let cleaned := filter (fun c => isdecimal c || is_char "+" c) s in
                Ret (Result true [] [] (VStr cleaned))
              else failure rule_config "Invalid phone format"
          | _ => return_cleaned_value
          end
      | TAX_ID =>
          match value with
          | VStr s =>
              let cleaned := filter (fun c => isdecimal c || is_char "-" c) s in
              if matches ein_pattern cleaned || matches ssn_pattern cleaned
              then Ret (Result true [] [] (VStr cleaned))
              else failure rule_config "Invalid Tax ID format"
          | _ => return_cleaned_value
          end
      | RANGE =>
          numeric_result <- _apply_rule depth' value (RuleConfig NUMERIC) ;;
          if negb (is_valid numeric_result) then Ret numeric_result
          else
            let min_val := get_or params "min" VNone in
            let max_val := get_or params "max" VNone in
            let val := cleaned_value numeric_result in
            below <- match min_val with
                     | VNone => Ret false
                     | _ => lt val min_val
                     end ;;
            if below then
              Ret (Result false
                     [lit "Value must be at least " ++ str min_val] [] VNone)
            else
              above <- match max_val with
                       | VNone => Ret false
                       | _ => gt val max_val
                       end ;;
              if above then
                Ret (Result false
                       [lit "Value must not exceed " ++ str max_val] [] VNone)
              else return_cleaned_value
      | LENGTH =>
          match value with
          | VStr s =>
              let min_len := get_or params "min" (VInt 0) in
              let max_len := get_or params "max" (VFloat (S754_infinity false)) in
              let len := VInt (Z.of_nat (List.length s)) in
              short <- lt len min_len ;;
              if short then
                Ret (Result false [lit "Minimum length is " ++ str min_len] [] VNone)
              else
                long <- gt len max_len ;;
                if long then
                  Ret (Result false
                         [lit "Maximum length is " ++ str max_len] [] VNone)
                else return_cleaned_value
          | _ => return_cleaned_value
          end
      | REGEX =>
          let pattern := get_or params "pattern" VNone in
          match value with
          | VStr s =>
              if truthy pattern then
                found <- match pattern with
                         | VStr p => re_match_user p s
                         | _ => Raise TypeError
                         end ;;
                if negb found then
                  failure rule_config "Value doesn't match required pattern"
                else return_cleaned_value
              else return_cleaned_value
          | _ => return_cleaned_value
          end
      | REQUIRED | CUSTOM => return_cleaned_value
      end
  end.

(** The loop of [validate_field] from the rule [rules] on, with the
    lists and the cleaned value collected so far. *)
Fixpoint validate_rules (depth : nat) (value : pyval)
    (rules : list ValidationRuleConfig)
    (errors warnings : list pystr) (cleaned_value : pyval)
    : outcome ValidationResult :=
  match rules with
  | [] =>
      Ret (Result (Nat.eqb (List.length errors) 0) errors warnings cleaned_value)
  | rule_config :: rest =>
      result <- _apply_rule depth value rule_config ;;
      validate_rules depth value rest
        (errors ++ result.(Validator.errors))
        (warnings ++ result.(Validator.warnings))
        match result.(Validator.cleaned_value) with
        | VNone => cleaned_value
        | c => c
        end
  end.

Definition validate_field (depth : nat) (value : pyval)
    (rules : list ValidationRuleConfig) : outcome ValidationResult :=
  validate_rules depth value rules [] [] value.

End Rules.

End Validator.

(** ** Operators and built-in functions

  What the methods below use of Python beyond the two methods above:
  [==] and [in], [+], [-] and [abs], the days between two dates,
  [str.join], [list.index] and the items of a [dict]. *)

Module Operators.
Import DateTime Validator.

(** [a == b]: numbers are equal by their exact values, whatever their
    types; values of different kinds are not equal. *)
Definition equal (a b : pyval) : bool :=
  match as_number a, as_number b with
  | Some x, Some y =>
      match compare_numbers x y with
      | Some Eq => true
      | _ => false
      end
  | _, _ =>
      match a, b with
      | VNone, VNone => true
      | VStr s, VStr t => Str.eqb s t
      | VDate d, VDate e =>
          match compare_date d e with
          | Eq => true
          | _ => false
          end
      | _, _ => false
      end
  end.

(** [x in l] for a list [l]. *)
Definition member (x : pyval) (l : list pyval) : bool :=
  existsb (fun e => equal e x) l.

(** [l.index(x)]: [None] stands for the [ValueError] of a value that is
    not in the list. *)
Fixpoint index (x : pyval) (l : list pyval) : option nat :=
  match l with
  | e :: rest => if equal e x then Some O else option_map S (index x rest)
  | [] => None
  end.

(** [sep.join(l)]. *)
Fixpoint join (sep : pystr) (l : list pystr) : pystr :=
  match l with
  | [] => []
  | s :: rest =>
      match rest with
      | [] => s
      | _ :: _ => s ++ sep ++ join sep rest
      end
  end.

(** The float of a number in mixed arithmetic: an [int] that is too large
    for a [float] raises [OverflowError]. *)
Definition to_float (x : number) : outcome PyFloat.float :=
  match x with
  | Int n =>
      match PyFloat.of_int n with
      | Some f => Ret f
      | None => Raise OverflowError
      end
  | Float f => Ret f
  end.

Definition of_number (x : number) : pyval :=
  match x with
  | Int n => VInt n
  | Float f => VFloat f
  end.

(** [x + y] and [x - y] for two numbers: exact on two [int], the float
    operation after the conversion of an [int] otherwise. *)
Definition add_numbers (x y : number) : outcome number :=
  match x, y with
  | Int n, Int m => Ret (Int (n + m))
  | _, _ => f <- to_float x ;; g <- to_float y ;; Ret (Float (SFadd prec emax f g))
  end.

Definition sub_numbers (x y : number) : outcome number :=
  match x, y with
  | Int n, Int m => Ret (Int (n - m))
  | _, _ => f <- to_float x ;; g <- to_float y ;; Ret (Float (SFsub prec emax f g))
  end.

(** [a + b]: the sum of two numbers, the concatenation of two strings. *)
Definition add (a b : pyval) : outcome pyval :=
  match as_number a, as_number b with
  | Some x, Some y => z <- add_numbers x y ;; Ret (of_number z)
  | _, _ =>
      match a, b with
      | VStr s, VStr t => Ret (VStr (s ++ t))
      | _, _ => Raise TypeError
      end
  end.

(** [date.toordinal()]: the number of the day, day 1 being 1 January of
    the year 1. *)
Definition days_before_year (y : N) : Z :=
  let y' := (Z.of_N y - 1)%Z in
  (y' * 365 + y' / 4 - y' / 100 + y' / 400)%Z.

Definition days_before_month (y m : N) : Z :=
  fold_left (fun days i => (days + Z.of_N (days_in_month y (N.of_nat i)))%Z)
    (List.seq 1 (N.to_nat m - 1)) 0%Z.

Definition toordinal (d : date) : Z :=
  (days_before_year (year d) + days_before_month (year d) (month d)
   + Z.of_N (day d))%Z.

(** What [a - b] is: a number, or the [timedelta] between two dates, of
    which the source reads the days only. *)
Inductive difference :=
| Number (x : number)
| Timedelta (days : Z).

Definition sub (a b : pyval) : outcome difference :=
  match as_number a, as_number b with
  | Some x, Some y => z <- sub_numbers x y ;; Ret (Number z)
  | _, _ =>
      match a, b with
      | VDate d, VDate e => Ret (Timedelta (toordinal d - toordinal e))
      | _, _ => Raise TypeError
      end
  end.

(** [abs(x)]. *)
Definition abs (x : difference) : difference :=
  match x with
  | Number (Int n) => Number (Int (Z.abs n))
  | Number (Float f) => Number (Float (SFabs f))
  | Timedelta d => Timedelta (Z.abs d)
  end.

(** [x > f] for a float [f]. *)
Definition exceeds (x : difference) (f : PyFloat.float) : outcome bool :=
  match x with
  | Number n =>
      Ret match compare_numbers n (Float f) with
          | Some Gt => true
          | _ => false
          end
  | Timedelta _ => Raise TypeError
  end.

(** [x.days]. *)
Definition days (x : difference) : outcome Z :=
  match x with
  | Timedelta d => Ret d
  | Number _ => Raise AttributeError
  end.

(** [v or 0]. *)
Definition or_zero (v : pyval) : pyval := if truthy v then v else VInt 0.

(** A [dict] with [str] keys and values of any type, as the list of its
    items in the order of their insertion: [d.get(key)], where [None]
    stands for a key that is not in [d], and [d[key] = v], which keeps the
    place of a key that is in [d]. *)
Fixpoint lookup {V : Type} (d : list (pystr * V)) (key : pystr) : option V :=
  match d with
  | (k, v) :: rest => if Str.eqb k key then Some v else lookup rest key
  | [] => None
  end.

Fixpoint setitem {V : Type} (d : list (pystr * V)) (key : pystr) (v : V)
    : list (pystr * V) :=
  match d with
  | (k, w) :: rest =>
      if Str.eqb k key then (k, v) :: rest else (k, w) :: setitem rest key v
  | [] => [(key, v)]
  end.

End Operators.

(** ** The validators of records

  [validate_financial_statement], [validate_rental_data],
  [validate_expense_data] and [validate_cash_flow_data]: each validates
  the fields of a [dict] that it has rules for, and adds checks across
  the fields. *)

Module Records.
Import Validator Operators.

(** The results of a record: a [dict] from the name of a field or of a
    check to its result. *)
Definition results := list (pystr * ValidationResult).

(** [ValidationRuleConfig(ValidationRule.RANGE, {'min': lo, 'max': hi})]
    and [ValidationRuleConfig(ValidationRule.LENGTH, {...})]. *)
Definition Range (lo hi : Z) : ValidationRuleConfig :=
  Config RANGE (Some [(lit "min", VInt lo); (lit "max", VInt hi)]) None None.

Definition Length (params : dict) : ValidationRuleConfig :=
  Config LENGTH (Some params) None None.

(** The rules of the four methods, in the order of the source. *)
Definition statement_rules : list (string * list ValidationRuleConfig) :=
  [("revenue", [RuleConfig REQUIRED; RuleConfig POSITIVE]);
   ("expenses", [RuleConfig REQUIRED; RuleConfig POSITIVE]);
   ("assets", [RuleConfig POSITIVE]);
   ("liabilities", [RuleConfig POSITIVE]);
   ("equity", [RuleConfig NUMERIC])]%string.

Definition rental_rules : list (string * list ValidationRuleConfig) :=
  [("monthly_rent",
    [RuleConfig REQUIRED; RuleConfig CURRENCY; RuleConfig POSITIVE]);
   ("security_deposit", [RuleConfig CURRENCY; RuleConfig POSITIVE]);
   ("lease_start_date", [RuleConfig REQUIRED; RuleConfig DATE]);
   ("lease_end_date", [RuleConfig REQUIRED; RuleConfig DATE]);
   ("square_feet", [RuleConfig POSITIVE; Range 100 50000]);
   ("bedrooms", [Range 0 20]);
   ("bathrooms", [Range 0 20])]%string.

Definition expense_rules : list (string * list ValidationRuleConfig) :=
  [("amount", [RuleConfig REQUIRED; RuleConfig CURRENCY; RuleConfig POSITIVE]);
   ("date", [RuleConfig REQUIRED; RuleConfig DATE]);
   ("vendor_id",
    [RuleConfig REQUIRED; Length [(lit "min", VInt 1); (lit "max", VInt 50)]]);
   ("category", [RuleConfig REQUIRED]);
   ("invoice_number", [Length [(lit "max", VInt 50)]]);
   ("description", [Length [(lit "max", VInt 500)]])]%string.

Definition cash_flow_rules : list (string * list ValidationRuleConfig) :=
  [("amount", [RuleConfig REQUIRED; RuleConfig CURRENCY; RuleConfig POSITIVE]);
   ("date", [RuleConfig REQUIRED; RuleConfig DATE]);
   ("flow_type", [RuleConfig REQUIRED]);
   ("direction", [RuleConfig REQUIRED]);
   ("description",
    [RuleConfig REQUIRED; Length [(lit "min", VInt 5); (lit "max", VInt 200)]])]%string.

Definition valid_categories : list string :=
  ["Rent/Lease"; "Utilities"; "Salaries & Wages"; "Employee Benefits";
   "Insurance"; "Marketing & Advertising"; "Office Supplies";
   "Maintenance & Repairs"; "Professional Fees"; "Travel & Entertainment";
   "Raw Materials"; "Inventory Purchases"; "Freight & Shipping";
   "Equipment"; "Property"; "Vehicles"; "Software";
   "Interest Expense"; "Bank Fees"; "Taxes";
   "Depreciation"; "Amortization"; "Other"]%string.

Definition valid_flow_types : list string :=
  ["Operating"; "Investing"; "Financing"]%string.

Definition valid_directions : list string := ["Inflow"; "Outflow"]%string.

(** [value in names] and [', '.join(names)] for a list of literals. *)
Definition one_of_names (value : pyval) (names : list string) : bool :=
  member value (map (fun name => VStr (lit name)) names).

Definition names_text (names : list string) : pystr :=
  join (lit ", ") (map lit names).

(** The message of the balance check, which holds the character of code
    point 8800, the sign "not equal to". *)
Definition balance_message : pystr :=
  lit "Balance sheet doesn't balance: Assets " ++ [8800%N]
  ++ lit " Liabilities + Equity".

(** The literals [0.01] and [0.5]. *)
Definition one_hundredth : PyFloat.float := PyFloat.of_decimal false 1 (-2).
Definition one_half : PyFloat.float := PyFloat.of_decimal false 5 (-1).

Section Methods.

Variable re_match_user : pystr -> pystr -> outcome bool.

(** The loop that the four methods start with,

      [for field, rules in validation_rules.items():
           if field in data:
               results[field] = self.validate_field(data[field], rules)]

    from the item [validation_rules] on. *)
Fixpoint validate_fields (depth : nat) (data : dict)
    (validation_rules : list (string * list ValidationRuleConfig))
    (results : results) : outcome Records.results :=
  match validation_rules with
  | [] => Ret results
  | (field, rules) :: rest =>
      match get data field with
      | Some value =>
          result <- validate_field re_match_user depth value rules ;;
          validate_fields depth data rest (setitem results (lit field) result)
      | None => validate_fields depth data rest results
      end
  end.

Definition validate_financial_statement (depth : nat) (statement_data : dict)
    : outcome results :=
  results <- validate_fields depth statement_data statement_rules [] ;;
  match lookup results (lit "assets"), lookup results (lit "liabilities"),
        lookup results (lit "equity") with
  | Some assets, Some liabilities, Some equity =>
      let assets_val := or_zero (cleaned_value assets) in
      let liabilities_val := or_zero (cleaned_value liabilities) in
      let equity_val := or_zero (cleaned_value equity) in
      total <- add liabilities_val equity_val ;;
      difference <- sub assets_val total ;;
      unbalanced <- exceeds (abs difference) one_hundredth ;;
      if unbalanced then
        Ret (setitem results (lit "balance_check")
               (Result false [balance_message] [] VNone))
      else
        Ret (setitem results (lit "balance_check") (Result true [] [] VNone))
  | _, _, _ => Ret results
  end.

Definition validate_rental_data (depth : nat) (rental_data : dict)
    : outcome results :=
  results <- validate_fields depth rental_data rental_rules [] ;;
  match lookup results (lit "lease_start_date"),
        lookup results (lit "lease_end_date") with
  | Some lease_start, Some lease_end =>
      if is_valid lease_start && is_valid lease_end then
        let start_date := cleaned_value lease_start in
        let end_date := cleaned_value lease_end in
        not_before <- ge start_date end_date ;;
        if not_before then
          Ret (setitem results (lit "date_range")
                 (Result false [lit "Lease start date must be before end date"]
                    [] VNone))
        else
          term <- sub end_date start_date ;;
          lease_days <- days term ;;
          if (lease_days <? 30)%Z then
            Ret (setitem results (lit "date_range")
                   (Result true [] [lit "Very short lease term - please verify"]
                      VNone))
          else if (lease_days >? 365 * 5)%Z then
            Ret (setitem results (lit "date_range")
                   (Result true [] [lit "Very long lease term - please verify"]
                      VNone))
          else Ret (setitem results (lit "date_range") (Result true [] [] VNone))
      else Ret results
  | _, _ => Ret results
  end.

Definition validate_expense_data (depth : nat) (expense_data : dict)
    : outcome results :=
  results <- validate_fields depth expense_data expense_rules [] ;;
  let results :=
    match get expense_data "category" with
    | Some category =>
        if negb (one_of_names category valid_categories) then
          setitem results (lit "category")
            (Result false
               [lit "Invalid category. Must be one of: "
                ++ names_text valid_categories] [] VNone)
        else results
    | None => results
    end in
  match lookup results (lit "amount") with
  | Some amount_result =>
      if is_valid amount_result then
        let amount := cleaned_value amount_result in
        large <- gt amount (VInt 100000) ;;
        if large then
          Ret (setitem results (lit "amount_check")
                 (Result true []
                    [lit "Large expense amount - please verify accuracy"] VNone))
        else Ret results
      else Ret results
  | None => Ret results
  end.

Definition validate_cash_flow_data (depth : nat) (cash_flow_data : dict)
    : outcome results :=
  results <- validate_fields depth cash_flow_data cash_flow_rules [] ;;
  let results :=
    match get cash_flow_data "flow_type" with
    | Some flow_type =>
        if negb (one_of_names flow_type valid_flow_types) then
          setitem results (lit "flow_type")
            (Result false
               [lit "Flow type must be one of: " ++ names_text valid_flow_types]
               [] VNone)
        else results
    | None => results
    end in
  let results :=
    match get cash_flow_data "direction" with
    | Some direction =>
        if negb (one_of_names direction valid_directions) then
          setitem results (lit "direction")
            (Result false
               [lit "Direction must be one of: " ++ names_text valid_directions]
               [] VNone)
        else results
    | None => results
    end in
  Ret results.

End Methods.

End Records.

(** ** The validator of worksheets: [validate_excel_data] *)

Module Worksheet.
Import Validator Operators.

(** An item of [validation_details]:
    [{'row': row_idx, 'errors': [...], 'warnings': [...]}]. *)
Record row_results := RowResults {
  row : nat;
  errors : list pystr;
  warnings : list pystr
}.

(** The [dict] of the summary. *)
Record summary := Summary {
  total_rows : nat;
  total_errors : nat;
  total_warnings : nat;
  error_rows : list nat;
  validation_details : list row_results;
  is_valid : bool
}.

(** What [validate_excel_data] returns: [{'error': message}],
    [{'header_errors': header_issues}], or the summary. *)
Inductive report :=
| Error (error : pystr)
| HeaderErrors (header_errors : list pystr)
| Validated (s : summary).

(** The loop over [expected_columns] that collects [header_issues]. *)
Fixpoint header_issues (expected_columns : list pystr) (headers : list pyval)
    : list pystr :=
  match expected_columns with
  | [] => []
  | expected_col :: rest =>
      if negb (member (VStr expected_col) headers)
      then (lit "Missing required column: " ++ expected_col)
           :: header_issues rest headers
      else header_issues rest headers
  end.

(** [{col: headers.index(col) for col in expected_columns
      if col in headers}], from the column [expected_columns] on. *)
Fixpoint column_indices (expected_columns : list pystr) (headers : list pyval)
    (indices : list (pystr * nat)) : list (pystr * nat) :=
  match expected_columns with
  | [] => indices
  | col :: rest =>
      match index (VStr col) headers with
      | Some col_idx => column_indices rest headers (setitem indices col col_idx)
      | None => column_indices rest headers indices
      end
  end.

(** [[f"{col_name}: {text}" for text in texts]] *)
Definition with_column (col_name : pystr) (texts : list pystr) : list pystr :=
  map (fun text => col_name ++ lit ": " ++ text) texts.

Section Method.

Variable re_match_user : pystr -> pystr -> outcome bool.

(** The loop over [column_indices.items()] for one row, from the column
    [columns] on, with the lists of the row collected so far. *)
Fixpoint validate_row (depth : nat) (row : list pyval)
    (columns : list (pystr * nat))
    (column_rules : list (pystr * list ValidationRuleConfig))
    (errors warnings : list pystr) : outcome (list pystr * list pystr) :=
  match columns with
  | [] => Ret (errors, warnings)
  | (col_name, col_idx) :: rest =>
      match nth_error row col_idx with
      | Some cell_value =>
          let rules := match lookup column_rules col_name with
                       | Some rules => rules
                       | None => []
                       end in
          match rules with
          | _ :: _ =>
              validation <- validate_field re_match_user depth cell_value rules ;;
              let errors :=
                if negb (Validator.is_valid validation)
                then errors ++ with_column col_name (Validator.errors validation)
                else errors in
              let warnings :=
                match Validator.warnings validation with
                | _ :: _ =>
                    warnings
                    ++ with_column col_name (Validator.warnings validation)
                | [] => warnings
                end in
              validate_row depth row rest column_rules errors warnings
          | [] => validate_row depth row rest column_rules errors warnings
          end
      | None => validate_row depth row rest column_rules errors warnings
      end
  end.

(** The loop over the rows after the header, from the row of number
    [row_idx] on. *)
Fixpoint validate_data_rows (depth : nat) (rows : list (list pyval))
    (row_idx : nat) (columns : list (pystr * nat))
    (column_rules : list (pystr * list ValidationRuleConfig))
    : outcome (list row_results) :=
  match rows with
  | [] => Ret []
  | row :: rest =>
      lists <- validate_row depth row columns column_rules [] [] ;;
      validation_results <-
        validate_data_rows depth rest (S row_idx) columns column_rules ;;
      Ret (RowResults row_idx (fst lists) (snd lists) :: validation_results)
  end.

Definition sum (l : list nat) : nat := fold_left Nat.add l 0.

Definition validate_excel_data (depth : nat)
    (worksheet_data : list (list pyval)) (expected_columns : list pystr)
    (column_rules : list (pystr * list ValidationRuleConfig))
    : outcome report :=
  match worksheet_data with
  | [] => Ret (Error (lit "No data provided"))
  | headers :: data_rows =>
      let header_issues := header_issues expected_columns headers in
      match header_issues with
      | _ :: _ => Ret (HeaderErrors header_issues)
      | [] =>
          let columns := column_indices expected_columns headers [] in
          validation_results <-
            validate_data_rows depth data_rows 2 columns column_rules ;;
          let total_errors :=
            sum (map (fun r => List.length (errors r)) validation_results) in
          let total_warnings :=
            sum (map (fun r => List.length (warnings r)) validation_results) in
          let error_rows :=
            map row
              (filter (fun r => match errors r with [] => false | _ => true end)
                 validation_results) in
          Ret (Validated
                 (Summary (List.length validation_results) total_errors
                    total_warnings error_rows validation_results
                    (Nat.eqb total_errors 0)))
      end
  end.

End Method.

End Worksheet.

(** ** The validators of parameters: [validate_loan_parameters] and
    [validate_npv_parameters] *)

Module Parameters.
Import Validator Operators.

Section Functions.

Variable re_match_user : pystr -> pystr -> outcome bool.

Definition validate_loan_parameters (depth : nat)
    (principal annual_rate years : pyval) : outcome ValidationResult :=
  principal_result <-
    validate_field re_match_user depth principal
      [RuleConfig REQUIRED; RuleConfig POSITIVE] ;;
  let errors := errors principal_result in
  let warnings := [] in
  not_positive <- le annual_rate (VInt 0) ;;
  out_of_range <- (if not_positive then Ret true else gt annual_rate (VInt 1)) ;;
  lists <-
    (if out_of_range then
       above_one <- gt annual_rate (VInt 1) ;;
       if above_one then
         Ret (errors,
              warnings ++
              [lit "Interest rate appears to be in percentage form - should be decimal"])
       else Ret (errors ++ [lit "Interest rate must be positive"], warnings)
     else Ret (errors, warnings)) ;;
  let errors := fst lists in
  let warnings := snd lists in
  high <- gt annual_rate (VFloat Records.one_half) ;;
  let warnings :=
    if high then warnings ++ [lit "Very high interest rate - please verify"]
    else warnings in
  no_term <- le years (VInt 0) ;;
  lists <-
    (if no_term then Ret (errors ++ [lit "Loan term must be positive"], warnings)
     else
       long <- gt years (VInt 50) ;;
       if long then
         Ret (errors, warnings ++ [lit "Very long loan term - please verify"])
       else Ret (errors, warnings)) ;;
  let errors := fst lists in
  let warnings := snd lists in
  Ret (Result (Nat.eqb (List.length errors) 0) errors warnings VNone).

End Functions.

(** [isinstance(rate, (int, float))] *)
Definition is_number (v : pyval) : bool :=
  match as_number v with
  | Some _ => true
  | None => false
  end.

Definition validate_npv_parameters (rate : pyval) (cash_flows : list pyval)
    : outcome ValidationResult :=
  let errors := [] in
  let warnings := [] in
  lists <-
    (if negb (is_number rate)
     then Ret (errors ++ [lit "Discount rate must be numeric"], warnings)
     else
       below <- lt rate (VInt (-1)) ;;
       unusual <- (if below then Ret true else gt rate (VInt 1)) ;;
       if unusual then
         Ret (errors,
              warnings ++
              [lit "Unusual discount rate - should typically be between 0% and 50%"])
       else Ret (errors, warnings)) ;;
  let errors := fst lists in
  let warnings := snd lists in
  let lists :=
    match cash_flows with
    | [] => (errors ++ [lit "Cash flows cannot be empty"], warnings)
    | _ :: _ =>
        if (List.length cash_flows <? 2)%nat
        then (errors, warnings ++ [lit "NPV typically requires multiple periods"])
        else (errors, warnings)
    end in
  let errors := fst lists in
  let warnings := snd lists in
  let errors :=
    if forallb (fun cf => equal cf (VInt 0)) cash_flows
    then errors ++ [lit "All cash flows cannot be zero"]
    else errors in
  Ret (Result (Nat.eqb (List.length errors) 0) errors warnings VNone).

End Parameters.

(** ** The vocabulary of the properties *)

Module Spec.
Import Validator.

Definition null {A : Type} (l : list A) : bool :=
  match l with
  | [] => true
  | _ :: _ => false
  end.

(** The results of the rules of a list on one value, in the order of the
    list, when every rule returns; the exception of the first rule that
    raises otherwise. *)
Fixpoint apply_all (re_match_user : pystr -> pystr -> outcome bool)
    (depth : nat) (value : pyval) (rules : list ValidationRuleConfig)
    : outcome (list ValidationResult) :=
  match rules with
  | [] => Ret []
  | rule_config :: rest =>
      result <- _apply_rule re_match_user depth value rule_config ;;
      results <- apply_all re_match_user depth value rest ;;
      Ret (result :: results)
  end.

(** The cleaned value after the results of a list of rules: the one of the
    last result that has one, the value itself when none has. *)
Definition last_cleaned (value : pyval) (results : list ValidationResult) : pyval :=
  fold_left
    (fun cleaned result =>
       match cleaned_value result with
       | VNone => cleaned
       | c => c
       end) results value.

(** The merge of the results of the rules, in the words of the
    specification: the errors and the warnings of every rule, one after the
    other, and the flag that says that there is no error. *)
Definition merge (value : pyval) (results : list ValidationResult)
    : ValidationResult :=
  let all_errors := List.concat (map errors results) in
  Result (null all_errors) all_errors (List.concat (map warnings results))
    (last_cleaned value results).

(** The logical AND of the flags of the rules. *)
Definition all_valid (results : list ValidationResult) : bool :=
  forallb is_valid results.

(** The rule types of a list of rules. *)
Definition uses (r : ValidationRule) (rules : list ValidationRuleConfig) : Prop :=
  exists rule_config, In rule_config rules /\ rule_type rule_config = r.

(** A run of the validator in which no pattern of a caller compiles; the
    rule lists of the examples below hold no REGEX rule, so that they do
    not depend on it. *)
Definition no_user_patterns : pystr -> pystr -> outcome bool :=
  fun _ _ => Raise ReError.

(** The parameters of the RANGE rule of [square_feet] in
    [validate_rental_data]: [{'min': 100, 'max': 50000}]. *)
Definition square_feet_range : ValidationRuleConfig :=
  Config RANGE (Some [(lit "min", VInt 100); (lit "max", VInt 50000)]) None None.

(** The characters [float] never reads. *)
Definition junk (c : pychar) : bool := (c =? 37)%N || (c =? 63)%N.

(** The rules that clean a string. *)
Definition cleans_strings (r : ValidationRule) : bool :=
  match r with
  | NUMERIC | CURRENCY | DATE | EMAIL | PHONE | TAX_ID => true
  | _ => false
  end.

(** The rules that, when they accept a value, end on the last line of
    [_apply_rule]. *)
Definition passes_on (r : ValidationRule) : bool :=
  match r with
  | REQUIRED | POSITIVE | NEGATIVE | RANGE | LENGTH | REGEX | CUSTOM => true
  | _ => false
  end.

(** A call that returns, or raises the exception [e] and no other. *)
Definition returns_or_raises {A : Type} (e : exn) (x : outcome A) : Prop :=
  match x with
  | Ret _ => True
  | Raise e' => e' = e
  end.

(** The rule lists of the records whose rules have no parameter, and the
    LENGTH rule of [vendor_id]. *)
Definition plain_rules : list ValidationRuleConfig :=
  [RuleConfig REQUIRED; RuleConfig NUMERIC; RuleConfig POSITIVE;
   RuleConfig CURRENCY; RuleConfig DATE;
   Records.Length [(lit "min", VInt 1); (lit "max", VInt 50)]].

(** The statement of the test at the end of the source file. *)
Definition test_statement : dict :=
  [(lit "revenue", VInt 100000); (lit "expenses", VInt 80000);
   (lit "assets", VInt 150000); (lit "liabilities", VInt 50000);
   (lit "equity", VInt 100000)].

(** The expected columns that a header row does not have. *)
Definition missing_columns (expected_columns : list pystr) (headers : list pyval)
    : list pystr :=
  filter (fun col => negb (Operators.member (VStr col) headers)) expected_columns.

(** A column that has rules. *)
Definition has_rules (column_rules : list (pystr * list ValidationRuleConfig))
    (col : pystr) : bool :=
  match Operators.lookup column_rules col with
  | Some (_ :: _) => true
  | _ => false
  end.

(** The details of [n] rows with no error and no warning. *)
Definition clean_rows (n : nat) : list Worksheet.row_results :=
  map (fun row_idx => Worksheet.RowResults row_idx [] []) (List.seq 2 n).

(** The summary of a worksheet whose rows are the rows of a first
    worksheet followed by the rows of a second one, from their summaries. *)
Definition renumber (k : nat) (r : Worksheet.row_results)
    : Worksheet.row_results :=
  Worksheet.RowResults (k + Worksheet.row r) (Worksheet.errors r)
    (Worksheet.warnings r).

Definition append (s1 s2 : Worksheet.summary) : Worksheet.summary :=
  let k := Worksheet.total_rows s1 in
  Worksheet.Summary
    (Worksheet.total_rows s1 + Worksheet.total_rows s2)
    (Worksheet.total_errors s1 + Worksheet.total_errors s2)
    (Worksheet.total_warnings s1 + Worksheet.total_warnings s2)
    (Worksheet.error_rows s1 ++ map (Nat.add k) (Worksheet.error_rows s2))
    (Worksheet.validation_details s1
     ++ map (renumber k) (Worksheet.validation_details s2))
    (Worksheet.is_valid s1 && Worksheet.is_valid s2).

(** A pattern whose classes do not tell a character from its image by
    [f]: it matches a string exactly when it matches the images of its
    characters. *)
Fixpoint respects (f : pychar -> pychar) (r : Re.regex) : Prop :=
  match r with
  | Re.Eps => True
  | Re.Chr p => forall c, p (f c) = p c
  | Re.Seq r1 r2 | Re.Alt r1 r2 => respects f r1 /\ respects f r2
  | Re.Star r1 | Re.Group _ r1 => respects f r1
  | Re.Dollar => forall c, (f c =? 10)%N = (c =? 10)%N
  end.

(** Whether there is a match. *)
Definition found {A : Type} (m : option A) : bool :=
  match m with
  | Some _ => true
  | None => false
  end.

(** A pattern that reads characters of the class [P] only. *)
Fixpoint reads (P : pychar -> bool) (r : Re.regex) : Prop :=
  match r with
  | Re.Eps | Re.Dollar => True
  | Re.Chr p => forall c, p c = true -> P c = true
  | Re.Seq r1 r2 | Re.Alt r1 r2 => reads P r1 /\ reads P r2
  | Re.Star r1 | Re.Group _ r1 => reads P r1
  end.

(** The sign of a float: true for the floats that are written with a
    minus sign. *)
Definition sign_bit (f : PyFloat.float) : bool :=
  match f with
  | S754_zero s | S754_infinity s | S754_finite s _ _ => s
  | S754_nan => false
  end.

(** A statement, a rental record and a worksheet of the examples. *)
Definition negative_statement : dict :=
  [(lit "assets", VInt (-5)); (lit "liabilities", VInt (-5));
   (lit "equity", VStr (lit "0"))].

Definition blank_lease : dict :=
  [(lit "lease_start_date", VStr []); (lit "lease_end_date", VNone)].

Definition contacts_header : list pyval := [VStr (lit "name"); VStr (lit "email")].

Definition contact (name email : string) : list pyval :=
  [VStr (lit name); VStr (lit email)].

Definition email_rules : list (pystr * list ValidationRuleConfig) :=
  [(lit "email", [RuleConfig EMAIL])].

End Spec.

(** * Properties *)

Import Validator Spec.

Unset Implicit Arguments.

(** ** How a call ends *)

Lemma bind_ret {A B : Type} (x : outcome A) (k : A -> outcome B) (b : B) :
  bind x k = Ret b -> exists a, x = Ret a /\ k a = Ret b.
Proof.
  destruct x as [a|e]; simpl; intros H.
  - exists a. split; [reflexivity | exact H].
  - discriminate H.
Qed.

Lemma null_length {A : Type} (l : list A) : Nat.eqb (List.length l) 0 = null l.
Proof. destruct l; reflexivity. Qed.

Lemma null_app {A : Type} (l m : list A) : null (l ++ m) = null l && null m.
Proof. destruct l; reflexivity. Qed.

(** Inversion of a call that returned. *)
Ltac returned :=
  repeat match goal with
         | H : Ret _ = Ret _ |- _ => injection H as H; subst
         | H : Raise _ = Ret _ |- _ => discriminate H
         | H : return_cleaned_value = Ret _ |- _ => discriminate H
         | H : failure _ _ = Ret _ |- _ => injection H as H; subst
         | H : float_of_int _ = Ret _ |- _ => unfold float_of_int in H
         | H : bind _ _ = Ret _ |- _ =>
             let a := fresh "a" in
             let Ha := fresh "Ha" in
             apply bind_ret in H; destruct H as (a & Ha & H)
         end.

(** Case analysis on the innermost test of a hypothesis. *)
Ltac split_test H :=
  match type of H with
  | context [match ?x with _ => _ end] =>
      lazymatch x with
      | context [match _ with _ => _ end] => fail
      | _ => destruct x eqn:?
      end
  end.

(** A result that is written out: its flag against its errors. *)
Ltac flag_leaf :=
  cbn; split; intros; solve [reflexivity | discriminate | congruence].

Section Merge.

Variable re_match_user : pystr -> pystr -> outcome bool.

(** Every result of a rule that says valid has no error, and every rule
    but PERCENTAGE says valid exactly when it has no error. *)
Lemma apply_rule_flag (depth : nat) :
  forall value rule_config result,
    _apply_rule re_match_user depth value rule_config = Ret result ->
    (is_valid result = true -> errors result = []) /\
    (rule_type rule_config <> PERCENTAGE ->
     is_valid result = null (errors result)).
Proof.
  induction depth as [|depth IH]; intros value rule_config result H;
    [discriminate H|].
  cbn [_apply_rule] in H.
  destruct (is_required (rule_type rule_config) && blank value);
    [returned; flag_leaf|].
  destruct (none_or_empty value); [returned; flag_leaf|].
  destruct (rule_type rule_config) eqn:Hrule; try discriminate H; returned;
    repeat (split_test H; returned); try flag_leaf.
  all: match goal with
       | Ha : _apply_rule _ _ _ (RuleConfig _) = Ret _ |- _ =>
           apply IH in Ha; cbn [rule_type RuleConfig] in Ha;
           destruct Ha as [Ha1 Ha2];
           split; [exact Ha1 | intros _; apply Ha2; discriminate]
       end.
Qed.

(** The loop of [validate_field] is the merge of the results of its
    rules, after what it has collected. *)
Lemma validate_rules_merge (depth : nat) (value : pyval) :
  forall rules errs warns cleaned,
    validate_rules re_match_user depth value rules errs warns cleaned =
    (results <- apply_all re_match_user depth value rules ;;
     Ret (Result (null (errs ++ List.concat (map errors results)))
            (errs ++ List.concat (map errors results))
            (warns ++ List.concat (map warnings results))
            (last_cleaned cleaned results))).
Proof.
  induction rules as [|rule_config rest IH]; intros errs warns cleaned.
  - cbn. rewrite null_length, !app_nil_r. reflexivity.
  - cbn [validate_rules apply_all].
    destruct (_apply_rule re_match_user depth value rule_config) as [result|e];
      cbn [bind]; [|reflexivity].
    rewrite IH.
    destruct (apply_all re_match_user depth value rest) as [results|e];
      cbn [bind]; [|reflexivity].
    cbn [map List.concat last_cleaned fold_left]. rewrite !app_assoc. reflexivity.
Qed.

Lemma validate_field_merge (depth : nat) (value : pyval) rules :
  validate_field re_match_user depth value rules =
  (results <- apply_all re_match_user depth value rules ;;
   Ret (merge value results)).
Proof.
  unfold validate_field. rewrite validate_rules_merge. reflexivity.
Qed.

Lemma all_valid_no_errors (depth : nat) (value : pyval) :
  forall rules results,
    apply_all re_match_user depth value rules = Ret results ->
    (all_valid results = true -> null (List.concat (map errors results)) = true) /\
    (~ uses PERCENTAGE rules ->
     null (List.concat (map errors results)) = all_valid results).
Proof.
  induction rules as [|rule_config rest IH]; intros results H; cbn in H.
  - returned. split; reflexivity.
  - returned. destruct (IH _ Ha0) as [IH1 IH2].
    destruct (apply_rule_flag _ _ _ _ Ha) as [F1 F2].
    cbn [map List.concat all_valid forallb]. rewrite null_app. split.
    + intros Hall. apply andb_prop in Hall. destruct Hall as [Hv Hrest].
      rewrite (F1 Hv). apply IH1. exact Hrest.
    + intros Hno. rewrite F2, IH2; [reflexivity | |].
      * intros (r & Hin & Hr). apply Hno. exists r. split; [right|]; assumption.
      * intros Hr. apply Hno. exists rule_config.
        split; [left; reflexivity | assumption].
Qed.

(** C2: whatever the value and the list of rules, the outcome that
    [validate_field] returns has [is_valid] true exactly when its list of
    errors is empty. *)
Theorem validate_field_valid_iff_no_errors (depth : nat) (value : pyval)
    (rules : list ValidationRuleConfig) (outcome : ValidationResult) :
  validate_field re_match_user depth value rules = Ret outcome ->
  is_valid outcome = null (errors outcome).
Proof.
  rewrite validate_field_merge. intros H.
  apply bind_ret in H. destruct H as (results & _ & H).
  injection H as <-. reflexivity.
Qed.

(** C3, as amended: [validate_field] applies every rule of the list, in
    the order of the list, and a rule that fails does not stop it: it
    raises when a rule raises, and otherwise it returns the merge of the
    results of all rules, whose errors are the errors of the rules one
    after the other, whose warnings likewise, and whose [is_valid] says that
    no rule gave an error.  [is_valid] is true when the flags of all rules
    are, and it is the logical AND of these flags when the list has no
    PERCENTAGE rule. *)
Theorem validate_field_concatenates (depth : nat) (value : pyval)
    (rules : list ValidationRuleConfig) :
  validate_field re_match_user depth value rules =
  (results <- apply_all re_match_user depth value rules ;;
   Ret (merge value results)) /\
  forall results,
    apply_all re_match_user depth value rules = Ret results ->
    let outcome := merge value results in
    errors outcome = List.concat (map errors results) /\
    warnings outcome = List.concat (map warnings results) /\
    is_valid outcome = null (List.concat (map errors results)) /\
    (all_valid results = true -> is_valid outcome = true) /\
    (~ uses PERCENTAGE rules -> is_valid outcome = all_valid results).
Proof.
  split; [apply validate_field_merge|].
  intros results Hall outcome.
  destruct (all_valid_no_errors _ _ _ _ Hall) as [H1 H2].
  unfold outcome. cbn [merge errors warnings is_valid].
  repeat split; assumption.
Qed.

End Merge.

(** ** Empty values *)

Section Empty.

Variable re_match_user : pystr -> pystr -> outcome bool.

(** A rule other than REQUIRED skips a value that is [None] or the empty
    string. *)
Lemma apply_rule_skips_empty (depth : nat) (value : pyval) rule_config :
  none_or_empty value = true ->
  rule_type rule_config <> REQUIRED ->
  _apply_rule re_match_user (S depth) value rule_config =
  Ret (Result true [] [] VNone).
Proof.
  intros Hempty Hrule. cbn [_apply_rule].
  destruct (rule_type rule_config); try congruence;
    cbn [is_required andb]; rewrite Hempty; reflexivity.
Qed.

(** C6, as amended: when the value is [None] or the empty string and the
    list has no REQUIRED rule, every rule is skipped and [validate_field]
    reports the field valid, with no error, no warning and the value itself
    as cleaned value; and with an empty list of rules [validate_field]
    reports any value valid, with the value itself as cleaned value. *)
Theorem validate_field_skips_empty_value (depth : nat) (value : pyval)
    (rules : list ValidationRuleConfig) :
  (none_or_empty value = true -> ~ uses REQUIRED rules ->
   validate_field re_match_user (S depth) value rules =
   Ret (Result true [] [] value)) /\
  validate_field re_match_user depth value [] = Ret (Result true [] [] value).
Proof.
  split; [|reflexivity].
  intros Hempty. unfold validate_field.
  induction rules as [|rule_config rest IH]; intros Hno; [reflexivity|].
  cbn [validate_rules].
  rewrite apply_rule_skips_empty; [cbn; apply IH | exact Hempty |].
  - intros (r & Hin & Hr). apply Hno. exists r. split; [right|]; assumption.
  - intros Hr. apply Hno. exists rule_config. split; [left; reflexivity|assumption].
Qed.

End Empty.

(** ** The rules that pass a value on *)

Section PassThrough.

Variable re_match_user : pystr -> pystr -> outcome bool.

(** C1: a REQUIRED rule on a value that is present reaches the last line
    of [_apply_rule], which raises [NameError]; so does [validate_field]
    on a list that starts with this rule. *)
Theorem required_rule_raises_on_present_value (depth : nat) (value : pyval)
    (rule_config : ValidationRuleConfig) (rest : list ValidationRuleConfig) :
  rule_type rule_config = REQUIRED ->
  blank value = false ->
  _apply_rule re_match_user (S depth) value rule_config = Raise NameError /\
  validate_field re_match_user (S depth) value (rule_config :: rest) =
  Raise NameError.
Proof.
  intros Hrule Hblank.
  assert (H : _apply_rule re_match_user (S depth) value rule_config
              = Raise NameError).
  { cbn [_apply_rule]. rewrite Hrule. cbn [is_required andb]. rewrite Hblank.
    unfold blank in Hblank. apply orb_false_elim in Hblank.
    destruct Hblank as [-> _]. reflexivity. }
  split; [exact H|].
  unfold validate_field. cbn [validate_rules]. rewrite H. reflexivity.
Qed.

(** The NEGATIVE rule calls itself on the value it was given, whatever
    the depth it is called at. *)
Lemma negative_rule_recurses (depth : nat) :
  forall value rule_config,
    rule_type rule_config = NEGATIVE ->
    none_or_empty value = false ->
    _apply_rule re_match_user depth value rule_config = Raise RecursionError.
Proof.
  induction depth as [|depth IH]; intros value rule_config Hrule Hvalue;
    [reflexivity|].
  cbn [_apply_rule]. rewrite Hrule. cbn [is_required andb]. rewrite Hvalue.
  rewrite IH; [reflexivity | reflexivity | exact Hvalue].
Qed.

#[local] Set Warnings "-inexact-float".

(** C4: the NEGATIVE rule never returns on a value that is present: it
    calls itself until the interpreter raises [RecursionError].  The
    POSITIVE rule returns the failure of the NUMERIC rule, it fails on a
    number that is not above 0, and on a number above 0 it reaches the last
    line of [_apply_rule], which raises [NameError]: it fails on 0 and on
    -5, and it raises on 0.01. *)
Theorem positive_and_negative_rules (depth : nat) (params : option dict)
    (message warning : option pystr) :
  let positive := Config POSITIVE params message warning in
  let negative := Config NEGATIVE params message warning in
  let not_positive :=
    Result false [or_default message "Value must be positive"] [] VNone in
  (forall d value,
     none_or_empty value = false ->
     _apply_rule re_match_user d value negative = Raise RecursionError) /\
  (forall value result,
     none_or_empty value = false ->
     _apply_rule re_match_user (S depth) value (RuleConfig NUMERIC) = Ret result ->
     is_valid result = false ->
     _apply_rule re_match_user (S (S depth)) value positive = Ret result) /\
  (forall value f,
     none_or_empty value = false ->
     _apply_rule re_match_user (S depth) value (RuleConfig NUMERIC)
     = Ret (Result true [] [] (VFloat f)) ->
     _apply_rule re_match_user (S (S depth)) value positive
     = match PyFloat.compare_Z f 0 with
       | Some (Lt | Eq) => Ret not_positive
       | _ => Raise NameError
       end) /\
  _apply_rule re_match_user (S (S depth)) (VInt 0) positive = Ret not_positive /\
  _apply_rule re_match_user (S (S depth)) (VInt (-5)) positive = Ret not_positive /\
  _apply_rule re_match_user (S (S depth)) (VFloat (Prim2SF 0.01)) positive
  = Raise NameError.
Proof.
  intros positive negative not_positive.
  assert (Hstep : forall value,
            none_or_empty value = false ->
            _apply_rule re_match_user (S (S depth)) value positive
            = (numeric_result <-
                 _apply_rule re_match_user (S depth) value (RuleConfig NUMERIC) ;;
               if negb (is_valid numeric_result) then Ret numeric_result
               else
                 not_above <- le (cleaned_value numeric_result) (VInt 0) ;;
                 if not_above then Ret not_positive else Raise NameError)).
  { intros value Hvalue.
    change (_apply_rule re_match_user (S (S depth)) value positive)
      with (if is_required POSITIVE && blank value
            then failure positive "Field is required"
            else if none_or_empty value then Ret (Result true [] [] VNone)
            else
              numeric_result <-
                _apply_rule re_match_user (S depth) value (RuleConfig NUMERIC) ;;
              if negb (is_valid numeric_result) then Ret numeric_result
              else
                not_above <- le (cleaned_value numeric_result) (VInt 0) ;;
                if not_above then failure positive "Value must be positive"
                else return_cleaned_value).
    cbn [is_required andb]. rewrite Hvalue. reflexivity. }
  split.
  { intros d value Hvalue.
    apply negative_rule_recurses; [reflexivity | exact Hvalue]. }
  split.
  { intros value result Hvalue Hnumeric Hinvalid.
    rewrite (Hstep _ Hvalue), Hnumeric. cbn [bind]. rewrite Hinvalid.
    reflexivity. }
  split.
  { intros value f Hvalue Hnumeric.
    rewrite (Hstep _ Hvalue), Hnumeric. cbn [bind is_valid negb cleaned_value].
    unfold le. cbn [compare as_number compare_numbers bind].
    destruct (PyFloat.compare_Z f 0) as [[]|]; reflexivity. }
  repeat split; rewrite Hstep by reflexivity; vm_compute; reflexivity.
Qed.

(** C7: the RANGE rule with the parameters min 100 and max 50000 fails on
    99 with the message of the lower bound, and on 100 it reaches the last
    line of [_apply_rule], which raises [NameError]. *)
Theorem range_rule_at_lower_bound (depth : nat) :
  _apply_rule re_match_user (S (S depth)) (VInt 99) square_feet_range
  = Ret (Result false [lit "Value must be at least 100"] [] VNone) /\
  _apply_rule re_match_user (S (S depth)) (VInt 100) square_feet_range
  = Raise NameError /\
  validate_field re_match_user (S (S depth)) (VInt 100) [square_feet_range]
  = Raise NameError.
Proof.
  repeat split; vm_compute; reflexivity.
Qed.

(** C9: the CURRENCY rule cleans ["$5"] to 5.0, and on 5.0, which is no
    string, it reaches the last line of [_apply_rule], which raises
    [NameError]: the second validation does not return the cleaned value
    of the first. *)
Theorem currency_rule_on_its_cleaned_value (depth : nat) :
  validate_field re_match_user (S depth) (VStr (lit "$5")) [RuleConfig CURRENCY]
  = Ret (Result true [] [] (VFloat (Prim2SF 5))) /\
  validate_field re_match_user (S depth) (VFloat (Prim2SF 5)) [RuleConfig CURRENCY]
  = Raise NameError.
Proof.
  split; vm_compute; reflexivity.
Qed.

End PassThrough.

(** ** What [float] reads

    A string with a percent sign or a question mark is no number: every
    step of [float] keeps such a character or fails, and the literals that
    [float] reads are made of other characters. *)

Lemma is_char_true (x : string) (c : pychar) :
  is_char x c = true -> lit x = [c].
Proof.
  unfold is_char. destruct (lit x) as [|a [|b l]]; try discriminate.
  intros H. apply N.eqb_eq in H. now subst.
Qed.

Lemma is_char_junk (x : string) (c : pychar) :
  is_char x c = true -> junk c = true ->
  lit x = [37%N] \/ lit x = [63%N].
Proof.
  intros H J. apply is_char_true in H. rewrite H. unfold junk in J.
  apply orb_prop in J.
  destruct J as [J|J]; apply N.eqb_eq in J; subst; auto.
Qed.

(** The characters of a literal of the source are not junk. *)
Ltac not_junk c :=
  let J := fresh "J" in
  destruct (junk c) eqn:J; [|reflexivity];
  match goal with
  | E : is_char _ c = true |- _ =>
      destruct (is_char_junk _ _ E J); discriminate
  end.

Lemma str_eqb_eq (s t : pystr) : Str.eqb s t = true -> s = t.
Proof.
  revert t. induction s as [|c s IH]; intros [|d t]; cbn;
    try discriminate; [reflexivity|].
  intros H. apply andb_prop in H. destruct H as [Hc Hs].
  apply N.eqb_eq in Hc. rewrite Hc, (IH _ Hs). reflexivity.
Qed.

Lemma existsb_rev {A : Type} (p : A -> bool) (l : list A) :
  existsb p (rev l) = existsb p l.
Proof.
  induction l as [|a l IH]; cbn; [reflexivity|].
  rewrite existsb_app, IH. cbn. rewrite orb_false_r. apply orb_comm.
Qed.

Lemma span_spec (p : pychar -> bool) (s a b : pystr) :
  span p s = (a, b) -> s = a ++ b /\ forallb p a = true.
Proof.
  revert a b. induction s as [|c s IH]; intros a b H; cbn in H.
  - injection H as <- <-. split; reflexivity.
  - destruct (p c) eqn:Hp.
    + destruct (span p s) as [a' b'] eqn:Hs. injection H as <- <-.
      destruct (IH _ _ eq_refl) as [-> Hall]. cbn. rewrite Hp.
      split; [reflexivity | exact Hall].
    + injection H as <- <-. split; reflexivity.
Qed.

Lemma digit_not_junk (c : pychar) : is_ascii_digit c = true -> junk c = false.
Proof.
  unfold is_ascii_digit, in_range, junk. cbn [lit map list_ascii_of_string].
  intros H. apply andb_prop in H. destruct H as [H1 H2].
  apply N.leb_le in H1, H2. change (N_of_ascii "0") with 48%N in H1.
  change (N_of_ascii "9") with 57%N in H2.
  destruct (N.eqb_spec c 37); [lia|]. destruct (N.eqb_spec c 63); [lia|].
  reflexivity.
Qed.

Lemma digits_no_junk (a : pystr) :
  forallb is_ascii_digit a = true -> existsb junk a = false.
Proof.
  induction a as [|c a IH]; cbn [forallb existsb]; [reflexivity|].
  intros H. apply andb_prop in H. destruct H as [Hc Ha].
  rewrite (digit_not_junk _ Hc), (IH Ha). reflexivity.
Qed.

Lemma split_sign_junk (s : pystr) :
  existsb junk (snd (PyFloat.split_sign s)) = existsb junk s.
Proof.
  destruct s as [|c s]; [reflexivity|]. unfold PyFloat.split_sign.
  destruct (is_char "-" c) eqn:E1; [|destruct (is_char "+" c) eqn:E2];
    cbn [snd existsb]; try reflexivity; not_junk c.
Qed.

(** The part of a decimal literal after its integer digits. *)
Lemma fraction_junk (r1 fp r2 : pystr) :
  match r1 with
  | c :: t => if is_char "." c then span is_ascii_digit t else ([], r1)
  | [] => ([], r1)
  end = (fp, r2) ->
  existsb junk r1 = existsb junk r2.
Proof.
  intros H. destruct r1 as [|c t]; [injection H as <- <-; reflexivity|].
  destruct (is_char "." c) eqn:Ec.
  - apply span_spec in H. destruct H as [-> Hfp]. cbn [existsb].
    rewrite existsb_app, (digits_no_junk _ Hfp). not_junk c.
  - injection H as <- <-. reflexivity.
Qed.

Lemma parse_number_no_junk (neg : bool) (s : pystr) (f : PyFloat.float) :
  PyFloat.parse_number neg s = Some f -> existsb junk s = false.
Proof.
  unfold PyFloat.parse_number.
  destruct (span is_ascii_digit s) as [ip r1] eqn:H1.
  apply span_spec in H1. destruct H1 as [-> Hip].
  rewrite existsb_app, (digits_no_junk _ Hip). cbn [orb].
  match goal with
  | |- context [let '(_, _) := ?e in _] => destruct e as [fp r2] eqn:H2
  end.
  rewrite (fraction_junk _ _ _ H2).
  destruct (ip ++ fp); [discriminate|].
  destruct r2 as [|c r3]; [reflexivity|].
  destruct (is_char "e" c || is_char "E" c) eqn:Ee; [|discriminate].
  destruct (PyFloat.split_sign r3) as [eneg r4] eqn:H3.
  destruct (span is_ascii_digit r4) as [ed r5] eqn:H4.
  apply span_spec in H4. destruct H4 as [-> Hed].
  destruct ed; [discriminate|]. destruct r5; [|discriminate]. intros _.
  assert (Hr3 : existsb junk r3 = false).
  { rewrite <- split_sign_junk, H3. cbn [snd]. rewrite app_nil_r.
    apply digits_no_junk. exact Hed. }
  cbn [existsb]. rewrite Hr3, orb_false_r.
  apply orb_prop in Ee. destruct Ee as [Ee|Ee]; not_junk c.
Qed.

Lemma lower_char_junk (c : pychar) : junk (lower_char c) = junk c.
Proof.
  unfold lower_char. destruct (in_range "A" "Z" c) eqn:E; [|reflexivity].
  unfold in_range in E. cbn in E. apply andb_prop in E.
  destruct E as [H1 H2]. apply N.leb_le in H1, H2. unfold junk.
  destruct (N.eqb_spec (c + 32) 37); [lia|].
  destruct (N.eqb_spec (c + 32) 63); [lia|].
  destruct (N.eqb_spec c 37); [lia|]. destruct (N.eqb_spec c 63); [lia|].
  reflexivity.
Qed.

Lemma lower_junk (s : pystr) : existsb junk (lower s) = existsb junk s.
Proof.
  unfold lower. induction s as [|c s IH]; cbn; [reflexivity|].
  rewrite lower_char_junk, IH. reflexivity.
Qed.

Lemma parse_special_no_junk (neg : bool) (s : pystr) (f : PyFloat.float) :
  PyFloat.parse_special neg s = Some f -> existsb junk s = false.
Proof.
  unfold PyFloat.parse_special. rewrite <- (lower_junk s).
  repeat match goal with
         | |- context [Str.eqb (lower s) ?w] =>
             let E := fresh "E" in
             destruct (Str.eqb (lower s) w) eqn:E;
             [apply str_eqb_eq in E; rewrite E; reflexivity|]
         end.
  discriminate.
Qed.

Lemma c_lstrip_junk (s : pystr) :
  existsb junk (PyFloat.c_lstrip s) = existsb junk s.
Proof.
  induction s as [|c s IH]; cbn; [reflexivity|].
  destruct (PyFloat.c_isspace c) eqn:E; [|reflexivity].
  rewrite IH. destruct (junk c) eqn:J; [|reflexivity].
  unfold junk in J. unfold PyFloat.c_isspace in E. apply orb_prop in J.
  destruct J as [J|J]; apply N.eqb_eq in J; subst; discriminate.
Qed.

Lemma c_strip_junk (s : pystr) :
  existsb junk (PyFloat.c_strip s) = existsb junk s.
Proof.
  unfold PyFloat.c_strip.
  rewrite existsb_rev, c_lstrip_junk, existsb_rev, c_lstrip_junk.
  reflexivity.
Qed.

Lemma strip_underscores_junk (s : pystr) :
  forall prev t,
    PyFloat.strip_underscores prev s = Some t ->
    existsb junk t = existsb junk s.
Proof.
  induction s as [|c s IH]; intros prev t H;
    cbn [PyFloat.strip_underscores] in H.
  - destruct (is_char "_" prev); [discriminate|]. injection H as <-.
    reflexivity.
  - destruct (is_char "_" c) eqn:Ec.
    + destruct (is_ascii_digit prev); [|discriminate].
      rewrite (IH _ _ H). cbn [existsb]. not_junk c.
    + destruct (is_char "_" prev && negb (is_ascii_digit c)); [discriminate|].
      destruct (PyFloat.strip_underscores c s) as [t'|] eqn:E; [|discriminate].
      injection H as <-. cbn. rewrite (IH _ _ E). reflexivity.
Qed.

Lemma remove_underscores_junk (s t : pystr) :
  PyFloat.remove_underscores s = Some t -> existsb junk t = existsb junk s.
Proof.
  unfold PyFloat.remove_underscores.
  destruct (contains "_" (PyFloat.before_nul s));
    [|intros H; injection H as <-; reflexivity].
  destruct (PyFloat.strip_underscores 0%N s) as [t'|] eqn:E; [|discriminate].
  destruct (existsb (N.eqb 0%N) t'); [discriminate|].
  intros H. injection H as <-. apply (strip_underscores_junk _ _ _ E).
Qed.

Lemma transform_junk (s : pystr) :
  existsb junk s = true -> existsb junk (PyFloat.transform s) = true.
Proof.
  induction s as [|c s IH]; cbn [PyFloat.transform existsb];
    [discriminate|].
  intros H. destruct (c <? 127)%N eqn:E.
  - cbn [existsb]. destruct (junk c); [reflexivity|]. apply IH. exact H.
  - assert (Hc : junk c = false).
    { unfold junk. apply N.ltb_ge in E.
      destruct (N.eqb_spec c 37); [lia|]. destruct (N.eqb_spec c 63); [lia|].
      reflexivity. }
    rewrite Hc in H. cbn [orb] in H.
    destruct (isspace c);
      [cbn [existsb]; rewrite (IH H); apply orb_true_r|].
    destruct (decimal_value c); [|reflexivity].
    cbn [existsb]. rewrite (IH H). apply orb_true_r.
Qed.

Lemma to_ascii_junk (s : pystr) :
  existsb junk s = true -> existsb junk (PyFloat.to_ascii s) = true.
Proof.
  unfold PyFloat.to_ascii.
  match goal with
  | |- context [if ?b then _ else _] => destruct b
  end; [trivial | apply transform_junk].
Qed.

(** [float] raises [ValueError] on a string with a percent sign or a
    question mark. *)
Lemma of_str_no_junk (s : pystr) :
  existsb junk s = true -> PyFloat.of_str s = None.
Proof.
  intros H. apply to_ascii_junk in H. unfold PyFloat.of_str.
  destruct (PyFloat.remove_underscores (PyFloat.to_ascii s)) as [t|] eqn:E;
    [|reflexivity].
  rewrite <- (remove_underscores_junk _ _ E), <- c_strip_junk,
    <- split_sign_junk in H.
  destruct (PyFloat.split_sign (PyFloat.c_strip t)) as [neg r].
  cbn [snd] in H.
  destruct (PyFloat.parse_special neg r) as [f|] eqn:E1.
  - apply parse_special_no_junk in E1. congruence.
  - destruct (PyFloat.parse_number neg r) as [f|] eqn:E2; [|reflexivity].
    apply parse_number_no_junk in E2. congruence.
Qed.

(** [str.strip] and the removal of a class of characters keep the
    characters that are outside the class. *)
Lemma existsb_lstrip (p : pychar -> bool) (s : pystr) :
  (forall c, p c = true -> isspace c = false) ->
  existsb p (lstrip s) = existsb p s.
Proof.
  intros Hp. induction s as [|c s IH]; cbn [lstrip existsb]; [reflexivity|].
  destruct (isspace c) eqn:E; [|reflexivity].
  rewrite IH. destruct (p c) eqn:Hc; [|reflexivity].
  rewrite (Hp _ Hc) in E. discriminate E.
Qed.

Lemma existsb_strip (p : pychar -> bool) (s : pystr) :
  (forall c, p c = true -> isspace c = false) ->
  existsb p (strip s) = existsb p s.
Proof.
  intros Hp. unfold strip, rstrip.
  rewrite existsb_rev, existsb_lstrip, existsb_rev, existsb_lstrip by exact Hp.
  reflexivity.
Qed.

Lemma existsb_filter (p q : pychar -> bool) (s : pystr) :
  (forall c, p c = true -> q c = true) ->
  existsb p (filter q s) = existsb p s.
Proof.
  intros Hpq. induction s as [|c s IH]; cbn [filter existsb]; [reflexivity|].
  destruct (q c) eqn:E; cbn [existsb]; rewrite IH; [reflexivity|].
  destruct (p c) eqn:Hc; [|reflexivity].
  rewrite (Hpq _ Hc) in E. discriminate E.
Qed.

Lemma existsb_weaken (p q : pychar -> bool) (s : pystr) :
  (forall c, p c = true -> q c = true) ->
  existsb p s = true -> existsb q s = true.
Proof.
  intros Hpq. induction s as [|c s IH]; cbn [existsb]; [discriminate|].
  intros H. apply orb_prop in H. destruct H as [H|H].
  - rewrite (Hpq _ H). reflexivity.
  - rewrite (IH H). apply orb_true_r.
Qed.

Lemma percent_char (c : pychar) : is_char "%" c = true -> c = 37%N.
Proof. intros H. apply is_char_true in H. injection H as <-. reflexivity. Qed.

(** What the NUMERIC rule leaves of a string with a percent sign is no
    number for [float]. *)
Lemma percent_sign_is_no_number (s : pystr) :
  contains "%" s = true ->
  PyFloat.of_str (filter (fun c => negb (numeric_noise c)) (strip s)) = None.
Proof.
  intros H. apply of_str_no_junk.
  apply existsb_weaken with (p := is_char "%").
  - intros c Hc. apply percent_char in Hc. subst c. reflexivity.
  - rewrite existsb_filter, existsb_strip; [exact H | |];
      intros c Hc; apply percent_char in Hc; subst c; reflexivity.
Qed.

(** ** Numbers *)

Section Numeric.

Variable re_match_user : pystr -> pystr -> outcome bool.

#[local] Set Warnings "-inexact-float".

(** C5: the PERCENTAGE rule returns the failure of the NUMERIC rule on
    every string with a percent sign, and so on ["50%"]: the NUMERIC rule
    does not remove the percent sign before it calls [float], and the
    division by 100 is never reached.  On 150 the rule returns a warning
    and no error, and [validate_field] then reports 150 valid, with the
    warning and the value itself as cleaned value. *)
Theorem percentage_rule_on_percent_sign (depth : nat) (params : option dict)
    (message : option pystr) :
  let percentage := Config PERCENTAGE params message None in
  let invalid := Result false [lit "Invalid numeric value"] [] VNone in
  let warning := lit "Percentage should be between 0% and 100%" in
  (forall s, contains "%" s = true ->
     _apply_rule re_match_user (S (S depth)) (VStr s) percentage = Ret invalid) /\
  _apply_rule re_match_user (S (S depth)) (VStr (lit "50%")) percentage
  = Ret invalid /\
  _apply_rule re_match_user (S (S depth)) (VInt 150) percentage
  = Ret (Result false [] [warning] VNone) /\
  validate_field re_match_user (S (S depth)) (VInt 150) [percentage]
  = Ret (Result true [] [warning] (VInt 150)).
Proof.
  intros percentage invalid warning.
  assert (Hs : forall s, contains "%" s = true ->
            _apply_rule re_match_user (S (S depth)) (VStr s) percentage
            = Ret invalid).
  { intros s Hs. destruct s as [|c s]; [discriminate Hs|].
    cbn [_apply_rule rule_type percentage RuleConfig is_required andb
         none_or_empty].
    rewrite (percent_sign_is_no_number _ Hs). reflexivity. }
  split; [exact Hs|].
  split; [apply Hs; reflexivity|].
  split; vm_compute; reflexivity.
Qed.

End Numeric.

(** ** Dates *)

(** One step of the matcher on the patterns of the date formats. *)
Ltac regex_step :=
  cbn [Re.exec DateTime.directive_regex DateTime.directive_name Re.seq Re.alt
       fold_right fold_left Re.chr DateTime.rng DateTime.digit
       DateTime.item_regex DateTime.format_regex map].

Ltac split_ifs H :=
  repeat match type of H with
         | context [if ?b then _ else _] => destruct b eqn:?
         end.

(** A month followed by a slash: the slash is the second or the third
    character. *)
Lemma month_then_slash {A : Type} (R : Re.regex) (s : pystr) caps
    (k : pystr -> Re.captures -> option A) (x : A) :
  Re.exec (Re.Seq (DateTime.directive_regex DateTime.dm) (Re.Seq (Re.chr "/") R))
    s caps k = Some x ->
  (exists c1 t, s = c1 :: 47%N :: t) \/ (exists c1 c2 t, s = c1 :: c2 :: 47%N :: t).
Proof.
  destruct s as [|c1 [|c2 [|c3 t]]]; regex_step; intros H; split_ifs H;
    try discriminate H;
    repeat match goal with
           | E : is_char "/" _ = true |- _ =>
               apply is_char_true in E; injection E as <-
           end;
    solve [left; eexists _, _; reflexivity
          | right; eexists _, _, _; reflexivity].
Qed.

(** A year: four decimal digits. *)
Lemma year_digits {A : Type} (R : Re.regex) (s : pystr) caps
    (k : pystr -> Re.captures -> option A) (x : A) :
  Re.exec (Re.Seq (DateTime.directive_regex DateTime.dY) R) s caps k = Some x ->
  exists a b c d t,
    s = a :: b :: c :: d :: t /\ isdecimal a = true /\ isdecimal b = true /\
    isdecimal c = true /\ isdecimal d = true.
Proof.
  destruct s as [|a [|b [|c [|d t]]]]; regex_step; intros H; split_ifs H;
    try discriminate H.
  eexists _, _, _, _, _; repeat split; eassumption.
Qed.

(** A string that parses with the month first does not parse with the
    year first. *)
Lemma month_first_is_not_year_first (s : pystr) (d : DateTime.date) :
  DateTime.strptime_date s month_day_year = Some d ->
  DateTime.strptime_date s year_month_day = None.
Proof.
  unfold DateTime.strptime_date, Re.re_match. intros Hus.
  destruct (Re.exec (DateTime.format_regex month_day_year) s [] _)
    as [m|] eqn:Eus; [|discriminate Hus].
  destruct (Re.exec (DateTime.format_regex year_month_day) s [] _)
    as [m'|] eqn:Eiso; [|reflexivity].
  exfalso.
  apply month_then_slash in Eus. apply year_digits in Eiso.
  destruct Eiso as (a & b & c & d' & t & -> & Ha & Hb & Hc & Hd).
  destruct Eus as [(c1 & t' & E)|(c1 & c2 & t' & E)]; injection E; intros;
    subst; discriminate.
Qed.

Section Dates.

Variable re_match_user : pystr -> pystr -> outcome bool.

(** C10: on a string that parses both as month/day/year and as
    day/month/year, the DATE rule returns the date read with the month
    first: the formats are tried in the order of [date_formats], the string
    does not parse with the first format, and the first format that parses
    wins. *)
Theorem date_rule_reads_month_first (depth : nat) (s : pystr)
    (month_first day_first : DateTime.date) (rule_config : ValidationRuleConfig) :
  rule_type rule_config = DATE ->
  DateTime.strptime_date s month_day_year = Some month_first ->
  DateTime.strptime_date s day_month_year = Some day_first ->
  date_formats
  = [year_month_day; month_day_year; day_month_year; year_month_day_time] /\
  _apply_rule re_match_user (S depth) (VStr s) rule_config
  = Ret (Result true [] [] (VDate month_first)).
Proof.
  intros Hrule Hus _. split; [reflexivity|].
  assert (Hs : none_or_empty (VStr s) = false).
  { destruct s; [discriminate Hus | reflexivity]. }
  cbn [_apply_rule]. rewrite Hrule. cbn [is_required andb]. rewrite Hs.
  unfold date_formats. cbn [first_parse].
  rewrite (month_first_is_not_year_first _ _ Hus), Hus. reflexivity.
Qed.

End Dates.

(** ** The properties at work *)

Lemma required_rule_raises_on_abc :
  blank (VStr (lit "abc")) = false /\
  _apply_rule no_user_patterns 1 (VStr (lit "abc")) (RuleConfig REQUIRED)
  = Raise NameError /\
  validate_field no_user_patterns 1 (VStr (lit "abc")) [RuleConfig REQUIRED]
  = Raise NameError.
Proof.
  split; [reflexivity|].
  apply (required_rule_raises_on_present_value no_user_patterns 0
           (VStr (lit "abc")) (RuleConfig REQUIRED) []); reflexivity.
Defined.

Lemma valid_iff_no_errors_on_abc :
  let outcome :=
    Result false [lit "Invalid numeric value"] [] (VStr (lit "abc")) in
  validate_field no_user_patterns 1 (VStr (lit "abc")) [RuleConfig NUMERIC]
  = Ret outcome /\
  is_valid outcome = null (errors outcome).
Proof.
  split; [reflexivity|].
  apply (validate_field_valid_iff_no_errors no_user_patterns 1
           (VStr (lit "abc")) [RuleConfig NUMERIC]).
  reflexivity.
Defined.

Lemma concatenation_on_abc :
  let value := VStr (lit "abc") in
  let rules := [RuleConfig NUMERIC; RuleConfig EMAIL] in
  let results :=
    [Result false [lit "Invalid numeric value"] [] VNone;
     Result false [lit "Invalid email format"] [] VNone] in
  let outcome :=
    Result false [lit "Invalid numeric value"; lit "Invalid email format"] []
      value in
  apply_all no_user_patterns 1 value rules = Ret results /\
  validate_field no_user_patterns 1 value rules = Ret outcome /\
  errors outcome = List.concat (map errors results) /\
  warnings outcome = List.concat (map warnings results) /\
  is_valid outcome = null (List.concat (map errors results)) /\
  (all_valid results = true -> is_valid outcome = true) /\
  (~ uses PERCENTAGE rules -> is_valid outcome = all_valid results).
Proof.
  intros value rules results outcome.
  split; [reflexivity|]. split; [reflexivity|].
  exact (proj2 (validate_field_concatenates no_user_patterns 1 value rules)
           results eq_refl).
Defined.

(** The flag of [validate_field] on 150 with a PERCENTAGE rule is true,
    and the flag of the rule is false. *)
Lemma merged_flag_is_not_the_and_of_the_flags :
  exists outcome result,
    validate_field no_user_patterns 2 (VInt 150) [RuleConfig PERCENTAGE]
    = Ret outcome /\
    apply_all no_user_patterns 2 (VInt 150) [RuleConfig PERCENTAGE]
    = Ret [result] /\
    is_valid outcome = true /\
    all_valid [result] = false.
Proof.
  eexists _, _. repeat split; vm_compute; reflexivity.
Qed.

Lemma empty_string_is_skipped :
  none_or_empty (VStr []) = true /\
  ~ uses REQUIRED [RuleConfig NUMERIC; RuleConfig EMAIL] /\
  validate_field no_user_patterns 1 (VStr []) [RuleConfig NUMERIC; RuleConfig EMAIL]
  = Ret (Result true [] [] (VStr [])).
Proof.
  assert (Hno : ~ uses REQUIRED [RuleConfig NUMERIC; RuleConfig EMAIL]).
  { intros (r & [<-|[<-|[]]] & Hr); discriminate Hr. }
  split; [reflexivity|]. split; [exact Hno|].
  apply (proj1 (validate_field_skips_empty_value no_user_patterns 0 (VStr [])
                  [RuleConfig NUMERIC; RuleConfig EMAIL])); [reflexivity|exact Hno].
Defined.

(** A string of white space is not skipped: the NUMERIC rule fails on it;
    and with no rule, the cleaned value of 7 is 7. *)
Lemma white_space_is_not_skipped :
  validate_field no_user_patterns 1 (VStr (lit "   ")) [RuleConfig NUMERIC]
  = Ret (Result false [lit "Invalid numeric value"] [] (VStr (lit "   "))) /\
  validate_field no_user_patterns 1 (VInt 7) []
  = Ret (Result true [] [] (VInt 7)).
Proof.
  split; vm_compute; reflexivity.
Qed.

Lemma date_rule_on_03_04_2024 :
  DateTime.strptime_date (lit "03/04/2024") month_day_year
  = Some (DateTime.Date 2024 3 4) /\
  DateTime.strptime_date (lit "03/04/2024") day_month_year
  = Some (DateTime.Date 2024 4 3) /\
  _apply_rule no_user_patterns 1 (VStr (lit "03/04/2024")) (RuleConfig DATE)
  = Ret (Result true [] [] (VDate (DateTime.Date 2024 3 4))).
Proof.
  split; [reflexivity|]. split; [reflexivity|].
  apply (date_rule_reads_month_first no_user_patterns 0 (lit "03/04/2024")
           (DateTime.Date 2024 3 4) (DateTime.Date 2024 4 3) (RuleConfig DATE));
    reflexivity.
Defined.

(** ** The matcher *)

(** A match is an answer of the continuation. *)
Lemma exec_answer {A : Type} (r : Re.regex) :
  forall s caps (k : pystr -> Re.captures -> option A) (x : A),
    Re.exec r s caps k = Some x -> exists s' caps', k s' caps' = Some x.
Proof.
  induction r as [|p|r1 IH1 r2 IH2|r1 IH1 r2 IH2|r IH|name r IH|];
    intros s caps k x H; cbn [Re.exec] in H.
  - eauto.
  - destruct s as [|c t]; [discriminate H|].
    destruct (p c); [eauto|discriminate H].
  - apply IH1 in H. destruct H as (s1 & caps1 & H). apply IH2 in H. exact H.
  - destruct (Re.exec r1 s caps k) as [y|] eqn:E.
    + rewrite H in E. apply IH1 in E. exact E.
    + apply IH2 in H. exact H.
  - remember (List.length s) as n eqn:Hn. clear Hn.
    revert s caps H. induction n as [|n IHn]; intros s caps H; [eauto|].
    match type of H with
    | match ?e with _ => _ end = _ => destruct e as [y|] eqn:E
    end.
    + rewrite H in E. apply IH in E. destruct E as (s1 & caps1 & E).
      destruct (List.length s1 <? List.length s)%nat; [|discriminate E].
      apply IHn in E. exact E.
    + eauto.
  - apply IH in H. destruct H as (s1 & caps1 & H). eauto.
  - destruct s as [|c [|d t]]; [eauto| |discriminate H].
    destruct (c =? 10)%N; [eauto|discriminate H].
Qed.

Lemma search_is_a_match (r : Re.regex) (s : pystr) m :
  Re.re_search r s = Some m -> exists t, Re.re_match r t = Some m.
Proof.
  induction s as [|c s IH]; cbn [Re.re_search]; intros H.
  - destruct (Re.re_match r []) eqn:E; [|discriminate H]. exists []. congruence.
  - destruct (Re.re_match r (c :: s)) eqn:E; [exists (c :: s); congruence|].
    apply IH. exact H.
Qed.

Lemma exec_seq {A : Type} r1 r2 s caps (k : pystr -> Re.captures -> option A) :
  Re.exec (Re.Seq r1 r2) s caps k =
  Re.exec r1 s caps (fun s' caps' => Re.exec r2 s' caps' k).
Proof. reflexivity. Qed.

Lemma exec_group {A : Type} name r s caps (k : pystr -> Re.captures -> option A) :
  Re.exec (Re.Group name r) s caps k =
  Re.exec r s caps
    (fun s' caps' =>
       k s' ((name, firstn (List.length s - List.length s') s) :: caps')).
Proof. reflexivity. Qed.

Lemma currency_group_present (s rest : pystr) (caps : Re.captures) :
  Re.re_search currency_pattern s = Some (rest, caps) ->
  exists text, Re.group "1" caps = Some text.
Proof.
  intros H. apply search_is_a_match in H. destruct H as (t & H).
  unfold Re.re_match, currency_pattern, Re.seq in H. cbn [fold_right] in H.
  rewrite exec_seq in H.
  apply exec_answer in H. destruct H as (s1 & caps1 & H).
  rewrite exec_seq, exec_group in H.
  apply exec_answer in H. destruct H as (s2 & caps2 & H).
  injection H as _ <-. eexists. reflexivity.
Qed.

(** ** Further properties of the validator *)

Section Further.

Variable re_match_user : pystr -> pystr -> outcome bool.

(** The cleaned value that [validate_field] returns is the one of the last
    rule that gave one, and the value itself when no rule gave one. *)
Theorem validate_field_last_cleaning_wins (depth : nat) (value : pyval)
    (rules : list ValidationRuleConfig) (outcome : ValidationResult) :
  validate_field re_match_user depth value rules = Ret outcome ->
  exists results,
    apply_all re_match_user depth value rules = Ret results /\
    cleaned_value outcome = last_cleaned value results.
Proof.
  rewrite validate_field_merge. intros H.
  apply bind_ret in H. destruct H as (results & Hall & H).
  injection H as <-. exists results. split; [exact Hall | reflexivity].
Qed.

(** The NUMERIC rule alone is idempotent: what it cleans a value to, it
    cleans to itself. *)
Theorem numeric_rule_is_idempotent (depth : nat) (value : pyval)
    (params : option dict) (message warning : option pystr)
    (outcome : ValidationResult) :
  let rules := [Config NUMERIC params message warning] in
  validate_field re_match_user (S depth) value rules = Ret outcome ->
  is_valid outcome = true ->
  validate_field re_match_user (S depth) (cleaned_value outcome) rules
  = Ret (Result true [] [] (cleaned_value outcome)).
Proof.
  intros rules H Hvalid. unfold validate_field, rules in *.
  cbn [validate_rules _apply_rule rule_type is_required andb] in H.
  destruct (none_or_empty value) eqn:Hempty.
  - cbn in H. injection H as <-. cbn [cleaned_value].
    cbn [validate_rules _apply_rule rule_type is_required andb].
    rewrite Hempty. reflexivity.
  - destruct value as [|b|n|f|s|d]; try discriminate Hempty;
      unfold float_of_int in H;
      repeat match type of H with
             | context [match ?x with _ => _ end] => destruct x eqn:?
             end;
      cbn in H; try discriminate H; injection H as <-;
      try discriminate Hvalid; reflexivity.
Qed.

(** A REQUIRED rule in the list makes [validate_field] report a value that
    is [None] or the empty string invalid, with an error, whatever the other
    rules of the list are. *)
Theorem required_rule_fails_on_absent_value (depth : nat) (value : pyval)
    (rules : list ValidationRuleConfig) :
  none_or_empty value = true ->
  uses REQUIRED rules ->
  exists outcome,
    validate_field re_match_user (S depth) value rules = Ret outcome /\
    is_valid outcome = false /\
    errors outcome <> [].
Proof.
  intros Hempty Huses. rewrite validate_field_merge.
  assert (Hall : exists results,
            apply_all re_match_user (S depth) value rules = Ret results /\
            List.concat (map errors results) <> []).
  { induction rules as [|rule_config rest IH].
    - destruct Huses as (r & [] & _).
    - assert (Hrest : exists results,
                apply_all re_match_user (S depth) value rest = Ret results).
      { clear IH Huses. induction rest as [|r rest IH]; [exists []; reflexivity|].
        destruct IH as (results & Hres). cbn [apply_all _apply_rule].
        unfold blank. rewrite Hempty, Hres. cbn [orb].
        destruct (is_required (rule_type r)); eexists; reflexivity. }
      cbn [apply_all _apply_rule]. unfold blank. rewrite Hempty. cbn [orb].
      destruct (is_required (rule_type rule_config)) eqn:Hreq; cbn [andb].
      + destruct Hrest as (results & ->). eexists. split; [reflexivity|].
        discriminate.
      + destruct IH as (results & -> & Herr).
        * destruct Huses as (r & [<-|Hin] & Hr).
          -- rewrite Hr in Hreq. discriminate Hreq.
          -- exists r. split; assumption.
        * eexists. split; [reflexivity|]. exact Herr. }
  destruct Hall as (results & -> & Herr). eexists. split; [reflexivity|].
  cbn [merge is_valid errors]. split; [|exact Herr].
  destruct (List.concat (map errors results)); [contradiction Herr|]; reflexivity.
Qed.

(** Examples of the DATE, EMAIL and TAX_ID rules: the date of
    ["2024-03-15"], the date of ["15/03/2024"], which parses with the day
    first only, the failure on ["not-a-date"], the lower case of
    ["Foo@Bar.COM"], an EIN, an SSN, and nine digits with no separator. *)
Theorem date_email_tax_id_examples (depth : nat) :
  let run r s := _apply_rule re_match_user (S depth) (VStr s) (RuleConfig r) in
  run DATE (lit "2024-03-15")
  = Ret (Result true [] [] (VDate (DateTime.Date 2024 3 15))) /\
  run DATE (lit "15/03/2024")
  = Ret (Result true [] [] (VDate (DateTime.Date 2024 3 15))) /\
  run DATE (lit "not-a-date")
  = Ret (Result false [lit "Invalid date format"] [] VNone) /\
  run EMAIL (lit "Foo@Bar.COM")
  = Ret (Result true [] [] (VStr (lit "foo@bar.com"))) /\
  run TAX_ID (lit "12-3456789")
  = Ret (Result true [] [] (VStr (lit "12-3456789"))) /\
  run TAX_ID (lit "123-45-6789")
  = Ret (Result true [] [] (VStr (lit "123-45-6789"))) /\
  run TAX_ID (lit "123456789")
  = Ret (Result false [lit "Invalid Tax ID format"] [] VNone).
Proof.
  intros run. repeat split; vm_compute; reflexivity.
Qed.

(** On a string, the rules that clean strings never raise: they return a
    result, which has one error when it is not valid. *)
Theorem string_rules_return (depth : nat) (s : pystr)
    (rule_config : ValidationRuleConfig) :
  cleans_strings (rule_type rule_config) = true ->
  exists result,
    _apply_rule re_match_user (S depth) (VStr s) rule_config = Ret result /\
    (is_valid result = false -> exists message, errors result = [message]).
Proof.
  intros Hrule. cbn [_apply_rule].
  assert (Hreq : is_required (rule_type rule_config) = false)
    by (destruct (rule_type rule_config); try reflexivity; discriminate Hrule).
  rewrite Hreq. cbn [andb].
  destruct s as [|c s]; cbn [none_or_empty].
  { eexists. split; [reflexivity|]. discriminate. }
  destruct (rule_type rule_config); try discriminate Hrule; unfold failure;
    repeat match goal with
           | |- context [match ?x with _ => _ end] =>
               lazymatch x with
               | context [match _ with _ => _ end] => fail
               | _ => destruct x eqn:?
               end
           end;
    try (eexists; split; [reflexivity|]; cbn [is_valid errors];
         intros; solve [discriminate | eauto]).
  all: match goal with
       | H : Re.re_search currency_pattern _ = Some _ |- _ =>
           apply currency_group_present in H; destruct H as (text & H); congruence
       end.
Qed.

End Further.

Lemma last_cleaning_wins_on_phone_number :
  let value := VStr (lit "5551234567") in
  let rules := [RuleConfig PHONE; RuleConfig NUMERIC] in
  let outcome := Result true [] [] (VFloat (Prim2SF 5551234567)) in
  validate_field no_user_patterns 1 value rules = Ret outcome /\
  exists results,
    apply_all no_user_patterns 1 value rules = Ret results /\
    cleaned_value outcome = last_cleaned value results.
Proof.
  split; [vm_compute; reflexivity|].
  apply (validate_field_last_cleaning_wins no_user_patterns 1
           (VStr (lit "5551234567")) [RuleConfig PHONE; RuleConfig NUMERIC]).
  vm_compute. reflexivity.
Defined.

Lemma numeric_rule_is_idempotent_on_42 :
  let rules := [RuleConfig NUMERIC] in
  let outcome := Result true [] [] (VFloat (Prim2SF 42)) in
  validate_field no_user_patterns 1 (VStr (lit "  42 ")) rules = Ret outcome /\
  is_valid outcome = true /\
  validate_field no_user_patterns 1 (cleaned_value outcome) rules
  = Ret (Result true [] [] (cleaned_value outcome)).
Proof.
  split; [vm_compute; reflexivity|]. split; [reflexivity|].
  apply (numeric_rule_is_idempotent no_user_patterns 0 (VStr (lit "  42 "))
           None None None (Result true [] [] (VFloat (Prim2SF 42))));
    [vm_compute; reflexivity | reflexivity].
Defined.

Lemma required_rule_fails_on_none :
  none_or_empty VNone = true /\
  uses REQUIRED [RuleConfig REQUIRED; RuleConfig POSITIVE] /\
  exists outcome,
    validate_field no_user_patterns 1 VNone
      [RuleConfig REQUIRED; RuleConfig POSITIVE] = Ret outcome /\
    is_valid outcome = false /\
    errors outcome <> [].
Proof.
  assert (Huses : uses REQUIRED [RuleConfig REQUIRED; RuleConfig POSITIVE]).
  { exists (RuleConfig REQUIRED). split; [left|]; reflexivity. }
  split; [reflexivity|]. split; [exact Huses|].
  apply (required_rule_fails_on_absent_value no_user_patterns 0 VNone
           [RuleConfig REQUIRED; RuleConfig POSITIVE]); [reflexivity | exact Huses].
Defined.

Lemma string_rules_return_on_abc :
  cleans_strings (rule_type (RuleConfig CURRENCY)) = true /\
  exists result,
    _apply_rule no_user_patterns 1 (VStr (lit "abc")) (RuleConfig CURRENCY)
    = Ret result /\
    (is_valid result = false -> exists message, errors result = [message]).
Proof.
  split; [reflexivity|].
  apply (string_rules_return no_user_patterns 0 (lit "abc") (RuleConfig CURRENCY)).
  reflexivity.
Defined.

(** ** The rules that never accept *)

Section Acceptance.

Variable re_match_user : pystr -> pystr -> outcome bool.

(** A result that is not valid has an error, for every rule but
    PERCENTAGE. *)
Lemma invalid_result_has_error (depth : nat) (value : pyval)
    (rule_config : ValidationRuleConfig) (result : ValidationResult) :
  _apply_rule re_match_user depth value rule_config = Ret result ->
  rule_type rule_config <> PERCENTAGE ->
  is_valid result = false ->
  errors result <> [].
Proof.
  intros H Hrule Hinvalid Herrors.
  apply apply_rule_flag in H. destruct H as [_ H].
  rewrite (H Hrule), Herrors in Hinvalid. discriminate Hinvalid.
Qed.

Lemma pass_through_rule_rejects (depth : nat) :
  forall value rule_config result,
    passes_on (rule_type rule_config) = true ->
    none_or_empty value = false ->
    _apply_rule re_match_user depth value rule_config = Ret result ->
    is_valid result = false /\ errors result <> [].
Proof.
  induction depth as [|depth IH]; intros value rule_config result Hpass Hempty H;
    [discriminate H|].
  cbn [_apply_rule] in H.
  destruct (is_required (rule_type rule_config) && blank value);
    [returned; split; [reflexivity|discriminate]|].
  rewrite Hempty in H.
  destruct (rule_type rule_config) eqn:Hrule; try discriminate Hpass;
    try discriminate H; returned; repeat (split_test H; returned);
    try (split; [reflexivity|discriminate]).
  all: match goal with
       | Hv : negb (is_valid ?a) = true |- _ =>
           apply negb_true_iff in Hv; split; [exact Hv|]
       end.
  all: try (eapply invalid_result_has_error; [eassumption|discriminate|assumption]).
  all: eapply IH; [|eassumption|eassumption]; reflexivity.
Qed.


Lemma apply_all_in (depth : nat) (value : pyval) :
  forall rules results rule_config,
    apply_all re_match_user depth value rules = Ret results ->
    In rule_config rules ->
    exists result,
      In result results /\
      _apply_rule re_match_user depth value rule_config = Ret result.
Proof.
  induction rules as [|r rest IH]; intros results rule_config H Hin;
    [destruct Hin|].
  cbn [apply_all] in H. returned.
  destruct Hin as [<-|Hin].
  - eexists. split; [left; reflexivity|assumption].
  - destruct (IH _ _ Ha0 Hin) as (result & Hres & Hrule).
    exists result. split; [right|]; assumption.
Qed.

Lemma errors_of_one (results : list ValidationResult) (result : ValidationResult) :
  In result results -> errors result <> [] ->
  List.concat (map errors results) <> [].
Proof.
  induction results as [|r rest IH]; intros Hin Herr; [destruct Hin|].
  cbn [map List.concat]. destruct Hin as [->|Hin].
  - destruct (errors result); [contradiction Herr; reflexivity|discriminate].
  - intros E. apply app_eq_nil in E. destruct E as [_ E].
    exact (IH Hin Herr E).
Qed.

Lemma validate_field_rejects (depth : nat) (value : pyval)
    (rules : list ValidationRuleConfig) (outcome : ValidationResult)
    (rule_config : ValidationRuleConfig) :
  none_or_empty value = false ->
  In rule_config rules ->
  passes_on (rule_type rule_config) = true ->
  validate_field re_match_user depth value rules = Ret outcome ->
  is_valid outcome = false /\ errors outcome <> [].
Proof.
  intros Hempty Hin Hpass H.
  rewrite validate_field_merge in H. returned.
  destruct (apply_all_in _ _ _ _ _ Ha Hin) as (result & Hres & Hrule).
  apply pass_through_rule_rejects in Hrule; [|assumption|assumption].
  destruct Hrule as [_ Herr].
  assert (Hall := errors_of_one _ _ Hres Herr).
  cbn [merge is_valid errors]. split; [|exact Hall].
  destruct (List.concat (map errors a)); [contradiction Hall|]; reflexivity.
Qed.

(** A list of rules that holds a REQUIRED, POSITIVE, NEGATIVE, RANGE,
    LENGTH, REGEX or CUSTOM rule never validates a value that is present:
    whenever [validate_field] returns on a value other than [None] and the
    empty string, the outcome is not valid and has an error. *)
Theorem validate_field_never_accepts (depth : nat) (value : pyval)
    (rules : list ValidationRuleConfig) (outcome : ValidationResult) :
  none_or_empty value = false ->
  (exists rule_config,
     In rule_config rules /\ passes_on (rule_type rule_config) = true) ->
  validate_field re_match_user depth value rules = Ret outcome ->
  is_valid outcome = false /\ errors outcome <> [].
Proof.
  intros Hempty (rule_config & Hin & Hpass) H.
  exact (validate_field_rejects _ _ _ _ _ Hempty Hin Hpass H).
Qed.

(** What the NUMERIC rule accepts, it cleans to a float. *)
Lemma numeric_rule_cleans_to_float (depth : nat) (value : pyval)
    (result : ValidationResult) :
  none_or_empty value = false ->
  _apply_rule re_match_user depth value (RuleConfig NUMERIC) = Ret result ->
  is_valid result = true ->
  exists f, result = Result true [] [] (VFloat f).
Proof.
  intros Hempty H Hvalid. destruct depth as [|depth]; [discriminate H|].
  cbn [_apply_rule RuleConfig rule_type is_required andb] in H.
  rewrite Hempty in H.
  repeat (split_test H; returned); try discriminate Hvalid; eexists; reflexivity.
Qed.

(** The value that the PERCENTAGE rule tests is a float. *)
Lemma percent_value_is_float (value : pyval) (f : PyFloat.float) (val : pyval) :
  match value with
  | VStr s => if contains "%" s then div_100 (VFloat f) else Ret (VFloat f)
  | _ => Ret (VFloat f)
  end = Ret val ->
  exists g, val = VFloat g.
Proof.
  intros H. destruct value; try (injection H as <-; eexists; reflexivity).
  destruct (contains "%" s); [|injection H as <-; eexists; reflexivity].
  cbn in H. injection H as <-. eexists; reflexivity.
Qed.

(** A rule that accepts a value that is present has cleaned it: NUMERIC,
    PERCENTAGE and CURRENCY to a float, DATE to a date, EMAIL, PHONE and
    TAX_ID to a string; no other rule returns a valid result on such a
    value. *)
Theorem accepted_values_are_cleaned (depth : nat) (value : pyval)
    (rule_config : ValidationRuleConfig) (result : ValidationResult) :
  none_or_empty value = false ->
  _apply_rule re_match_user depth value rule_config = Ret result ->
  is_valid result = true ->
  match rule_type rule_config with
  | NUMERIC | PERCENTAGE | CURRENCY => exists f, cleaned_value result = VFloat f
  | DATE => exists d, cleaned_value result = VDate d
  | EMAIL | PHONE | TAX_ID => exists s, cleaned_value result = VStr s
  | _ => False
  end.
Proof.
  intros Hempty H Hvalid.
  destruct (passes_on (rule_type rule_config)) eqn:Hpass.
  { apply pass_through_rule_rejects in H; [|assumption|assumption].
    destruct H as [H _]. rewrite H in Hvalid. discriminate Hvalid. }
  destruct depth as [|depth]; [discriminate H|].
  cbn [_apply_rule] in H.
  destruct (is_required (rule_type rule_config) && blank value);
    [returned; discriminate Hvalid|].
  rewrite Hempty in H.
  destruct (rule_type rule_config) eqn:Hrule; try discriminate Hpass;
    try discriminate H; returned; repeat (split_test H; returned);
    try discriminate Hvalid; try (eexists; reflexivity).
  all: match goal with
       | Hv : negb (is_valid ?a) = true |- _ =>
           apply negb_true_iff in Hv; rewrite Hv in Hvalid; discriminate Hvalid
       | Hv : negb (is_valid ?a) = false,
         Ha : _apply_rule _ _ _ (RuleConfig NUMERIC) = Ret ?a |- _ =>
           apply negb_false_iff in Hv;
           destruct (numeric_rule_cleans_to_float _ _ _ Hempty Ha Hv) as (f & ->)
       end.
  all: cbn [cleaned_value] in *; try (eexists; reflexivity).
  eapply percent_value_is_float. eassumption.
Qed.

(** The PERCENTAGE rule accepts the numbers from 0 to 1 only: the cleaned
    value of a valid result is a float that is at least 0 and at most 1. *)
Theorem percentage_rule_cleans_into_unit_interval (depth : nat) (value : pyval)
    (rule_config : ValidationRuleConfig) (result : ValidationResult) :
  rule_type rule_config = PERCENTAGE ->
  none_or_empty value = false ->
  _apply_rule re_match_user depth value rule_config = Ret result ->
  is_valid result = true ->
  exists f,
    cleaned_value result = VFloat f /\
    (PyFloat.compare_Z f 0 = Some Eq \/ PyFloat.compare_Z f 0 = Some Gt) /\
    (PyFloat.compare_Z f 1 = Some Lt \/ PyFloat.compare_Z f 1 = Some Eq).
Proof.
  intros Hrule Hempty H Hvalid.
  destruct depth as [|depth]; [discriminate H|].
  cbn [_apply_rule] in H. rewrite Hrule, Hempty in H.
  cbn [is_required andb] in H. returned.
  destruct (negb (is_valid a)) eqn:Hnumeric.
  { returned. apply negb_true_iff in Hnumeric.
    rewrite Hnumeric in Hvalid. discriminate Hvalid. }
  apply negb_false_iff in Hnumeric.
  destruct (numeric_rule_cleans_to_float _ _ _ Hempty Ha Hnumeric) as (f & ->).
  cbn [cleaned_value] in H. returned.
  destruct (percent_value_is_float _ _ _ Ha0) as (g & ->).
  match type of H with
  | (if negb ?in_unit then _ else _) = _ =>
      destruct in_unit; cbn [negb] in H; returned; [|discriminate Hvalid]
  end.
  exists g. split; [reflexivity|].
  unfold le in Ha1, Ha2. cbn [compare as_number compare_numbers bind] in Ha1, Ha2.
  destruct (PyFloat.compare_Z g 0) as [[]|]; cbn in Ha1; returned;
    try discriminate Ha2;
    (split; [auto|]);
    destruct (PyFloat.compare_Z g 1) as [[]|]; cbn in Ha2; returned;
    try discriminate; auto.
Qed.

(** A list of rules that starts with REQUIRED: [validate_field] raises
    [NameError] on a value that is not blank, and what it returns on a blank
    value starts with the error of the REQUIRED rule. *)
Lemma required_first_raises (depth : nat) (value : pyval)
    (rest : list ValidationRuleConfig) :
  blank value = false ->
  validate_field re_match_user (S depth) value (RuleConfig REQUIRED :: rest)
  = Raise NameError.
Proof.
  intros Hblank. unfold validate_field.
  cbn [validate_rules _apply_rule RuleConfig rule_type is_required andb].
  rewrite Hblank. unfold blank in Hblank. apply orb_false_elim in Hblank.
  destruct Hblank as [-> _]. reflexivity.
Qed.

Lemma required_first_returns (depth : nat) (value : pyval)
    (rest : list ValidationRuleConfig) (outcome : ValidationResult) :
  validate_field re_match_user depth value (RuleConfig REQUIRED :: rest)
  = Ret outcome ->
  blank value = true /\
  is_valid outcome = false /\
  exists others, errors outcome = lit "Field is required" :: others.
Proof.
  intros H. rewrite validate_field_merge in H. returned.
  cbn [apply_all] in Ha. returned.
  destruct depth as [|depth]; [discriminate Ha0|].
  cbn [_apply_rule RuleConfig rule_type is_required andb] in Ha0.
  destruct (blank value) eqn:Hblank.
  - unfold failure in Ha0. returned. split; [reflexivity|].
    cbn. split; [reflexivity|]. eexists; reflexivity.
  - unfold blank in Hblank. apply orb_false_elim in Hblank.
    destruct Hblank as [Hempty _]. rewrite Hempty in Ha0. discriminate Ha0.
Qed.

End Acceptance.

(** ** Cleaning twice *)

(** A pattern that does not tell a character from its image matches the
    images of the characters of a string exactly when it matches the
    string. *)
Lemma exec_respects {A B : Type} (f : pychar -> pychar) (r : Re.regex) :
  respects f r ->
  forall s caps caps' (k : pystr -> Re.captures -> option A)
         (k' : pystr -> Re.captures -> option B),
    (forall s' c c', found (k' (map f s') c') = found (k s' c)) ->
    found (Re.exec r (map f s) caps' k') = found (Re.exec r s caps k).
Proof.
  induction r as [|p|r1 IH1 r2 IH2|r1 IH1 r2 IH2|r IH|name r IH|];
    cbn [respects]; intros Hr s caps caps' k k' Hk; cbn [Re.exec].
  - apply Hk.
  - destruct s as [|c t]; [reflexivity|]. cbn [map]. rewrite Hr.
    destruct (p c); [apply Hk|reflexivity].
  - destruct Hr as [Hr1 Hr2]. apply (IH1 Hr1). intros s' c c'.
    apply (IH2 Hr2). exact Hk.
  - destruct Hr as [Hr1 Hr2].
    pose proof (IH1 Hr1 s caps caps' k k' Hk) as H1.
    pose proof (IH2 Hr2 s caps caps' k k' Hk) as H2.
    destruct (Re.exec r1 (map f s) caps' k'), (Re.exec r1 s caps k);
      try discriminate H1; [reflexivity|exact H2].
  - rewrite length_map. generalize (List.length s). intros n.
    revert s caps caps'. induction n as [|n IHn]; intros s caps caps'; [apply Hk|].
    match goal with
    | |- found match ?e' with _ => _ end = found match ?e with _ => _ end =>
        assert (H : found e' = found e)
    end.
    { apply (IH Hr). intros s' c c'. rewrite !length_map.
      destruct (List.length s' <? List.length s)%nat; [apply IHn|reflexivity]. }
    match goal with
    | |- found match ?e' with _ => _ end = found match ?e with _ => _ end =>
        destruct e', e; try discriminate H; [reflexivity|apply Hk]
    end.
  - apply (IH Hr). intros s' c c'. apply Hk.
  - destruct s as [|c [|d t]]; cbn [map]; [apply (Hk []) | |reflexivity].
    rewrite Hr. destruct (c =? 10)%N; [apply (Hk [c])|reflexivity].
Qed.

(** The upper-case letters, and the tests of a character that lies
    between bounds. *)
Lemma upper_case_bounds (c : pychar) :
  in_range "A" "Z" c = true -> (65 <= c <= 90)%N.
Proof.
  change (in_range "A" "Z" c) with ((65 <=? c)%N && (c <=? 90)%N).
  intros H. apply andb_prop in H. destruct H as [H1 H2].
  apply N.leb_le in H1, H2. split; assumption.
Qed.

Ltac decide_chars :=
  repeat match goal with
         | |- context [(?a <=? ?b)%N] =>
             first [ replace (a <=? b)%N with true
                       by (symmetry; apply N.leb_le; lia)
                   | replace (a <=? b)%N with false
                       by (symmetry; apply N.leb_gt; lia) ]
         | |- context [(?a =? ?b)%N] =>
             first [ replace (a =? b)%N with true
                       by (symmetry; apply N.eqb_eq; lia)
                   | replace (a =? b)%N with false
                       by (symmetry; apply N.eqb_neq; lia) ]
         end;
  reflexivity.

Lemma class_respects_lower (p : pychar -> bool) :
  (forall c, (65 <= c <= 90)%N -> p (c + 32)%N = p c) ->
  forall c, p (lower_char c) = p c.
Proof.
  intros H c. unfold lower_char.
  destruct (in_range "A" "Z" c) eqn:E; [|reflexivity].
  apply H. apply upper_case_bounds. exact E.
Qed.

(** The classes of characters of the patterns, as comparisons of code
    points. *)
Ltac unfold_classes :=
  repeat match goal with
         | |- context [in_range ?lo ?hi ?c] =>
             let e := eval cbv in (lit lo, lit hi) in
             match e with
             | ([?a], [?b]) =>
                 change (in_range lo hi c) with ((a <=? c)%N && (c <=? b)%N)
             end
         | |- context [is_char ?x ?c] =>
             let e := eval cbv in (lit x) in
             match e with
             | [?a] => change (is_char x c) with (N.eqb a c)
             end
         | |- context [Re.one_of ?xs ?c] =>
             let e := eval cbv in (lit xs) in
             change (Re.one_of xs c) with (existsb (N.eqb c) e);
             cbn [existsb]
         end.

Lemma email_pattern_respects_lower : respects lower_char email_pattern.
Proof.
  unfold email_pattern, Re.seq, Re.plus, Re.at_least, Re.chr.
  cbn [fold_right Re.rep respects].
  repeat match goal with |- _ /\ _ => split end; try exact I.
  all: match goal with
       | |- forall c, _ = @?p c => apply (class_respects_lower p)
       end.
  all: intros c Hc; cbv beta; unfold alnum; unfold_classes; decide_chars.
Qed.

Lemma lower_lower (s : pystr) : lower (lower s) = lower s.
Proof.
  unfold lower. rewrite map_map. apply map_ext. intros c.
  unfold lower_char at 1.
  destruct (in_range "A" "Z" (lower_char c)) eqn:E; [|reflexivity].
  exfalso. apply upper_case_bounds in E. unfold lower_char in E.
  destruct (in_range "A" "Z" c) eqn:Ec; [|].
  - apply upper_case_bounds in Ec. lia.
  - change (in_range "A" "Z" c) with ((65 <=? c)%N && (c <=? 90)%N) in Ec.
    apply andb_false_iff in Ec.
    destruct Ec as [Ec|Ec]; apply N.leb_gt in Ec; lia.
Qed.

Lemma matches_lower (s : pystr) :
  matches email_pattern (lower s) = matches email_pattern s.
Proof.
  unfold matches, Re.re_match.
  apply (exec_respects lower_char _ email_pattern_respects_lower s [] []).
  reflexivity.
Qed.

Lemma filter_filter {A : Type} (p : A -> bool) (l : list A) :
  filter p (filter p l) = filter p l.
Proof.
  induction l as [|a l IH]; [reflexivity|].
  cbn [filter]. destruct (p a) eqn:E; [|exact IH].
  cbn [filter]. rewrite E, IH. reflexivity.
Qed.

Section Twice.

Variable re_match_user : pystr -> pystr -> outcome bool.

(** What the DATE, the EMAIL or the TAX_ID rule cleans a value to, it
    cleans to itself. *)
Lemma rule_cleans_to_fixed_point (depth : nat) (value : pyval)
    (rule_config : ValidationRuleConfig) (result : ValidationResult) :
  In (rule_type rule_config) [DATE; EMAIL; TAX_ID] ->
  none_or_empty value = false ->
  _apply_rule re_match_user (S depth) value rule_config = Ret result ->
  errors result = [] ->
  exists cleaned,
    result = Result true [] [] cleaned /\
    none_or_empty cleaned = false /\
    _apply_rule re_match_user (S depth) cleaned rule_config
    = Ret (Result true [] [] cleaned).
Proof.
  intros Hrule Hempty H Herrors. cbn [_apply_rule] in *.
  assert (Hreq : is_required (rule_type rule_config) = false).
  { destruct Hrule as [<-|[<-|[<-|[]]]]; reflexivity. }
  rewrite Hreq in *. cbn [andb] in *. rewrite Hempty in H.
  destruct Hrule as [Hrule|[Hrule|[Hrule|[]]]]; rewrite <- Hrule in *;
    destruct value as [|b|n|f|s|d]; try discriminate Hempty;
    try discriminate H; unfold failure in H;
    repeat (split_test H); injection H as <-; try discriminate Herrors.
  - eexists. repeat split.
  - eexists. repeat split.
  - exists (VStr (lower s)).
    assert (Hs : none_or_empty (VStr (lower s)) = false)
      by (destruct s; [discriminate Hempty|reflexivity]).
    rewrite Hs, matches_lower, lower_lower.
    match goal with H : matches _ _ = true |- _ => rewrite H end.
    repeat split.
  - exists (VStr (filter (fun c => isdecimal c || is_char "-" c) s)).
    rewrite filter_filter.
    match goal with
    | H : matches ein_pattern ?c || matches ssn_pattern ?c = true |- _ =>
        rewrite H; destruct c; [discriminate H|]
    end.
    repeat split.
Qed.

(** The DATE, EMAIL and TAX_ID rules are idempotent: what one of them
    cleans a value to, it accepts and cleans to itself. *)
Theorem date_email_tax_id_rules_are_idempotent (depth : nat) (value : pyval)
    (rule_config : ValidationRuleConfig) (outcome : ValidationResult) :
  In (rule_type rule_config) [DATE; EMAIL; TAX_ID] ->
  validate_field re_match_user (S depth) value [rule_config] = Ret outcome ->
  is_valid outcome = true ->
  validate_field re_match_user (S depth) (cleaned_value outcome) [rule_config]
  = Ret (Result true [] [] (cleaned_value outcome)).
Proof.
  intros Hrule H Hvalid. rewrite validate_field_merge in H.
  cbn [apply_all] in H. returned.
  cbn [merge is_valid map List.concat] in Hvalid. rewrite app_nil_r in Hvalid.
  cbn [merge cleaned_value last_cleaned fold_left].
  destruct (none_or_empty value) eqn:Hempty.
  - assert (Hskip : forall v,
              none_or_empty v = true ->
              _apply_rule re_match_user (S depth) v rule_config
              = Ret (Result true [] [] VNone)).
    { intros v Hv. cbn [_apply_rule]. rewrite Hv.
      destruct Hrule as [<-|[<-|[<-|[]]]]; reflexivity. }
    rewrite (Hskip _ Hempty) in Ha0. injection Ha0 as <-.
    cbn [cleaned_value]. unfold validate_field. cbn [validate_rules].
    rewrite (Hskip _ Hempty). reflexivity.
  - destruct (errors a0) eqn:Herrors; [|discriminate Hvalid].
    destruct (rule_cleans_to_fixed_point _ _ _ _ Hrule Hempty Ha0 Herrors)
      as (cleaned & -> & Hcleaned & Hagain).
    cbn [cleaned_value].
    assert (E : match cleaned with VNone => value | _ => cleaned end = cleaned)
      by (destruct cleaned; [discriminate Hcleaned|..]; reflexivity).
    unfold validate_field. cbn [validate_rules].
    destruct cleaned; try discriminate Hcleaned; rewrite Hagain; reflexivity.
Qed.

End Twice.

(** ** Dates in ISO format *)

(** The text of a year from 1 to 9999: four decimal digits, which read
    back as the year. *)
Lemma pad_year (y : N) :
  (1 <= y <= 9999)%N ->
  exists a b c d,
    DateTime.pad 4 y = [a; b; c; d] /\
    isdecimal a = true /\ isdecimal b = true /\
    isdecimal c = true /\ isdecimal d = true /\
    DateTime.int_of [a; b; c; d] = y.
Proof.
  intros Hy.
  assert (Hall : forallb
            (fun y =>
               match DateTime.pad 4 y with
               | [a; b; c; d] =>
                   isdecimal a && isdecimal b && isdecimal c && isdecimal d
                   && (DateTime.int_of [a; b; c; d] =? y)%N
               | _ => false
               end) (map N.of_nat (List.seq 1 (N.to_nat 9999))) = true)
    by (vm_compute; reflexivity).
  rewrite forallb_forall in Hall. specialize (Hall y).
  assert (Hin : In y (map N.of_nat (List.seq 1 (N.to_nat 9999)))).
  { rewrite <- (N2Nat.id y). apply in_map. apply in_seq. lia. }
  specialize (Hall Hin).
  destruct (DateTime.pad 4 y) as [|a [|b [|c [|d [|e l]]]]]; try discriminate Hall.
  repeat (apply andb_prop in Hall; destruct Hall as [Hall ?]).
  apply N.eqb_eq in H. eexists _, _, _, _. repeat split; eassumption.
Qed.

(** The pattern of the year reads four decimal digits. *)
Lemma exec_year {A : Type} (a b c d : pychar) (rest : pystr) caps
    (k : pystr -> Re.captures -> option A) :
  isdecimal a = true -> isdecimal b = true ->
  isdecimal c = true -> isdecimal d = true ->
  Re.exec (DateTime.directive_regex DateTime.dY) (a :: b :: c :: d :: rest) caps k
  = k rest (("Y"%string, [a; b; c; d]) :: caps).
Proof.
  intros Ha Hb Hc Hd. regex_step. rewrite Ha, Hb, Hc, Hd.
  cbn [List.length].
  replace (S (S (S (S (List.length rest)))) - List.length rest)%nat with 4%nat
    by lia.
  reflexivity.
Qed.

(** The patterns of the month and of the day read the two digits of a
    month and of a day. *)
Lemma exec_month_day (m d : N) (year_text : pystr) :
  In m (map N.of_nat (List.seq 1 12)) ->
  In d (map N.of_nat (List.seq 1 31)) ->
  exists caps,
    Re.exec
      (Re.seq (map DateTime.item_regex
                 [DateTime.Lit "-"; DateTime.Dir DateTime.dm;
                  DateTime.Lit "-"; DateTime.Dir DateTime.dd]))
      (lit "-" ++ DateTime.pad 2 m ++ lit "-" ++ DateTime.pad 2 d)
      [("Y"%string, year_text)] (fun s' caps => Some (s', caps))
    = Some ([], caps) /\
    DateTime.field DateTime.dY 1900 caps = DateTime.int_of year_text /\
    DateTime.field DateTime.dm 1 caps = m /\
    DateTime.field DateTime.dd 1 caps = d /\
    DateTime.field DateTime.dS 0 caps = 0%N.
Proof.
  intros Hm Hd.
  exists [("d"%string, DateTime.pad 2 d); ("m"%string, DateTime.pad 2 m);
          ("Y"%string, year_text)].
  cbn [List.seq map] in Hm, Hd.
  repeat (destruct Hm as [<-|Hm]); try contradiction;
    repeat (destruct Hd as [<-|Hd]); try contradiction;
    repeat split; reflexivity.
Qed.

Lemma strptime_isoformat (d : DateTime.date) :
  DateTime.valid_date (DateTime.year d) (DateTime.month d) (DateTime.day d)
  = true ->
  DateTime.strptime_date (DateTime.isoformat d) year_month_day = Some d.
Proof.
  destruct d as [y m d]. cbn [DateTime.year DateTime.month DateTime.day].
  intros Hvalid. pose proof Hvalid as Hbounds.
  unfold DateTime.valid_date in Hbounds.
  repeat (apply andb_prop in Hbounds; destruct Hbounds as [Hbounds ?]).
  repeat match goal with
         | H : (_ <=? _)%N = true |- _ => apply N.leb_le in H
         end.
  destruct (pad_year y) as (a & b & c & e & Hpad & Ha & Hb & Hc & He & Hy);
    [lia|].
  assert (Hm : In m (map N.of_nat (List.seq 1 12))).
  { rewrite <- (N2Nat.id m). apply in_map. apply in_seq. lia. }
  assert (Hd : In d (map N.of_nat (List.seq 1 31))).
  { rewrite <- (N2Nat.id d). apply in_map. apply in_seq.
    assert (DateTime.days_in_month y m <= 31)%N
      by (unfold DateTime.days_in_month;
          repeat match goal with
                 | |- context [match ?x with _ => _ end] => destruct x
                 end; lia).
    lia. }
  destruct (exec_month_day m d [a; b; c; e] Hm Hd)
    as (caps & Hexec & HY & Hm' & Hd' & HS).
  unfold DateTime.strptime_date, Re.re_match, DateTime.isoformat,
    year_month_day, DateTime.format_regex.
  cbn [DateTime.year DateTime.month DateTime.day].
  rewrite Hpad. cbn [map Re.seq fold_right DateTime.item_regex app].
  rewrite exec_seq, exec_year by assumption.
  cbn [map Re.seq fold_right DateTime.item_regex] in Hexec.
  match goal with
  | |- match ?e with _ => _ end = _ =>
      replace e with (Some (@nil pychar, caps)) by (symmetry; exact Hexec)
  end.
  rewrite HY, Hm', Hd', HS, Hy, Hvalid. reflexivity.
Qed.

Section IsoDates.

Variable re_match_user : pystr -> pystr -> outcome bool.

(** The DATE rule reads back the text of every date: on the text that
    [str] gives a date, which is its ISO format, it returns the date, as it
    does on the date itself. *)
Theorem date_rule_reads_iso_dates (depth : nat) (d : DateTime.date)
    (rule_config : ValidationRuleConfig) :
  rule_type rule_config = DATE ->
  DateTime.valid_date (DateTime.year d) (DateTime.month d) (DateTime.day d)
  = true ->
  _apply_rule re_match_user (S depth) (VStr (str (VDate d))) rule_config
  = Ret (Result true [] [] (VDate d)) /\
  _apply_rule re_match_user (S depth) (VDate d) rule_config
  = Ret (Result true [] [] (VDate d)).
Proof.
  intros Hrule Hvalid. cbn [_apply_rule str]. rewrite Hrule.
  cbn [is_required andb]. split; [|reflexivity].
  pose proof (strptime_isoformat d Hvalid) as Hparse.
  assert (Hempty : none_or_empty (VStr (DateTime.isoformat d)) = false).
  { destruct (DateTime.isoformat d); [discriminate Hparse|reflexivity]. }
  rewrite Hempty. unfold date_formats. cbn [first_parse].
  rewrite Hparse. reflexivity.
Qed.

End IsoDates.

(** ** The sign of an amount *)

(** What a pattern consumes is made of the characters that it reads. *)
Lemma exec_reads {A : Type} (P : pychar -> bool) (r : Re.regex) :
  reads P r ->
  forall s caps (k : pystr -> Re.captures -> option A) (x : A),
    Re.exec r s caps k = Some x ->
    exists pre s' caps',
      s = pre ++ s' /\ forallb P pre = true /\ k s' caps' = Some x.
Proof.
  induction r as [|p|r1 IH1 r2 IH2|r1 IH1 r2 IH2|r IH|name r IH|];
    cbn [reads]; intros Hr s caps k x H; cbn [Re.exec] in H.
  - exists [], s, caps. repeat split. exact H.
  - destruct s as [|c t]; [discriminate H|].
    destruct (p c) eqn:Hp; [|discriminate H].
    exists [c], t, caps. cbn. rewrite (Hr _ Hp). repeat split. exact H.
  - destruct Hr as [Hr1 Hr2].
    destruct (IH1 Hr1 _ _ _ _ H) as (pre1 & s1 & caps1 & -> & Hpre1 & H1).
    destruct (IH2 Hr2 _ _ _ _ H1) as (pre2 & s2 & caps2 & -> & Hpre2 & H2).
    exists (pre1 ++ pre2), s2, caps2. rewrite forallb_app, Hpre1, Hpre2, app_assoc.
    repeat split. exact H2.
  - destruct Hr as [Hr1 Hr2].
    destruct (Re.exec r1 s caps k) as [y|] eqn:E.
    + rewrite H in E. exact (IH1 Hr1 _ _ _ _ E).
    + exact (IH2 Hr2 _ _ _ _ H).
  - remember (List.length s) as n eqn:Hn. clear Hn.
    revert s caps H. induction n as [|n IHn]; intros s caps H.
    { exists [], s, caps. repeat split. exact H. }
    match type of H with
    | match ?e with _ => _ end = _ => destruct e as [y|] eqn:E
    end.
    + rewrite H in E.
      destruct (IH Hr _ _ _ _ E) as (pre1 & s1 & caps1 & -> & Hpre1 & H1).
      destruct (List.length s1 <? List.length (pre1 ++ s1))%nat;
        [|discriminate H1].
      destruct (IHn _ _ H1) as (pre2 & s2 & caps2 & -> & Hpre2 & H2).
      exists (pre1 ++ pre2), s2, caps2.
      rewrite forallb_app, Hpre1, Hpre2, app_assoc. repeat split. exact H2.
    + exists [], s, caps. repeat split. exact H.
  - destruct (IH Hr _ _ _ _ H) as (pre & s' & caps' & -> & Hpre & H').
    exists pre, s'. eexists. repeat split; [exact Hpre|exact H'].
  - exists [], s, caps. repeat split.
    destruct s as [|c [|d t]]; [exact H| |discriminate H].
    destruct (c =? 10)%N; [exact H|discriminate H].
Qed.

(** The text of a group is made of the characters that the pattern of the
    group reads. *)
Lemma group_reads {A : Type} (P : pychar -> bool) (name : string) (r : Re.regex) :
  reads P r ->
  forall s caps (k : pystr -> Re.captures -> option A) (x : A),
    Re.exec (Re.Group name r) s caps k = Some x ->
    exists text s' caps',
      forallb P text = true /\ k s' ((name, text) :: caps') = Some x.
Proof.
  intros Hr s caps k x H. rewrite exec_group in H.
  destruct (exec_reads P r Hr _ _ _ _ H) as (pre & s' & caps' & -> & Hpre & H').
  rewrite length_app, Nat.add_sub, firstn_app, Nat.sub_diag, firstn_all in H'.
  cbn [firstn] in H'. rewrite app_nil_r in H'.
  exists pre, s', caps'. split; assumption.
Qed.

Lemma currency_group_chars (s rest : pystr) (caps : Re.captures) :
  Re.re_search currency_pattern s = Some (rest, caps) ->
  exists text,
    Re.group "1" caps = Some text /\
    forallb (fun c => isdecimal c || Re.one_of ".," c) text = true.
Proof.
  intros H. apply search_is_a_match in H. destruct H as (t & H).
  unfold Re.re_match, currency_pattern, Re.seq in H. cbn [fold_right] in H.
  rewrite exec_seq in H.
  apply exec_answer in H. destruct H as (s1 & caps1 & H).
  rewrite exec_seq in H.
  apply (group_reads (fun c => isdecimal c || Re.one_of ".," c)) in H.
  - destruct H as (text & s' & caps' & Htext & H). cbn [Re.exec] in H.
    injection H as _ <-. exists text. split; [reflexivity|exact Htext].
  - unfold Re.plus, Re.opt, Re.chr. cbn [fold_right reads].
    repeat match goal with |- _ /\ _ => split end; try exact I;
      intros c Hc; unfold Re.one_of; unfold_classes.
    + apply orb_prop in Hc. destruct Hc as [->|Hc]; [reflexivity|].
      revert Hc. unfold_classes. intros Hc. apply N.eqb_eq in Hc. subst c.
      reflexivity.
    + apply orb_prop in Hc. destruct Hc as [->|Hc]; [reflexivity|].
      revert Hc. unfold_classes. intros Hc. apply N.eqb_eq in Hc. subst c.
      reflexivity.
    + revert Hc. unfold_classes. intros Hc. apply N.eqb_eq in Hc. subst c.
      reflexivity.
    + rewrite Hc. reflexivity.
Qed.

(** [float] writes no minus sign of its own: the steps before the sign is
    read keep the characters of the string or replace them by a space, a
    digit or a question mark. *)
Lemma minus_char (c : pychar) : is_char "-" c = true -> c = 45%N.
Proof. intros H. apply is_char_true in H. injection H as <-. reflexivity. Qed.

Lemma transform_minus (s : pystr) :
  contains "-" (PyFloat.transform s) = true -> contains "-" s = true.
Proof.
  unfold contains.
  induction s as [|c s IH]; cbn [PyFloat.transform existsb]; [discriminate|].
  destruct (c <? 127)%N eqn:E.
  - cbn [existsb]. intros H. apply orb_prop in H.
    destruct H as [->|H]; [reflexivity|]. rewrite (IH H). apply orb_true_r.
  - assert (Hrest : existsb (is_char "-") (PyFloat.transform s) = true ->
                    is_char "-" c || existsb (is_char "-") s = true)
      by (intros H; rewrite (IH H); apply orb_true_r).
    destruct (isspace c); [exact Hrest|].
    destruct (decimal_value c) as [d|]; [|discriminate].
    cbn [existsb]. intros H. apply orb_prop in H.
    destruct H as [H|H]; [|exact (Hrest H)].
    apply minus_char in H. lia.
Qed.

Lemma to_ascii_minus (s : pystr) :
  contains "-" (PyFloat.to_ascii s) = true -> contains "-" s = true.
Proof.
  unfold PyFloat.to_ascii.
  destruct (forallb (fun c => (c <? 128)%N) s); [trivial|apply transform_minus].
Qed.

Lemma strip_underscores_keeps (p : pychar -> bool) (s : pystr) :
  forall prev t,
    PyFloat.strip_underscores prev s = Some t ->
    existsb p t = true -> existsb p s = true.
Proof.
  induction s as [|c s IH]; intros prev t H;
    cbn [PyFloat.strip_underscores] in H.
  - destruct (is_char "_" prev); [discriminate|]. injection H as <-. trivial.
  - destruct (is_char "_" c).
    + destruct (is_ascii_digit prev); [|discriminate].
      intros Ht. cbn [existsb]. rewrite (IH _ _ H Ht). apply orb_true_r.
    + destruct (is_char "_" prev && negb (is_ascii_digit c)); [discriminate|].
      destruct (PyFloat.strip_underscores c s) as [t'|] eqn:E; [|discriminate].
      injection H as <-. cbn [existsb]. intros Ht. apply orb_prop in Ht.
      destruct Ht as [->|Ht]; [reflexivity|].
      rewrite (IH _ _ E Ht). apply orb_true_r.
Qed.

Lemma remove_underscores_keeps (p : pychar -> bool) (s t : pystr) :
  PyFloat.remove_underscores s = Some t ->
  existsb p t = true -> existsb p s = true.
Proof.
  unfold PyFloat.remove_underscores.
  destruct (contains "_" (PyFloat.before_nul s));
    [|intros H; injection H as <-; trivial].
  destruct (PyFloat.strip_underscores 0%N s) as [t'|] eqn:E; [|discriminate].
  destruct (existsb (N.eqb 0%N) t'); [discriminate|].
  intros H. injection H as <-. exact (strip_underscores_keeps _ _ _ _ E).
Qed.

Lemma c_lstrip_keeps (p : pychar -> bool) (s : pystr) :
  existsb p (PyFloat.c_lstrip s) = true -> existsb p s = true.
Proof.
  induction s as [|c s IH]; cbn [PyFloat.c_lstrip existsb]; [trivial|].
  destruct (PyFloat.c_isspace c); [|trivial].
  intros H. rewrite (IH H). apply orb_true_r.
Qed.

Lemma c_strip_keeps (p : pychar -> bool) (s : pystr) :
  existsb p (PyFloat.c_strip s) = true -> existsb p s = true.
Proof.
  unfold PyFloat.c_strip. rewrite existsb_rev. intros H.
  apply c_lstrip_keeps in H. rewrite existsb_rev in H.
  apply c_lstrip_keeps in H. exact H.
Qed.

Lemma split_sign_minus (s : pystr) :
  fst (PyFloat.split_sign s) = true -> contains "-" s = true.
Proof.
  destruct s as [|c s]; [discriminate|]. unfold PyFloat.split_sign, contains.
  cbn [existsb]. destruct (is_char "-" c); [reflexivity|].
  destruct (is_char "+" c); discriminate.
Qed.

(** The floats that [float] gives a literal with no minus sign have no
    sign. *)
Lemma binary_round_aux_sign (mx ex : Z) (lx : location) :
  sign_bit (binary_round_aux prec emax false mx ex lx) = false.
Proof.
  unfold binary_round_aux.
  destruct (shr_fexp prec emax mx ex lx) as [mrs' e'].
  destruct (shr_fexp prec emax _ e' loc_Exact) as [mrs'' e''].
  destruct (shr_m mrs''); [reflexivity| |reflexivity].
  destruct (e'' <=? emax - prec)%Z; reflexivity.
Qed.

Lemma of_decimal_sign (m : N) (e : Z) :
  sign_bit (PyFloat.of_decimal false m e) = false.
Proof.
  unfold PyFloat.of_decimal. destruct m as [|p]; [reflexivity|].
  destruct e as [|k|k].
  - unfold binary_round.
    destruct (shl_align _ _ _) as [mz ez]. apply binary_round_aux_sign.
  - unfold binary_round.
    destruct (shl_align _ _ _) as [mz ez]. apply binary_round_aux_sign.
  - destruct (SFdiv_core_binary _ _ _ _ _ _) as [[q e'] l].
    apply binary_round_aux_sign.
Qed.

Lemma parse_number_sign (s : pystr) (f : PyFloat.float) :
  PyFloat.parse_number false s = Some f -> sign_bit f = false.
Proof.
  unfold PyFloat.parse_number.
  destruct (span is_ascii_digit s) as [ip r1].
  match goal with
  | |- context [let '(_, _) := ?e in _] => destruct e as [fp r2]
  end.
  destruct (ip ++ fp); [discriminate|].
  destruct r2 as [|c r3]; [intros H; injection H as <-; apply of_decimal_sign|].
  destruct (is_char "e" c || is_char "E" c); [|discriminate].
  destruct (PyFloat.split_sign r3) as [eneg r4].
  destruct (span is_ascii_digit r4) as [ed r5].
  destruct ed; [discriminate|]. destruct r5; [|discriminate].
  intros H. injection H as <-. apply of_decimal_sign.
Qed.

Lemma of_str_sign (s : pystr) (f : PyFloat.float) :
  contains "-" s = false -> PyFloat.of_str s = Some f -> sign_bit f = false.
Proof.
  intros Hminus. unfold PyFloat.of_str.
  destruct (PyFloat.remove_underscores (PyFloat.to_ascii s)) as [t|] eqn:E;
    [|discriminate].
  destruct (PyFloat.split_sign (PyFloat.c_strip t)) as [neg r] eqn:Hsign.
  assert (Hneg : neg = false).
  { destruct neg; [|reflexivity].
    assert (H : contains "-" (PyFloat.c_strip t) = true)
      by (apply split_sign_minus; rewrite Hsign; reflexivity).
    apply c_strip_keeps in H. apply (remove_underscores_keeps _ _ _ E) in H.
    apply to_ascii_minus in H. congruence. }
  subst neg. unfold PyFloat.parse_special.
  destruct (Str.eqb _ _ || Str.eqb _ _);
    [intros H; injection H as <-; reflexivity|].
  destruct (Str.eqb _ _); [intros H; injection H as <-; reflexivity|].
  apply parse_number_sign.
Qed.

(** A float with no sign is not below 0. *)
Lemma no_sign_not_below_zero (f : PyFloat.float) :
  sign_bit f = false -> lt (VFloat f) (VInt 0) = Ret false.
Proof.
  unfold lt. cbn [compare as_number compare_numbers bind].
  destruct f as [s|s| |s m e]; cbn [sign_bit PyFloat.compare_Z];
    intros H; try subst s; try reflexivity.
  destruct e as [|k|k]; cbn [Z.mul Z.compare]; try reflexivity.
  assert (Hpos : (0 < 2 ^ Z.pos k)%Z) by (apply Z.pow_pos_nonneg; lia).
  destruct (2 ^ Z.pos k)%Z; try reflexivity; lia.
Qed.

Section Amounts.

Variable re_match_user : pystr -> pystr -> outcome bool.

(** The CURRENCY rule drops the sign of an amount: the amount that it reads
    in a string starts at the first digit or comma, after the minus sign if
    there is one, so that the cleaned value of a string that it accepts is
    a float with no sign, which is never below 0. *)
Theorem currency_rule_drops_the_sign (depth : nat) (s : pystr)
    (rule_config : ValidationRuleConfig) (result : ValidationResult) :
  rule_type rule_config = CURRENCY ->
  s <> [] ->
  _apply_rule re_match_user (S depth) (VStr s) rule_config = Ret result ->
  is_valid result = true ->
  exists amount,
    cleaned_value result = VFloat amount /\
    sign_bit amount = false /\
    lt (VFloat amount) (VInt 0) = Ret false.
Proof.
  intros Hrule Hs H Hvalid. cbn [_apply_rule] in H. rewrite Hrule in H.
  cbn [is_required andb] in H.
  destruct s as [|c s]; [contradiction Hs; reflexivity|].
  cbn [none_or_empty] in H.
  destruct (Re.re_search currency_pattern (c :: s)) as [[rest caps]|] eqn:E;
    [|unfold failure in H; injection H as <-; discriminate Hvalid].
  apply currency_group_chars in E. destruct E as (text & Hgroup & Htext).
  rewrite Hgroup in H.
  destruct (PyFloat.of_str _) as [amount|] eqn:Hamount;
    [|unfold failure in H; injection H as <-; discriminate Hvalid].
  injection H as <-. exists amount. split; [reflexivity|].
  assert (Hsign : sign_bit amount = false).
  { apply of_str_sign in Hamount; [exact Hamount|].
    unfold contains.
    destruct (existsb (is_char "-") _) eqn:Hminus; [|reflexivity].
    apply existsb_exists in Hminus. destruct Hminus as (x & Hin & Hx).
    apply filter_In in Hin. destruct Hin as [Hin _].
    rewrite forallb_forall in Htext. specialize (Htext _ Hin).
    apply minus_char in Hx. subst x. discriminate Htext. }
  split; [exact Hsign|apply no_sign_not_below_zero; exact Hsign].
Qed.

End Amounts.

(** ** The text of an integer *)

Lemma value_of_digits_app (a : pystr) (c : pychar) :
  value_of_digits (a ++ [c]) = (10 * value_of_digits a + (c - 48))%N.
Proof. unfold value_of_digits. rewrite fold_left_app. reflexivity. Qed.

Lemma ascii_digit_bounds (c : pychar) :
  is_ascii_digit c = true <-> (48 <= c <= 57)%N.
Proof.
  change (is_ascii_digit c) with ((48 <=? c)%N && (c <=? 57)%N).
  rewrite andb_true_iff, !N.leb_le. reflexivity.
Qed.

Lemma digits_of_pos_step (fuel : nat) (n : N) (acc : pystr) :
  digits_of_pos (S fuel) n acc
  = if (n <? 10)%N then (48 + n mod 10)%N :: acc
    else digits_of_pos fuel (n / 10)%N ((48 + n mod 10)%N :: acc).
Proof. reflexivity. Qed.

(** [str(n)] for a natural number: digits, one at least, whose value is
    the number. *)
Lemma digits_of_pos_spec (fuel : nat) :
  forall n acc,
    (n < 2 ^ N.of_nat (S fuel))%N ->
    exists ds,
      digits_of_pos (S fuel) n acc = ds ++ acc /\
      ds <> [] /\
      forallb is_ascii_digit ds = true /\
      value_of_digits ds = n.
Proof.
  assert (Hlast : forall n,
            is_ascii_digit (48 + n mod 10)%N = true /\
            (48 + n mod 10 - 48 = n mod 10)%N).
  { intros n. pose proof (N.mod_lt n 10 ltac:(lia)) as Hmod.
    set (m := (n mod 10)%N) in *.
    split; [apply ascii_digit_bounds|]; lia. }
  induction fuel as [|fuel IH]; intros n acc Hn;
    rewrite digits_of_pos_step; destruct (N.ltb_spec n 10) as [Hsmall|Hlarge].
  - exists [(48 + n mod 10)%N]. destruct (Hlast n) as [Hd Hv].
    cbn [app forallb value_of_digits fold_left]. rewrite Hd.
    repeat split; [discriminate|]. rewrite N.mod_small by exact Hsmall.
    set (m := n) in *. lia.
  - change (2 ^ N.of_nat 1)%N with 2%N in Hn. lia.
  - exists [(48 + n mod 10)%N]. destruct (Hlast n) as [Hd Hv].
    cbn [app forallb value_of_digits fold_left]. rewrite Hd.
    repeat split; [discriminate|]. rewrite N.mod_small by exact Hsmall.
    set (m := n) in *. lia.
  - destruct (IH (n / 10)%N ((48 + n mod 10)%N :: acc)) as (ds & Hds & _ & Hall & Hv).
    { rewrite Nat2N.inj_succ, N.pow_succ_r' in Hn.
      apply N.Div0.div_lt_upper_bound. lia. }
    exists (ds ++ [(48 + n mod 10)%N]). destruct (Hlast n) as [Hd Hv'].
    rewrite Hds, <- app_assoc, forallb_app, Hall, value_of_digits_app, Hv, Hv'.
    cbn [app forallb]. rewrite Hd.
    repeat split; [destruct ds; discriminate|].
    rewrite (N.div_mod n 10) at 3 by lia. reflexivity.
Qed.

Lemma of_N_spec (n : N) :
  of_N n <> [] /\
  forallb is_ascii_digit (of_N n) = true /\
  value_of_digits (of_N n) = n.
Proof.
  unfold of_N.
  destruct (digits_of_pos_spec (N.to_nat (N.log2 n)) n [])
    as (ds & -> & Hne & Hall & Hv).
  - rewrite Nat2N.inj_succ, N2Nat.id.
    destruct n as [|p]; [reflexivity|].
    apply N.log2_spec. reflexivity.
  - rewrite app_nil_r. repeat split; assumption.
Qed.

(** The steps of the NUMERIC rule and of [float] that leave a string of
    digits, after a minus sign or not, as it is. *)
Lemma forallb_rev {A : Type} (p : A -> bool) (l : list A) :
  forallb p (rev l) = forallb p l.
Proof.
  induction l as [|a l IH]; [reflexivity|].
  cbn [rev forallb]. rewrite forallb_app, IH. cbn [forallb].
  rewrite andb_true_r. apply andb_comm.
Qed.

Lemma filter_all {A : Type} (p : A -> bool) (l : list A) :
  forallb p l = true -> filter p l = l.
Proof.
  induction l as [|a l IH]; [reflexivity|]. cbn [forallb filter].
  intros H. apply andb_prop in H. destruct H as [-> H]. rewrite (IH H).
  reflexivity.
Qed.

Lemma span_all (p : pychar -> bool) (s : pystr) :
  forallb p s = true -> span p s = (s, []).
Proof.
  induction s as [|c s IH]; [reflexivity|]. cbn [forallb span].
  intros H. apply andb_prop in H. destruct H as [-> H]. rewrite (IH H).
  reflexivity.
Qed.

Lemma strip_nothing (s : pystr) :
  forallb (fun c => negb (isspace c)) s = true -> strip s = s.
Proof.
  assert (Hl : forall t, forallb (fun c => negb (isspace c)) t = true ->
                         lstrip t = t).
  { intros [|c t]; [reflexivity|]. cbn [forallb lstrip]. intros H.
    apply andb_prop in H. destruct H as [H _].
    apply negb_true_iff in H. rewrite H. reflexivity. }
  intros H. unfold strip, rstrip. rewrite (Hl _ H), Hl, rev_involutive;
    [reflexivity|]. rewrite forallb_rev. exact H.
Qed.

Lemma c_strip_nothing (s : pystr) :
  forallb (fun c => negb (PyFloat.c_isspace c)) s = true -> PyFloat.c_strip s = s.
Proof.
  assert (Hl : forall t, forallb (fun c => negb (PyFloat.c_isspace c)) t = true ->
                         PyFloat.c_lstrip t = t).
  { intros [|c t]; [reflexivity|]. cbn [forallb PyFloat.c_lstrip]. intros H.
    apply andb_prop in H. destruct H as [H _].
    apply negb_true_iff in H. rewrite H. reflexivity. }
  intros H. unfold PyFloat.c_strip. rewrite (Hl _ H), Hl, rev_involutive;
    [reflexivity|]. rewrite forallb_rev. exact H.
Qed.

Lemma before_nul_keeps (p : pychar -> bool) (s : pystr) :
  existsb p (PyFloat.before_nul s) = true -> existsb p s = true.
Proof.
  induction s as [|c s IH]; cbn [PyFloat.before_nul existsb]; [trivial|].
  destruct (c =? 0)%N; [discriminate|]. cbn [existsb].
  intros H. apply orb_prop in H. destruct H as [->|H]; [reflexivity|].
  rewrite (IH H). apply orb_true_r.
Qed.

Lemma forallb_weaken {A : Type} (p q : A -> bool) (l : list A) :
  (forall a, p a = true -> q a = true) ->
  forallb p l = true -> forallb q l = true.
Proof.
  intros Hpq H. rewrite forallb_forall in *. intros a Ha. apply Hpq, H, Ha.
Qed.

(** A digit or a minus sign is none of the characters that these steps
    look for. *)
Lemma digit_or_minus (c : pychar) :
  is_ascii_digit c || is_char "-" c = true ->
  (45 = c \/ 48 <= c <= 57)%N.
Proof.
  intros H. apply orb_prop in H. destruct H as [H|H].
  - right. apply ascii_digit_bounds. exact H.
  - left. apply minus_char in H. symmetry. exact H.
Qed.

Ltac digit_or_minus_is_not :=
  let c := fresh "c" in
  let H := fresh "H" in
  intros c H; apply digit_or_minus in H;
  unfold numeric_noise, isspace, whitespace_table, PyFloat.c_isspace;
  unfold_classes; cbn [existsb];
  repeat match goal with
         | |- context [(?a <=? ?b)%N] =>
             first [ replace (a <=? b)%N with true
                       by (symmetry; apply N.leb_le; lia)
                   | replace (a <=? b)%N with false
                       by (symmetry; apply N.leb_gt; lia) ]
         | |- context [(?a <? ?b)%N] =>
             first [ replace (a <? b)%N with true
                       by (symmetry; apply N.ltb_lt; lia)
                   | replace (a <? b)%N with false
                       by (symmetry; apply N.ltb_ge; lia) ]
         | |- context [(?a =? ?b)%N] =>
             replace (a =? b)%N with false by (symmetry; apply N.eqb_neq; lia)
         end;
  reflexivity.

Lemma float_of_digits (neg : bool) (ds : pystr) :
  ds <> [] ->
  forallb is_ascii_digit ds = true ->
  let s := if neg then lit "-" ++ ds else ds in
  filter (fun c => negb (numeric_noise c)) (strip s) = s /\
  PyFloat.of_str s = Some (PyFloat.of_decimal neg (value_of_digits ds) 0).
Proof.
  intros Hne Hds s.
  assert (Hs : forallb (fun c => is_ascii_digit c || is_char "-" c) s = true).
  { assert (Hd : forallb (fun c => is_ascii_digit c || is_char "-" c) ds = true)
      by (eapply forallb_weaken; [|exact Hds]; intros c ->; reflexivity).
    unfold s. destruct neg; [|exact Hd].
    change (lit "-" ++ ds) with (45%N :: ds). cbn [forallb]. rewrite Hd.
    reflexivity. }
  assert (Hspace : forallb (fun c => negb (isspace c)) s = true)
    by (eapply forallb_weaken; [|exact Hs]; digit_or_minus_is_not).
  assert (Hnoise : forallb (fun c => negb (numeric_noise c)) s = true)
    by (eapply forallb_weaken; [|exact Hs]; digit_or_minus_is_not).
  assert (Hascii : forallb (fun c => (c <? 128)%N) s = true)
    by (eapply forallb_weaken; [|exact Hs]; digit_or_minus_is_not).
  assert (Hcspace : forallb (fun c => negb (PyFloat.c_isspace c)) s = true)
    by (eapply forallb_weaken; [|exact Hs]; digit_or_minus_is_not).
  assert (Hunderscore : contains "_" (PyFloat.before_nul s) = false).
  { destruct (contains "_" (PyFloat.before_nul s)) eqn:E; [|reflexivity].
    apply before_nul_keeps in E. apply existsb_exists in E.
    destruct E as (c & Hin & Hc). rewrite forallb_forall in Hs.
    specialize (Hs _ Hin). apply digit_or_minus in Hs.
    apply is_char_true in Hc. injection Hc as <-. cbn in Hs. lia. }
  split; [rewrite (strip_nothing _ Hspace); apply filter_all; exact Hnoise|].
  unfold PyFloat.of_str, PyFloat.to_ascii, PyFloat.remove_underscores.
  rewrite Hascii, Hunderscore, (c_strip_nothing _ Hcspace).
  assert (Hsign : PyFloat.split_sign s = (neg, ds)).
  { unfold s. destruct neg; [reflexivity|].
    destruct ds as [|c ds]; [contradiction Hne; reflexivity|].
    cbn [forallb] in Hds. apply andb_prop in Hds. destruct Hds as [Hc _].
    apply ascii_digit_bounds in Hc. unfold PyFloat.split_sign. unfold_classes.
    replace (45 =? c)%N with false by (symmetry; apply N.eqb_neq; lia).
    replace (43 =? c)%N with false by (symmetry; apply N.eqb_neq; lia).
    reflexivity. }
  rewrite Hsign.
  assert (Hspecial : PyFloat.parse_special neg ds = None).
  { destruct ds as [|c ds]; [contradiction Hne; reflexivity|].
    cbn [forallb] in Hds. apply andb_prop in Hds. destruct Hds as [Hc _].
    apply ascii_digit_bounds in Hc.
    unfold PyFloat.parse_special, lower. cbn [map].
    assert (Hlower : lower_char c = c).
    { unfold lower_char. unfold_classes.
      replace (65 <=? c)%N with false by (symmetry; apply N.leb_gt; lia).
      reflexivity. }
    rewrite Hlower.
    change (lit "inf") with [105; 110; 102]%N.
    change (lit "infinity") with [105; 110; 102; 105; 110; 105; 116; 121]%N.
    change (lit "nan") with [110; 97; 110]%N.
    cbn [Str.eqb].
    replace (c =? 105)%N with false by (symmetry; apply N.eqb_neq; lia).
    replace (c =? 110)%N with false by (symmetry; apply N.eqb_neq; lia).
    reflexivity. }
  rewrite Hspecial. unfold PyFloat.parse_number.
  rewrite (span_all _ _ Hds), app_nil_r.
  destruct ds as [|c ds]; [contradiction Hne; reflexivity|]. reflexivity.
Qed.

Lemma of_decimal_of_int (n : Z) :
  PyFloat.of_decimal (n <? 0)%Z (Z.to_N (Z.abs n)) 0 = PyFloat.round_Z n.
Proof.
  unfold PyFloat.of_decimal, PyFloat.round_Z, binary_normalize.
  destruct n as [|p|p]; cbn [Z.ltb Z.compare Z.abs Z.to_N]; try reflexivity;
    change (Z.to_pos (10 ^ 0)) with 1%positive; rewrite Pos.mul_1_r; reflexivity.
Qed.

Lemma of_Z_digits (n : Z) :
  of_Z n = if (n <? 0)%Z then lit "-" ++ of_N (Z.to_N (Z.abs n))
           else of_N (Z.to_N (Z.abs n)).
Proof. destruct n; reflexivity. Qed.

Section Integers.

Variable re_match_user : pystr -> pystr -> outcome bool.

(** The NUMERIC rule reads the text of an [int] as the float nearest to
    the [int]: what [str] gives an [int] is cleaned to the float that the
    [int] itself is cleaned to.  The two differ on an [int] too large for a
    float: its text is cleaned to an infinite float, and the [int] itself
    raises [OverflowError]. *)
Theorem numeric_rule_reads_the_text_of_an_int (depth : nat) (n : Z)
    (rule_config : ValidationRuleConfig) :
  rule_type rule_config = NUMERIC ->
  _apply_rule re_match_user (S depth) (VStr (str (VInt n))) rule_config
  = Ret (Result true [] [] (VFloat (PyFloat.round_Z n))) /\
  _apply_rule re_match_user (S depth) (VInt n) rule_config
  = match PyFloat.round_Z n with
    | S754_infinity _ => Raise OverflowError
    | f => Ret (Result true [] [] (VFloat f))
    end.
Proof.
  intros Hrule. cbn [_apply_rule str]. rewrite Hrule.
  cbn [is_required andb none_or_empty]. split.
  - destruct (of_N_spec (Z.to_N (Z.abs n))) as (Hne & Hds & Hvalue).
    destruct (float_of_digits (n <? 0)%Z _ Hne Hds) as [Hclean Hfloat].
    rewrite <- of_Z_digits in Hclean, Hfloat.
    rewrite Hclean, Hfloat, Hvalue, of_decimal_of_int.
    destruct (of_Z n) eqn:E; [|reflexivity].
    rewrite of_Z_digits in E. destruct (n <? 0)%Z; [discriminate E|].
    contradiction.
  - unfold float_of_int, PyFloat.of_int.
    destruct (PyFloat.round_Z n); reflexivity.
Qed.

End Integers.

(** ** Numbers too large for a float *)

Lemma filter_lstrip (p : pychar -> bool) (s : pystr) :
  (forall c, isspace c = true -> p c = false) ->
  filter p (lstrip s) = filter p s.
Proof.
  intros Hp. induction s as [|c s IH]; cbn [lstrip filter]; [reflexivity|].
  destruct (isspace c) eqn:E; [|reflexivity].
  rewrite (Hp _ E). exact IH.
Qed.

Lemma filter_strip (p : pychar -> bool) (s : pystr) :
  (forall c, isspace c = true -> p c = false) ->
  filter p (strip s) = filter p s.
Proof.
  intros Hp. unfold strip, rstrip.
  rewrite filter_rev, (filter_lstrip _ _ Hp), filter_rev, rev_involutive.
  apply filter_lstrip. exact Hp.
Qed.

(** What the NUMERIC rule removes of a string includes its white space. *)
Lemma white_space_is_noise (c : pychar) :
  isspace c = true -> negb (numeric_noise c) = false.
Proof.
  intros H. unfold numeric_noise. rewrite H, !orb_true_r. reflexivity.
Qed.

Section Overflow.

Variable re_match_user : pystr -> pystr -> outcome bool.

#[local] Set Warnings "-inexact-float".

(** C8: the NUMERIC rule removes the currency symbols, the commas and the
    white space of a string and gives what is left to [float]: it cleans
    ["$1,234.56"] to 1234.56 and ["  42 "] to 42.0, it fails on ["abc"],
    and it cleans every string that is the text of an [int] between such
    characters to the float nearest to the [int].  It returns a [float] as
    it is.  It gives an [int] to [float] too, and cleans 42 to 42.0, but
    it catches [ValueError] only: an [int] too large for a float, such as
    2 ^ 1024, is not accepted, and the [OverflowError] of [float] leaves
    the validator. *)
Theorem numeric_rule_raises_on_large_int (depth : nat) (params : option dict)
    (message warning : option pystr) :
  let numeric := Config NUMERIC params message warning in
  let run value := _apply_rule re_match_user (S depth) value numeric in
  let valid f := Result true [] [] (VFloat f) in
  let invalid :=
    Result false [or_default message "Invalid numeric value"] [] VNone in
  run (VStr (lit "$1,234.56")) = Ret (valid (Prim2SF 1234.56)) /\
  run (VStr (lit "  42 ")) = Ret (valid (Prim2SF 42.0)) /\
  run (VStr (lit "abc")) = Ret invalid /\
  (forall n s,
     filter (fun c => negb (numeric_noise c)) s = str (VInt n) ->
     run (VStr s) = Ret (valid (PyFloat.round_Z n))) /\
  (forall f, run (VFloat f) = Ret (valid f)) /\
  run (VInt 42) = Ret (valid (Prim2SF 42.0)) /\
  (forall n,
     run (VInt n) =
     match PyFloat.round_Z n with
     | S754_infinity _ => Raise OverflowError
     | f => Ret (valid f)
     end) /\
  run (VInt (2 ^ 1024)) = Raise OverflowError /\
  run (VStr (str (VInt (2 ^ 1024)))) = Ret (valid (S754_infinity false)).
Proof.
  intros numeric run valid invalid.
  assert (Htext : forall n s,
            filter (fun c => negb (numeric_noise c)) s = str (VInt n) ->
            run (VStr s) = Ret (valid (PyFloat.round_Z n))).
  { intros n s Hs. cbn [str] in Hs.
    destruct (of_N_spec (Z.to_N (Z.abs n))) as (Hne & Hds & Hvalue).
    destruct (float_of_digits (n <? 0)%Z _ Hne Hds) as [_ Hfloat].
    rewrite <- of_Z_digits in Hfloat.
    rewrite Hvalue, of_decimal_of_int in Hfloat.
    destruct s as [|c s].
    - cbn [filter] in Hs. rewrite of_Z_digits in Hs.
      destruct (n <? 0)%Z; [discriminate Hs|].
      contradiction Hne. symmetry. exact Hs.
    - unfold run. cbn [_apply_rule rule_type numeric is_required andb
                       none_or_empty].
      rewrite (filter_strip _ _ white_space_is_noise), Hs, Hfloat.
      reflexivity. }
  assert (Hint : forall n,
            run (VInt n) =
            match PyFloat.round_Z n with
            | S754_infinity _ => Raise OverflowError
            | f => Ret (valid f)
            end).
  { intros n. unfold run. cbn [_apply_rule rule_type numeric is_required andb
                               none_or_empty].
    unfold float_of_int, PyFloat.of_int.
    destruct (PyFloat.round_Z n); reflexivity. }
  split; [vm_compute; reflexivity|].
  split; [vm_compute; reflexivity|].
  split; [destruct message as [[|c s]|]; reflexivity|].
  split; [exact Htext|].
  split; [reflexivity|].
  split; [rewrite Hint; vm_compute; reflexivity|].
  split; [exact Hint|].
  split; [rewrite Hint; vm_compute; reflexivity|].
  rewrite (Htext (2 ^ 1024)%Z) by reflexivity. vm_compute. reflexivity.
Qed.

End Overflow.

(** ** Dictionaries *)

Lemma str_eqb_refl (s : pystr) : Str.eqb s s = true.
Proof.
  induction s as [|c s IH]; [reflexivity|].
  cbn [Str.eqb]. rewrite N.eqb_refl, IH. reflexivity.
Qed.

Lemma str_eqb_neq (s t : pystr) : s <> t -> Str.eqb s t = false.
Proof.
  intros H. destruct (Str.eqb s t) eqn:E; [|reflexivity].
  apply str_eqb_eq in E. contradiction.
Qed.

Lemma lit_injective (s t : string) : lit s = lit t -> s = t.
Proof.
  unfold lit. revert t. induction s as [|a s IH]; intros [|b t] H;
    try discriminate H; [reflexivity|].
  cbn [list_ascii_of_string map] in H. injection H as Ha Hs.
  apply (f_equal ascii_of_N) in Ha. rewrite !ascii_N_embedding in Ha.
  rewrite Ha, (IH _ Hs). reflexivity.
Qed.

Lemma lookup_setitem {V : Type} (d : list (pystr * V)) (key : pystr) (v : V) :
  Operators.lookup (Operators.setitem d key v) key = Some v.
Proof.
  induction d as [|[k w] d IH]; cbn [Operators.setitem Operators.lookup].
  - rewrite str_eqb_refl. reflexivity.
  - destruct (Str.eqb k key) eqn:E; cbn [Operators.lookup]; rewrite E;
      [reflexivity|exact IH].
Qed.

Lemma lookup_setitem_other {V : Type} (d : list (pystr * V)) (key key' : pystr)
    (v : V) :
  key <> key' ->
  Operators.lookup (Operators.setitem d key v) key' = Operators.lookup d key'.
Proof.
  intros Hneq.
  induction d as [|[k w] d IH]; cbn [Operators.setitem Operators.lookup].
  - rewrite (str_eqb_neq _ _ Hneq). reflexivity.
  - destruct (Str.eqb k key) eqn:E; cbn [Operators.lookup].
    + apply str_eqb_eq in E. subst k. rewrite (str_eqb_neq _ _ Hneq). reflexivity.
    + rewrite IH. reflexivity.
Qed.

(** ** The validators of records *)

Section Records.

Variable re_match_user : pystr -> pystr -> outcome bool.

(** The loop over the rules of a record: when it returns, the field of
    every rule list has been validated if it is in the record, and no
    other key has been given a result. *)
Lemma validate_fields_returns (depth : nat) (data : dict) :
  forall rules acc results,
    NoDup (map fst rules) ->
    Records.validate_fields re_match_user depth data rules acc = Ret results ->
    (forall field rs,
       In (field, rs) rules ->
       match get data field with
       | Some value =>
           exists result,
             validate_field re_match_user depth value rs = Ret result /\
             Operators.lookup results (lit field) = Some result
       | None =>
           Operators.lookup results (lit field) = Operators.lookup acc (lit field)
       end) /\
    (forall key,
       (forall field, In field (map fst rules) -> lit field <> key) ->
       Operators.lookup results key = Operators.lookup acc key).
Proof.
  induction rules as [|[field rs] rest IH]; intros acc results Hnodup H.
  { cbn in H. returned. split; [intros ? ? []|reflexivity]. }
  cbn [map fst] in Hnodup. apply NoDup_cons_iff in Hnodup.
  destruct Hnodup as [Hfresh Hnodup].
  assert (Hother : forall field', In field' (map fst rest) -> lit field' <> lit field).
  { intros field' Hin E. apply lit_injective in E. subst field'. exact (Hfresh Hin). }
  cbn [Records.validate_fields] in H.
  destruct (get data field) as [value|] eqn:Hget.
  - returned. destruct (IH _ _ Hnodup H) as [IH1 IH2]. split.
    + intros field' rs' [E|Hin].
      * injection E as <- <-. rewrite Hget. exists a. split; [exact Ha|].
        rewrite (IH2 _ Hother). apply lookup_setitem.
      * specialize (IH1 _ _ Hin). destruct (get data field'); [exact IH1|].
        rewrite IH1. apply lookup_setitem_other.
        intros E. apply (Hother field'); [|symmetry; exact E].
        apply (in_map fst) in Hin. exact Hin.
    + intros key Hkey. rewrite IH2.
      * apply lookup_setitem_other. apply Hkey. left. reflexivity.
      * intros field' Hin. apply Hkey. right. exact Hin.
  - destruct (IH _ _ Hnodup H) as [IH1 IH2]. split.
    + intros field' rs' [E|Hin].
      * injection E as <- <-. rewrite Hget. apply IH2. exact Hother.
      * exact (IH1 _ _ Hin).
    + intros key Hkey. apply IH2. intros field' Hin. apply Hkey. right. exact Hin.
Qed.

(** The loop raises [NameError] at the first field whose validation
    raises it, when the fields before it return or raise it too. *)
Lemma validate_fields_raises (depth : nat) (data : dict)
    (field : string) (rs : list ValidationRuleConfig) (value : pyval)
    (after : list (string * list ValidationRuleConfig)) :
  get data field = Some value ->
  validate_field re_match_user depth value rs = Raise NameError ->
  forall before acc,
    (forall f rs' v,
       In (f, rs') before -> get data f = Some v ->
       returns_or_raises NameError (validate_field re_match_user depth v rs')) ->
    Records.validate_fields re_match_user depth data
      (before ++ (field, rs) :: after) acc = Raise NameError.
Proof.
  intros Hget Hraise.
  induction before as [|[f rs'] before IH]; intros acc Hbefore;
    cbn [app Records.validate_fields].
  - rewrite Hget, Hraise. reflexivity.
  - destruct (get data f) as [v|] eqn:Hf.
    + pose proof (Hbefore f rs' v (or_introl eq_refl) Hf) as Hhead.
      destruct (validate_field re_match_user depth v rs') as [r|e];
        cbn [returns_or_raises bind] in *.
      * apply IH. intros ? ? ? Hin. apply Hbefore. right. exact Hin.
      * rewrite Hhead. reflexivity.
    + apply IH. intros ? ? ? Hin. apply Hbefore. right. exact Hin.
Qed.


(** A blank value is [None] or a string. *)
Lemma blank_is_none_or_str (value : pyval) :
  blank value = true -> value = VNone \/ exists s, value = VStr s.
Proof.
  destruct value; try discriminate; [left; reflexivity|right; eexists; reflexivity].
Qed.

Ltac ends_leaf := first [exact I | reflexivity].

(** On [None] and on a string, the rules of the records that have no
    parameter return or raise [NameError]. *)
Lemma plain_rule_ends (depth : nat) (value : pyval)
    (rule_config : ValidationRuleConfig) :
  value = VNone \/ (exists s, value = VStr s) ->
  In rule_config plain_rules ->
  returns_or_raises NameError
    (_apply_rule re_match_user (S (S depth)) value rule_config).
Proof.
  intros [->|(s & ->)] Hin.
  { repeat (destruct Hin as [<-|Hin]; [ends_leaf|]). destruct Hin. }
  destruct s as [|c s].
  { repeat (destruct Hin as [<-|Hin]; [ends_leaf|]). destruct Hin. }
  repeat (destruct Hin as [<-|Hin];
          [cbn [_apply_rule RuleConfig Records.Length rule_type parameters
                  is_required andb none_or_empty]|]);
    [| | | | | |destruct Hin].
  - destruct (blank _); ends_leaf.
  - destruct (PyFloat.of_str _); ends_leaf.
  - destruct (PyFloat.of_str _) as [f|]; cbn [bind failure is_valid negb];
      [|ends_leaf].
    unfold le. cbn [cleaned_value compare as_number compare_numbers bind].
    destruct (PyFloat.compare_Z f 0) as [[]|]; ends_leaf.
  - destruct (Re.re_search currency_pattern _) as [[rest caps]|] eqn:E; [|ends_leaf].
    apply currency_group_present in E. destruct E as (text & ->).
    destruct (PyFloat.of_str _); ends_leaf.
  - destruct (first_parse _ _); ends_leaf.
  - generalize (Z.of_nat (List.length (c :: s))). intros n.
    unfold lt, gt. cbn.
    destruct (n ?= 1)%Z; try ends_leaf; destruct (n ?= 50)%Z; ends_leaf.
Qed.

Lemma validate_field_ends (depth : nat) (value : pyval)
    (rules : list ValidationRuleConfig) :
  (forall rule_config,
     In rule_config rules ->
     returns_or_raises NameError
       (_apply_rule re_match_user depth value rule_config)) ->
  returns_or_raises NameError (validate_field re_match_user depth value rules).
Proof.
  intros Hrules. rewrite validate_field_merge.
  assert (H : returns_or_raises NameError
                (apply_all re_match_user depth value rules)).
  { induction rules as [|rule_config rest IH]; [exact I|].
    cbn [apply_all].
    pose proof (Hrules rule_config (or_introl eq_refl)) as Hhead.
    destruct (_apply_rule re_match_user depth value rule_config);
      [|exact Hhead].
    cbn [bind].
    destruct (apply_all re_match_user depth value rest); [exact I|].
    apply IH. intros ? Hin. apply Hrules. right. exact Hin. }
  destruct (apply_all re_match_user depth value rules); [exact I|exact H].
Qed.

(** A list of such rules that starts with REQUIRED, on any value. *)
Lemma required_first_ends (depth : nat) (value : pyval)
    (rest : list ValidationRuleConfig) :
  incl rest plain_rules ->
  returns_or_raises NameError
    (validate_field re_match_user (S (S depth)) value (RuleConfig REQUIRED :: rest)).
Proof.
  intros Hrest. destruct (blank value) eqn:Hblank.
  - apply validate_field_ends. intros rule_config Hin.
    apply plain_rule_ends; [apply blank_is_none_or_str; exact Hblank|].
    destruct Hin as [<-|Hin]; [left; reflexivity|apply Hrest; exact Hin].
  - rewrite required_first_raises by exact Hblank. reflexivity.
Qed.

(** [self.validate_field(value, [CURRENCY, POSITIVE])], on any value. *)
Lemma currency_positive_ends (depth : nat) (value : pyval) :
  returns_or_raises NameError
    (validate_field re_match_user (S (S depth)) value
       [RuleConfig CURRENCY; RuleConfig POSITIVE]).
Proof.
  assert (Hplain : value = VNone \/ (exists s, value = VStr s) ->
                   returns_or_raises NameError
                     (validate_field re_match_user (S (S depth)) value
                        [RuleConfig CURRENCY; RuleConfig POSITIVE])).
  { intros Hvalue. apply validate_field_ends. intros rule_config Hin.
    apply plain_rule_ends; [exact Hvalue|].
    destruct Hin as [<-|[<-|[]]]; cbn; auto 10. }
  destruct value; try reflexivity; apply Hplain; eauto.
Qed.

(** [validate_financial_statement] raises [NameError] on every statement
    whose revenue or whose expenses are present and not blank; the
    statement of the test at the end of the file is one. *)
Theorem financial_statement_raises_on_revenue (depth : nat)
    (statement_data : dict) (value : pyval) :
  get statement_data "revenue" = Some value \/
  get statement_data "expenses" = Some value ->
  blank value = false ->
  Records.validate_financial_statement re_match_user (S (S depth)) statement_data
  = Raise NameError.
Proof.
  intros Hget Hblank. unfold Records.validate_financial_statement.
  assert (H : Records.validate_fields re_match_user (S (S depth)) statement_data
                Records.statement_rules [] = Raise NameError);
    [|rewrite H; reflexivity].
  destruct Hget as [Hget|Hget].
  - apply (validate_fields_raises _ _ _ _ _ _ Hget) with (before := []).
    + apply required_first_raises. exact Hblank.
    + intros ? ? ? [].
  - apply (validate_fields_raises _ _ _ _ _ _ Hget)
      with (before := [("revenue"%string, [RuleConfig REQUIRED; RuleConfig POSITIVE])]).
    + apply required_first_raises. exact Hblank.
    + intros f rs v [E|[]] _. injection E as <- <-.
      apply required_first_ends. intros r [<-|[]]. cbn. auto.
Qed.


Lemma statement_rules_nodup : NoDup (map fst Records.statement_rules).
Proof. repeat constructor; cbn; intuition discriminate. Qed.

Lemma rental_rules_nodup : NoDup (map fst Records.rental_rules).
Proof. repeat constructor; cbn; intuition discriminate. Qed.

Lemma expense_rules_nodup : NoDup (map fst Records.expense_rules).
Proof. repeat constructor; cbn; intuition discriminate. Qed.

Lemma cash_flow_rules_nodup : NoDup (map fst Records.cash_flow_rules).
Proof. repeat constructor; cbn; intuition discriminate. Qed.

(** When [validate_financial_statement] returns, its results hold the
    outcome of [validate_field] for the fields of the statement that have
    rules, and for no other field; they hold a balance check exactly when
    assets, liabilities and equity are all in the statement, and the balance
    check has no warning and at most its one error. *)
Theorem financial_statement_results (depth : nat) (statement_data : dict)
    (results : Records.results) :
  Records.validate_financial_statement re_match_user depth statement_data
  = Ret results ->
  (forall field rules,
     In (field, rules) Records.statement_rules ->
     match get statement_data field with
     | Some value =>
         exists result,
           validate_field re_match_user depth value rules = Ret result /\
           Operators.lookup results (lit field) = Some result
     | None => Operators.lookup results (lit field) = None
     end) /\
  match Operators.lookup results (lit "balance_check") with
  | Some check =>
      (get statement_data "assets" <> None /\
       get statement_data "liabilities" <> None /\
       get statement_data "equity" <> None) /\
      (check = Result true [] [] VNone \/
       check = Result false [Records.balance_message] [] VNone)
  | None =>
      get statement_data "assets" = None \/
      get statement_data "liabilities" = None \/
      get statement_data "equity" = None
  end.
Proof.
  unfold Records.validate_financial_statement. intros H. returned.
  destruct (validate_fields_returns _ _ _ _ _ statement_rules_nodup Ha)
    as [Hfields Hother].
  assert (Hcheck : Operators.lookup a (lit "balance_check") = None).
  { rewrite Hother; [reflexivity|].
    intros field Hin E. apply lit_injective in E. subst field.
    cbn in Hin. intuition discriminate. }
  assert (Hpresent : forall field rules,
            In (field, rules) Records.statement_rules ->
            get statement_data field = None <->
            Operators.lookup a (lit field) = None).
  { intros field rules Hin. specialize (Hfields _ _ Hin).
    destruct (get statement_data field).
    - destruct Hfields as (r & _ & ->). split; discriminate.
    - split; [intros _; exact Hfields|reflexivity]. }
  assert (Hassets := Hpresent "assets"%string _ ltac:(cbn; auto 10)).
  assert (Hliabilities := Hpresent "liabilities"%string _ ltac:(cbn; auto 10)).
  assert (Hequity := Hpresent "equity"%string _ ltac:(cbn; auto 10)).
  assert (Hkeep : forall v field rules,
            In (field, rules) Records.statement_rules ->
            Operators.lookup
              (Operators.setitem a (lit "balance_check") v) (lit field)
            = Operators.lookup a (lit field)).
  { intros v field rules Hin. apply lookup_setitem_other.
    intros E. apply lit_injective in E. subst field.
    cbn in Hin. intuition (try discriminate; congruence). }
  destruct (Operators.lookup a (lit "assets")) as [assets|];
    [|returned; rewrite Hcheck; split;
      [intros ? ? Hin; specialize (Hfields _ _ Hin);
       destruct (get statement_data field); exact Hfields
      |left; apply Hassets; reflexivity]].
  destruct (Operators.lookup a (lit "liabilities")) as [liabilities|];
    [|returned; rewrite Hcheck; split;
      [intros ? ? Hin; specialize (Hfields _ _ Hin);
       destruct (get statement_data field); exact Hfields
      |right; left; apply Hliabilities; reflexivity]].
  destruct (Operators.lookup a (lit "equity")) as [equity|];
    [|returned; rewrite Hcheck; split;
      [intros ? ? Hin; specialize (Hfields _ _ Hin);
       destruct (get statement_data field); exact Hfields
      |right; right; apply Hequity; reflexivity]].
  returned.
  assert (Hall : get statement_data "assets" <> None /\
                 get statement_data "liabilities" <> None /\
                 get statement_data "equity" <> None).
  { repeat split; intros E;
      [apply Hassets in E|apply Hliabilities in E|apply Hequity in E];
      discriminate E. }
  destruct a2; returned; rewrite lookup_setitem;
    (split; [|split; [exact Hall|auto]]);
    intros field rules Hin; rewrite (Hkeep _ _ _ Hin);
    specialize (Hfields _ _ Hin);
    destruct (get statement_data field); try exact Hfields;
    rewrite Hfields; reflexivity.
Qed.


(** Of the fields of a statement, [validate_financial_statement] accepts
    equity only: when it returns, the result of revenue, expenses, assets
    and liabilities is not valid whenever the field has a value other than
    [None] and the empty string. *)
Theorem financial_statement_accepts_equity_only (depth : nat)
    (statement_data : dict) (results : Records.results)
    (field : string) (value : pyval) :
  Records.validate_financial_statement re_match_user depth statement_data
  = Ret results ->
  In field ["revenue"; "expenses"; "assets"; "liabilities"]%string ->
  get statement_data field = Some value ->
  none_or_empty value = false ->
  exists result,
    Operators.lookup results (lit field) = Some result /\
    is_valid result = false.
Proof.
  intros H Hfield Hget Hempty.
  assert (Hrules : exists rules,
            In (field, rules) Records.statement_rules /\
            In (RuleConfig POSITIVE) rules).
  { cbn in Hfield.
    destruct Hfield as [<-|[<-|[<-|[<-|[]]]]]; eexists;
      (split; [cbn; auto 10|cbn; auto]). }
  destruct Hrules as (rules & Hin & Hrule).
  unfold Records.validate_financial_statement in H. returned.
  destruct (validate_fields_returns _ _ _ _ _ statement_rules_nodup Ha)
    as [Hfields _].
  specialize (Hfields _ _ Hin). rewrite Hget in Hfields.
  destruct Hfields as (result & Hresult & Hlookup).
  exists result. split.
  - assert (Hkeep : forall check,
              Operators.lookup
                (Operators.setitem a (lit "balance_check") check) (lit field)
              = Some result).
    { intros check. rewrite lookup_setitem_other; [exact Hlookup|].
      intros E. apply lit_injective in E. subst field.
      cbn in Hfield. intuition discriminate. }
    repeat (split_test H; returned); solve [exact Hlookup | apply Hkeep].
  - eapply validate_field_rejects;
      [exact Hempty|exact Hrule|reflexivity|exact Hresult].
Qed.

Lemma rental_data_returns (depth : nat) (rental_data : dict)
    (results : Records.results) :
  Records.validate_rental_data re_match_user depth rental_data = Ret results ->
  Records.validate_fields re_match_user depth rental_data Records.rental_rules []
  = Ret results.
Proof.
  unfold Records.validate_rental_data. intros H. returned.
  destruct (validate_fields_returns _ _ _ _ _ rental_rules_nodup Ha)
    as [Hfields _].
  assert (Hinvalid : forall field rest result,
            In (field, RuleConfig REQUIRED :: rest) Records.rental_rules ->
            Operators.lookup a (lit field) = Some result ->
            is_valid result = false).
  { intros field rest result Hin Hlookup. specialize (Hfields _ _ Hin).
    destruct (get rental_data field); [|rewrite Hfields in Hlookup; discriminate].
    destruct Hfields as (r & Hr & Hr'). rewrite Hr' in Hlookup.
    injection Hlookup as <-. apply required_first_returns in Hr. apply Hr. }
  destruct (Operators.lookup a (lit "lease_start_date")) as [lease_start|] eqn:E;
    [|returned; exact Ha].
  rewrite (Hinvalid "lease_start_date"%string _ _ ltac:(cbn; auto 10) E) in H.
  destruct (Operators.lookup a (lit "lease_end_date")); cbn [andb] in H;
    returned; exact Ha.
Qed.

(** [validate_rental_data] never checks the dates of a lease: when it
    returns, its results have no [date_range], and each of monthly rent,
    lease start date and lease end date that is in the record is blank and
    has a result that is not valid. *)
Theorem rental_data_never_checks_dates (depth : nat) (rental_data : dict)
    (results : Records.results) :
  Records.validate_rental_data re_match_user depth rental_data = Ret results ->
  Operators.lookup results (lit "date_range") = None /\
  forall field value,
    In field ["monthly_rent"; "lease_start_date"; "lease_end_date"]%string ->
    get rental_data field = Some value ->
    blank value = true /\
    exists result,
      Operators.lookup results (lit field) = Some result /\
      is_valid result = false.
Proof.
  intros H. apply rental_data_returns in H.
  destruct (validate_fields_returns _ _ _ _ _ rental_rules_nodup H)
    as [Hfields Hother].
  split.
  - rewrite Hother; [reflexivity|].
    intros field Hin E. apply lit_injective in E. subst field.
    cbn in Hin. intuition discriminate.
  - intros field value Hfield Hget.
    assert (Hrules : exists rest,
              In (field, RuleConfig REQUIRED :: rest) Records.rental_rules).
    { cbn in Hfield. destruct Hfield as [<-|[<-|[<-|[]]]]; eexists; cbn; auto 10. }
    destruct Hrules as (rest & Hin).
    specialize (Hfields _ _ Hin). rewrite Hget in Hfields.
    destruct Hfields as (result & Hresult & Hlookup).
    apply required_first_returns in Hresult.
    destruct Hresult as (Hblank & Hinvalid & _).
    split; [exact Hblank|]. exists result. split; assumption.
Qed.

(** [validate_rental_data] raises [NameError] on every record whose
    monthly rent, lease start date or lease end date is present and not
    blank. *)
Theorem rental_data_raises_on_present_value (depth : nat) (rental_data : dict)
    (field : string) (value : pyval) :
  In field ["monthly_rent"; "lease_start_date"; "lease_end_date"]%string ->
  get rental_data field = Some value ->
  blank value = false ->
  Records.validate_rental_data re_match_user (S (S depth)) rental_data
  = Raise NameError.
Proof.
  intros Hfield Hget Hblank. unfold Records.validate_rental_data.
  assert (H : Records.validate_fields re_match_user (S (S depth)) rental_data
                Records.rental_rules [] = Raise NameError);
    [|rewrite H; reflexivity].
  assert (Hends : forall f rs v,
            In (f, rs) (firstn 3 Records.rental_rules) ->
            returns_or_raises NameError
              (validate_field re_match_user (S (S depth)) v rs)).
  { intros f rs v Hin. cbn in Hin.
    destruct Hin as [E|[E|[E|[]]]]; injection E as <- <-.
    - apply required_first_ends. intros r Hr. cbn in Hr |- *. intuition.
    - apply currency_positive_ends.
    - apply required_first_ends. intros r Hr. cbn in Hr |- *. intuition. }
  cbn in Hfield. destruct Hfield as [<-|[<-|[<-|[]]]].
  - apply (validate_fields_raises _ _ _ _ _ _ Hget) with (before := []).
    + apply required_first_raises. exact Hblank.
    + intros ? ? ? [].
  - apply (validate_fields_raises _ _ _ _ _ _ Hget)
      with (before := firstn 2 Records.rental_rules).
    + apply required_first_raises. exact Hblank.
    + intros f rs v Hin _. apply (Hends f). cbn in Hin |- *. intuition.
  - apply (validate_fields_raises _ _ _ _ _ _ Hget)
      with (before := firstn 3 Records.rental_rules).
    + apply required_first_raises. exact Hblank.
    + intros f rs v Hin _. apply (Hends f). exact Hin.
Qed.


(** A blank value is none of the names of a list of names that are not
    blank. *)
Lemma blank_is_no_name (value : pyval) (names : list string) :
  blank value = true ->
  forallb (fun name => negb (blank (VStr (lit name)))) names = true ->
  Records.one_of_names value names = false.
Proof.
  intros Hblank Hnames. unfold Records.one_of_names, Operators.member.
  induction names as [|name names IH]; [reflexivity|].
  cbn [forallb] in Hnames. apply andb_prop in Hnames.
  destruct Hnames as [Hname Hnames]. cbn [map existsb].
  rewrite (IH Hnames), orb_false_r.
  destruct (blank_is_none_or_str _ Hblank) as [->|(s & ->)]; [reflexivity|].
  cbn [Operators.equal as_number].
  destruct (Str.eqb (lit name) s) eqn:E; [|reflexivity].
  apply str_eqb_eq in E. subst s. rewrite Hblank in Hname. discriminate Hname.
Qed.

(** [validate_expense_data] accepts no category: on a record whose
    category is not blank it raises [NameError], also when the category is
    one of the valid categories, and when it returns, the result of a
    category that is in the record is the error of a category that is not
    valid.  Its results never have an [amount_check]. *)
Theorem expense_data_rejects_every_category (depth : nat) (expense_data : dict) :
  (forall category,
     get expense_data "category" = Some category ->
     blank category = false ->
     Records.validate_expense_data re_match_user (S (S depth)) expense_data
     = Raise NameError) /\
  (forall results,
     Records.validate_expense_data re_match_user depth expense_data
     = Ret results ->
     Operators.lookup results (lit "amount_check") = None /\
     (get expense_data "category" <> None ->
      Operators.lookup results (lit "category")
      = Some (Result false
                [lit "Invalid category. Must be one of: "
                 ++ Records.names_text Records.valid_categories] [] VNone))).
Proof.
  split.
  - intros category Hget Hblank. unfold Records.validate_expense_data.
    assert (H : Records.validate_fields re_match_user (S (S depth)) expense_data
                  Records.expense_rules [] = Raise NameError);
      [|rewrite H; reflexivity].
    apply (validate_fields_raises _ _ _ _ _ _ Hget)
      with (before := firstn 3 Records.expense_rules).
    + apply required_first_raises. exact Hblank.
    + intros f rs v Hin _. cbn in Hin.
      destruct Hin as [E|[E|[E|[]]]]; injection E as <- <-;
        apply required_first_ends; intros r Hr; cbn in Hr |- *; intuition.
  - unfold Records.validate_expense_data. intros results H. returned.
    destruct (validate_fields_returns _ _ _ _ _ expense_rules_nodup Ha)
      as [Hfields Hother].
    assert (Hcheck : Operators.lookup a (lit "amount_check") = None).
    { rewrite Hother; [reflexivity|].
      intros field Hin E. apply lit_injective in E. subst field.
      cbn in Hin. intuition discriminate. }
    pose proof (Hfields "category"%string _ ltac:(cbn; auto 10)) as Hcategory.
    pose proof (Hfields "amount"%string _ ltac:(cbn; auto 10)) as Hamount.
    set (invalid := Result false _ [] VNone) in *.
    set (checked :=
           match get expense_data "category" with
           | Some category =>
               if negb (Records.one_of_names category Records.valid_categories)
               then Operators.setitem a (lit "category") invalid
               else a
           | None => a
           end) in *.
    assert (Hchecked :
              Operators.lookup checked (lit "amount_check") = None /\
              Operators.lookup checked (lit "amount")
              = Operators.lookup a (lit "amount") /\
              (get expense_data "category" <> None ->
               Operators.lookup checked (lit "category") = Some invalid)).
    { unfold checked. destruct (get expense_data "category") as [category|].
      - destruct Hcategory as (r & Hr & _).
        apply required_first_returns in Hr. destruct Hr as (Hblank & _).
        rewrite (blank_is_no_name _ _ Hblank) by (vm_compute; reflexivity).
        cbn [negb]. rewrite lookup_setitem.
        rewrite !lookup_setitem_other by (intros E; discriminate E).
        repeat split. exact Hcheck.
      - split; [exact Hcheck|]. split; [reflexivity|].
        intros E. contradiction E. reflexivity. }
    destruct Hchecked as (Hc1 & Hc2 & Hc3).
    assert (Hresults : results = checked).
    { rewrite Hc2 in H.
      destruct (get expense_data "amount") as [amount|].
      - destruct Hamount as (r & Hr & Hlookup). rewrite Hlookup in H.
        apply required_first_returns in Hr. destruct Hr as (_ & Hinvalid & _).
        rewrite Hinvalid in H. returned. reflexivity.
      - rewrite Hamount in H. cbn [Operators.lookup] in H. returned. reflexivity. }
    rewrite Hresults. split; assumption.
Qed.

(** [validate_cash_flow_data] accepts no field: on a record with a field
    that has rules and a value that is not blank it raises [NameError], and
    when it returns, every field of the record that has rules is blank and
    has a result that is not valid; the result of a flow type and of a
    direction is then the error that lists the valid names. *)
Theorem cash_flow_data_accepts_no_field (depth : nat) (cash_flow_data : dict) :
  let fields :=
    ["amount"; "date"; "flow_type"; "direction"; "description"]%string in
  (forall field value,
     In field fields ->
     get cash_flow_data field = Some value ->
     blank value = false ->
     Records.validate_cash_flow_data re_match_user (S (S depth)) cash_flow_data
     = Raise NameError) /\
  (forall results,
     Records.validate_cash_flow_data re_match_user depth cash_flow_data
     = Ret results ->
     (forall field value,
        In field fields ->
        get cash_flow_data field = Some value ->
        blank value = true /\
        exists result,
          Operators.lookup results (lit field) = Some result /\
          is_valid result = false) /\
     (get cash_flow_data "flow_type" <> None ->
      Operators.lookup results (lit "flow_type")
      = Some (Result false
                [lit "Flow type must be one of: Operating, Investing, Financing"]
                [] VNone)) /\
     (get cash_flow_data "direction" <> None ->
      Operators.lookup results (lit "direction")
      = Some (Result false [lit "Direction must be one of: Inflow, Outflow"]
                [] VNone))).
Proof.
  intros fields. split.
  - intros field value Hfield Hget Hblank.
    unfold Records.validate_cash_flow_data.
    assert (H : Records.validate_fields re_match_user (S (S depth))
                  cash_flow_data Records.cash_flow_rules [] = Raise NameError);
      [|rewrite H; reflexivity].
    assert (Hends : forall f rs v,
              In (f, rs) (firstn 4 Records.cash_flow_rules) ->
              returns_or_raises NameError
                (validate_field re_match_user (S (S depth)) v rs)).
    { intros f rs v Hin. cbn in Hin.
      destruct Hin as [E|[E|[E|[E|[]]]]]; injection E as <- <-;
        apply required_first_ends; intros r Hr; cbn in Hr |- *; intuition. }
    cbn in Hfield. destruct Hfield as [<-|[<-|[<-|[<-|[<-|[]]]]]].
    + apply (validate_fields_raises _ _ _ _ _ _ Hget)
        with (before := firstn 0 Records.cash_flow_rules);
        [apply required_first_raises; exact Hblank|].
      intros f rs v Hin _. apply (Hends f). cbn in Hin |- *. intuition.
    + apply (validate_fields_raises _ _ _ _ _ _ Hget)
        with (before := firstn 1 Records.cash_flow_rules);
        [apply required_first_raises; exact Hblank|].
      intros f rs v Hin _. apply (Hends f). cbn in Hin |- *. intuition.
    + apply (validate_fields_raises _ _ _ _ _ _ Hget)
        with (before := firstn 2 Records.cash_flow_rules);
        [apply required_first_raises; exact Hblank|].
      intros f rs v Hin _. apply (Hends f). cbn in Hin |- *. intuition.
    + apply (validate_fields_raises _ _ _ _ _ _ Hget)
        with (before := firstn 3 Records.cash_flow_rules);
        [apply required_first_raises; exact Hblank|].
      intros f rs v Hin _. apply (Hends f). cbn in Hin |- *. intuition.
    + apply (validate_fields_raises _ _ _ _ _ _ Hget)
        with (before := firstn 4 Records.cash_flow_rules);
        [apply required_first_raises; exact Hblank|].
      intros f rs v Hin _. apply (Hends f). exact Hin.
  - unfold Records.validate_cash_flow_data. intros results H. returned.
    destruct (validate_fields_returns _ _ _ _ _ cash_flow_rules_nodup Ha)
      as [Hfields _].
    assert (Hfield : forall field value,
              In field fields ->
              get cash_flow_data field = Some value ->
              blank value = true /\
              exists result,
                Operators.lookup a (lit field) = Some result /\
                is_valid result = false).
    { intros field value Hin Hget.
      assert (Hrules : exists rest,
                In (field, RuleConfig REQUIRED :: rest) Records.cash_flow_rules).
      { cbn in Hin. destruct Hin as [<-|[<-|[<-|[<-|[<-|[]]]]]];
          eexists; cbn; auto 10. }
      destruct Hrules as (rest & Hrules).
      specialize (Hfields _ _ Hrules). rewrite Hget in Hfields.
      destruct Hfields as (result & Hresult & Hlookup).
      apply required_first_returns in Hresult.
      destruct Hresult as (Hblank & Hinvalid & _).
      split; [exact Hblank|]. exists result. split; assumption. }
    pose proof (Hfield "flow_type"%string) as Hflow.
    pose proof (Hfield "direction"%string) as Hdirection.
    destruct (get cash_flow_data "flow_type") as [flow_type|] eqn:Eflow;
      [destruct (Hflow _ ltac:(cbn; auto 10) eq_refl) as (Hblank & _);
       rewrite (blank_is_no_name _ _ Hblank) by (vm_compute; reflexivity)|];
      (destruct (get cash_flow_data "direction") as [direction|] eqn:Edirection;
       [destruct (Hdirection _ ltac:(cbn; auto 10) eq_refl) as (Hblank' & _);
        rewrite (blank_is_no_name _ _ Hblank') by (vm_compute; reflexivity)|]);
      cbn [negb].
    all: split; [|split].
    all: try (intros E; contradiction E; reflexivity).
    all: try (intros _; rewrite ?lookup_setitem_other by (intros E; discriminate E);
              rewrite lookup_setitem; reflexivity).
    all: intros field value Hin Hget;
      destruct (Hfield _ _ Hin Hget) as (Hb & result & Hlookup & Hinvalid);
      (split; [exact Hb|]);
      cbn in Hin; destruct Hin as [<-|[<-|[<-|[<-|[<-|[]]]]]];
      try (rewrite ?lookup_setitem_other by (intros E; discriminate E);
           first [ exists result; split; [exact Hlookup|exact Hinvalid]
                 | rewrite lookup_setitem; eexists; split; reflexivity ]).
Qed.

End Records.

(** ** The validator of worksheets *)

Lemma sum_from (l : list nat) (n : nat) : fold_left Nat.add l n = n + Worksheet.sum l.
Proof.
  unfold Worksheet.sum. revert n.
  induction l as [|m l IH]; intros n; cbn [fold_left]; [lia|].
  rewrite IH, (IH (0 + m)). lia.
Qed.

Lemma sum_cons (m : nat) (l : list nat) :
  Worksheet.sum (m :: l) = m + Worksheet.sum l.
Proof. unfold Worksheet.sum at 1. cbn [fold_left]. apply sum_from. Qed.

Lemma sum_app (l m : list nat) :
  Worksheet.sum (l ++ m) = Worksheet.sum l + Worksheet.sum m.
Proof.
  induction l as [|n l IH]; [reflexivity|].
  cbn [app]. rewrite !sum_cons, IH. lia.
Qed.

Lemma sum_lengths {A B : Type} (f : A -> list B) (l : list A) :
  Worksheet.sum (map (fun a => List.length (f a)) l)
  = List.length (List.concat (map f l)).
Proof.
  induction l as [|a l IH]; [reflexivity|].
  cbn [map List.concat]. rewrite sum_cons, IH, length_app. reflexivity.
Qed.

Lemma header_issues_missing (expected_columns : list pystr) (headers : list pyval) :
  Worksheet.header_issues expected_columns headers
  = map (fun col => lit "Missing required column: " ++ col)
      (missing_columns expected_columns headers).
Proof.
  induction expected_columns as [|col rest IH]; [reflexivity|].
  cbn [Worksheet.header_issues missing_columns filter].
  fold (missing_columns rest headers).
  destruct (negb (Operators.member (VStr col) headers)); cbn [map];
    rewrite IH; reflexivity.
Qed.

Section Worksheets.

Variable re_match_user : pystr -> pystr -> outcome bool.

(** [validate_excel_data] checks the header row before any other row: on
    a worksheet with no row it returns the error of no data, and on a
    worksheet whose first row lacks expected columns it returns one message
    for each expected column that is missing, in the order of the expected
    columns, and validates no cell. *)
Theorem excel_headers_are_checked_first (depth : nat)
    (headers : list pyval) (data_rows : list (list pyval))
    (expected_columns : list pystr)
    (column_rules : list (pystr * list ValidationRuleConfig)) :
  Worksheet.validate_excel_data re_match_user depth [] expected_columns
    column_rules = Ret (Worksheet.Error (lit "No data provided")) /\
  (missing_columns expected_columns headers <> [] ->
   Worksheet.validate_excel_data re_match_user depth (headers :: data_rows)
     expected_columns column_rules
   = Ret (Worksheet.HeaderErrors
            (map (fun col => lit "Missing required column: " ++ col)
               (missing_columns expected_columns headers)))).
Proof.
  split; [reflexivity|]. intros Hmissing.
  cbn [Worksheet.validate_excel_data]. rewrite header_issues_missing.
  destruct (missing_columns expected_columns headers);
    [exfalso; apply Hmissing; reflexivity|].
  reflexivity.
Qed.

Lemma validate_data_rows_numbers (depth : nat) columns column_rules :
  forall rows row_idx validation_results,
    Worksheet.validate_data_rows re_match_user depth rows row_idx columns
      column_rules = Ret validation_results ->
    map Worksheet.row validation_results = List.seq row_idx (List.length rows).
Proof.
  induction rows as [|row rows IH]; intros row_idx validation_results H;
    cbn [Worksheet.validate_data_rows] in H; returned; [reflexivity|].
  cbn [map Worksheet.row List.length List.seq]. rewrite (IH _ _ Ha0). reflexivity.
Qed.

(** The messages of a row name a column that has rules. *)
Lemma validate_row_messages (depth : nat) (row : list pyval) column_rules
    (P : pystr -> Prop) :
  forall columns errors warnings lists,
    Worksheet.validate_row re_match_user depth row columns column_rules
      errors warnings = Ret lists ->
    Forall P errors -> Forall P warnings ->
    (forall col_name col_idx text,
       In (col_name, col_idx) columns ->
       has_rules column_rules col_name = true ->
       P (col_name ++ lit ": " ++ text)) ->
    Forall P (fst lists) /\ Forall P (snd lists).
Proof.
  induction columns as [|[col_name col_idx] columns IH];
    intros errors warnings lists H Herrors Hwarnings Hcolumns;
    cbn [Worksheet.validate_row] in H.
  { returned. split; assumption. }
  assert (Hrest : forall col_name col_idx text,
            In (col_name, col_idx) columns ->
            has_rules column_rules col_name = true ->
            P (col_name ++ lit ": " ++ text)).
  { intros c i t Hin. apply (Hcolumns c i). right. exact Hin. }
  destruct (nth_error row col_idx) as [cell_value|];
    [|exact (IH _ _ _ H Herrors Hwarnings Hrest)].
  assert (Hprefix : has_rules column_rules col_name = true ->
                    forall texts,
                      Forall P (Worksheet.with_column col_name texts)).
  { intros Hrules texts. unfold Worksheet.with_column.
    apply Forall_forall. intros message Hin. apply in_map_iff in Hin.
    destruct Hin as (text & <- & _).
    apply (Hcolumns col_name col_idx); [left; reflexivity|exact Hrules]. }
  unfold has_rules in Hprefix.
  destruct (Operators.lookup column_rules col_name) as [[|rule rules]|];
    try exact (IH _ _ _ H Herrors Hwarnings Hrest).
  returned. apply (IH _ _ _ H); [| |exact Hrest].
  - destruct (negb (is_valid a)); [|exact Herrors].
    apply Forall_app. split; [exact Herrors|apply Hprefix; reflexivity].
  - destruct (Validator.warnings a) eqn:E; [exact Hwarnings|]. rewrite <- E.
    apply Forall_app. split; [exact Hwarnings|apply Hprefix; reflexivity].
Qed.


Lemma setitem_in {V : Type} (d : list (pystr * V)) (key : pystr) (v : V)
    (k : pystr) (w : V) :
  In (k, w) (Operators.setitem d key v) -> (k = key /\ w = v) \/ In (k, w) d.
Proof.
  induction d as [|[k' w'] d IH]; cbn [Operators.setitem].
  - intros [E|[]]. injection E as <- <-. left. split; reflexivity.
  - destruct (Str.eqb k' key) eqn:Ek.
    + apply str_eqb_eq in Ek. subst k'. intros [E|Hin].
      * injection E as <- <-. left. split; reflexivity.
      * right. right. exact Hin.
    + intros [E|Hin]; [right; left; exact E|].
      destruct (IH Hin) as [H|H]; [left; exact H|right; right; exact H].
Qed.

(** The columns that are validated are expected columns, at their first
    place in the header row. *)
Lemma column_indices_in (headers : list pyval) :
  forall expected_columns indices col_name col_idx,
    In (col_name, col_idx)
      (Worksheet.column_indices expected_columns headers indices) ->
    In (col_name, col_idx) indices \/
    (In col_name expected_columns /\
     Operators.index (VStr col_name) headers = Some col_idx).
Proof.
  induction expected_columns as [|col rest IH]; intros indices col_name col_idx H;
    cbn [Worksheet.column_indices] in H; [left; exact H|].
  destruct (Operators.index (VStr col) headers) as [i|] eqn:E.
  - destruct (IH _ _ _ H) as [Hin|[Hin Hidx]].
    + destruct (setitem_in _ _ _ _ _ Hin) as [[-> ->]|Hin'];
        [right; split; [left; reflexivity|exact E]|left; exact Hin'].
    + right. split; [right; exact Hin|exact Hidx].
  - destruct (IH _ _ _ H) as [Hin|[Hin Hidx]]; [left; exact Hin|].
    right. split; [right; exact Hin|exact Hidx].
Qed.

Lemma no_errors_no_error_rows (l : list Worksheet.row_results) :
  Nat.eqb (Worksheet.sum (map (fun r => List.length (Worksheet.errors r)) l)) 0
  = null (map Worksheet.row
            (filter (fun r => match Worksheet.errors r with
                              | [] => false
                              | _ => true
                              end) l)).
Proof.
  induction l as [|r l IH]; [reflexivity|].
  cbn [map filter]. rewrite sum_cons.
  destruct (Worksheet.errors r); [exact IH|reflexivity].
Qed.

(** The summary of [validate_excel_data] counts what its details hold: one
    item for each row after the header row, numbered from 2 on, the errors
    and the warnings of all rows, and the rows that have errors, in their
    order; it is valid exactly when no row has an error, whatever the
    warnings; and every message starts with the name of an expected column
    that has rules. *)
Theorem excel_summary_counts (depth : nat) (worksheet_data : list (list pyval))
    (expected_columns : list pystr)
    (column_rules : list (pystr * list ValidationRuleConfig))
    (s : Worksheet.summary) :
  Worksheet.validate_excel_data re_match_user depth worksheet_data
    expected_columns column_rules = Ret (Worksheet.Validated s) ->
  let details := Worksheet.validation_details s in
  S (Worksheet.total_rows s) = List.length worksheet_data /\
  map Worksheet.row details = List.seq 2 (Worksheet.total_rows s) /\
  Worksheet.total_errors s
  = List.length (List.concat (map Worksheet.errors details)) /\
  Worksheet.total_warnings s
  = List.length (List.concat (map Worksheet.warnings details)) /\
  Worksheet.error_rows s
  = map Worksheet.row
      (filter (fun r => negb (null (Worksheet.errors r))) details) /\
  Worksheet.is_valid s = null (Worksheet.error_rows s) /\
  forall r message,
    In r details ->
    In message (Worksheet.errors r ++ Worksheet.warnings r) ->
    exists col_name text,
      In col_name expected_columns /\
      has_rules column_rules col_name = true /\
      message = col_name ++ lit ": " ++ text.
Proof.
  intros H details.
  destruct worksheet_data as [|headers data_rows]; [discriminate H|].
  cbn [Worksheet.validate_excel_data] in H.
  destruct (Worksheet.header_issues expected_columns headers);
    [|discriminate H].
  returned. subst details.
  cbn [Worksheet.total_rows Worksheet.total_errors Worksheet.total_warnings
         Worksheet.error_rows Worksheet.validation_details Worksheet.is_valid].
  pose proof (validate_data_rows_numbers _ _ _ _ _ _ Ha) as Hnumbers.
  assert (Hlength : List.length a = List.length data_rows).
  { rewrite <- (length_map Worksheet.row), Hnumbers, length_seq. reflexivity. }
  rewrite no_errors_no_error_rows, !sum_lengths, Hlength.
  repeat split; try reflexivity; try assumption.
  - f_equal. apply filter_ext. intros r. destruct (Worksheet.errors r); reflexivity.
  - clear Hnumbers Hlength. revert Ha. generalize 2.
    revert a. induction data_rows as [|row rows IH]; intros a n Ha r message Hr Hm;
      cbn [Worksheet.validate_data_rows] in Ha; returned; [destruct Hr|].
    destruct Hr as [<-|Hr]; [|exact (IH _ _ Ha1 _ _ Hr Hm)].
    cbn [Worksheet.errors Worksheet.warnings] in Hm.
    apply (validate_row_messages _ _ _
             (fun message =>
                exists col_name text,
                  In col_name expected_columns /\
                  has_rules column_rules col_name = true /\
                  message = col_name ++ lit ": " ++ text)) in Ha0.
    + destruct Ha0 as [He Hw]. rewrite Forall_forall in He, Hw.
      apply in_app_or in Hm. destruct Hm as [Hm|Hm]; auto.
    + constructor.
    + constructor.
    + intros col_name col_idx text Hin Hrules.
      apply column_indices_in in Hin. destruct Hin as [[]|[Hin _]].
      exists col_name, text. repeat split; assumption.
Qed.

(** A cell is validated only when its column has rules and its row
    reaches the column. *)
Lemma validate_row_skips (depth : nat) (row : list pyval) column_rules :
  forall columns errors warnings,
    (forall col_name col_idx,
       In (col_name, col_idx) columns ->
       has_rules column_rules col_name = false \/
       (List.length row <= col_idx)%nat) ->
    Worksheet.validate_row re_match_user depth row columns column_rules
      errors warnings = Ret (errors, warnings).
Proof.
  induction columns as [|[col_name col_idx] columns IH];
    intros errors warnings Hskip; [reflexivity|].
  cbn [Worksheet.validate_row].
  assert (Hrest : Worksheet.validate_row re_match_user depth row columns
                    column_rules errors warnings = Ret (errors, warnings)).
  { apply IH. intros c i Hin. apply (Hskip c i). right. exact Hin. }
  destruct (Hskip col_name col_idx (or_introl eq_refl)) as [Hrules|Hshort].
  - unfold has_rules in Hrules.
    destruct (nth_error row col_idx); [|exact Hrest].
    destruct (Operators.lookup column_rules col_name) as [[|rule rules]|];
      [exact Hrest|discriminate Hrules|exact Hrest].
  - apply nth_error_None in Hshort. rewrite Hshort. exact Hrest.
Qed.

Lemma clean_rows_have_no_message (n : nat) (rows : list nat) :
  let details := map (fun row_idx => Worksheet.RowResults row_idx [] []) rows in
  List.concat (map Worksheet.errors details) = [] /\
  List.concat (map Worksheet.warnings details) = [] /\
  filter (fun r => match Worksheet.errors r with [] => false | _ => true end)
    details = [].
Proof.
  induction rows as [|row rows IH]; [repeat split|].
  destruct IH as (He & Hw & Hf). cbn. repeat split; assumption.
Qed.

(** [validate_excel_data] validates a cell only when the column of the
    cell has rules and the row of the cell is long enough to have the
    column: a worksheet with the expected columns, in which every expected
    column has no rule or lies beyond the end of every row, is valid with no
    error and no warning, and no rule is applied. *)
Theorem excel_rows_without_rules_are_clean (depth : nat)
    (headers : list pyval) (data_rows : list (list pyval))
    (expected_columns : list pystr)
    (column_rules : list (pystr * list ValidationRuleConfig)) :
  missing_columns expected_columns headers = [] ->
  (forall col_name col_idx row,
     In col_name expected_columns ->
     Operators.index (VStr col_name) headers = Some col_idx ->
     In row data_rows ->
     has_rules column_rules col_name = false \/
     (List.length row <= col_idx)%nat) ->
  Worksheet.validate_excel_data re_match_user depth (headers :: data_rows)
    expected_columns column_rules
  = Ret (Worksheet.Validated
           (Worksheet.Summary (List.length data_rows) 0 0 []
              (clean_rows (List.length data_rows)) true)).
Proof.
  intros Hmissing Hskip.
  cbn [Worksheet.validate_excel_data]. rewrite header_issues_missing, Hmissing.
  cbn [map].
  assert (H : forall n,
            Worksheet.validate_data_rows re_match_user depth data_rows n
              (Worksheet.column_indices expected_columns headers []) column_rules
            = Ret (map (fun row_idx => Worksheet.RowResults row_idx [] [])
                     (List.seq n (List.length data_rows)))).
  { induction data_rows as [|row rows IH]; intros n; [reflexivity|].
    cbn [Worksheet.validate_data_rows List.length List.seq map].
    rewrite validate_row_skips.
    - cbn [bind fst snd]. rewrite IH; [reflexivity|].
      intros c i r Hc Hi Hr. apply (Hskip c i r Hc Hi). right. exact Hr.
    - intros c i Hin. apply column_indices_in in Hin.
      destruct Hin as [[]|[Hc Hi]].
      apply (Hskip c i row Hc Hi). left. reflexivity. }
  rewrite H. cbn [bind]. unfold clean_rows.
  destruct (clean_rows_have_no_message 0 (List.seq 2 (List.length data_rows)))
    as (He & Hw & Hf).
  rewrite !sum_lengths, He, Hw, Hf, length_map, length_seq. reflexivity.
Qed.


(** The rows of a worksheet are validated one after the other, and the
    number of a row is the only thing that depends on the rows before
    it. *)
Lemma validate_data_rows_renumber (depth : nat) columns column_rules (k : nat) :
  forall rows row_idx,
    Worksheet.validate_data_rows re_match_user depth rows (k + row_idx) columns
      column_rules
    = (validation_results <-
         Worksheet.validate_data_rows re_match_user depth rows row_idx columns
           column_rules ;;
       Ret (map (renumber k) validation_results)).
Proof.
  induction rows as [|row rows IH]; intros row_idx; [reflexivity|].
  cbn [Worksheet.validate_data_rows].
  destruct (Worksheet.validate_row re_match_user depth row columns column_rules
              [] []) as [lists|e]; cbn [bind]; [|reflexivity].
  rewrite plus_n_Sm, IH.
  destruct (Worksheet.validate_data_rows re_match_user depth rows (S row_idx)
              columns column_rules); reflexivity.
Qed.

Lemma validate_data_rows_app (depth : nat) columns column_rules :
  forall rows1 rows2 row_idx,
    Worksheet.validate_data_rows re_match_user depth (rows1 ++ rows2) row_idx
      columns column_rules
    = (results1 <-
         Worksheet.validate_data_rows re_match_user depth rows1 row_idx columns
           column_rules ;;
       results2 <-
         Worksheet.validate_data_rows re_match_user depth rows2
           (List.length rows1 + row_idx) columns column_rules ;;
       Ret (results1 ++ results2)).
Proof.
  induction rows1 as [|row rows1 IH]; intros rows2 row_idx.
  - cbn [app Worksheet.validate_data_rows bind List.length Nat.add].
    destruct (Worksheet.validate_data_rows re_match_user depth rows2 row_idx
                columns column_rules); reflexivity.
  - cbn [app Worksheet.validate_data_rows List.length].
    destruct (Worksheet.validate_row re_match_user depth row columns
                column_rules [] []) as [lists|e]; cbn [bind]; [|reflexivity].
    rewrite IH, <- plus_n_Sm. cbn [Nat.add].
    destruct (Worksheet.validate_data_rows re_match_user depth rows1
                (S row_idx) columns column_rules); cbn [bind]; [|reflexivity].
    destruct (Worksheet.validate_data_rows re_match_user depth rows2
                (S (List.length rows1 + row_idx)) columns column_rules);
      reflexivity.
Qed.

(** The summary of a worksheet is the summary of its first rows followed
    by the summary of its other rows, with their numbers moved: the counts
    add up, and the worksheet is valid exactly when both parts are. *)
Theorem excel_rows_are_validated_one_by_one (depth : nat)
    (headers : list pyval) (rows1 rows2 : list (list pyval))
    (expected_columns : list pystr)
    (column_rules : list (pystr * list ValidationRuleConfig))
    (s1 s2 : Worksheet.summary) :
  Worksheet.validate_excel_data re_match_user depth (headers :: rows1)
    expected_columns column_rules = Ret (Worksheet.Validated s1) ->
  Worksheet.validate_excel_data re_match_user depth (headers :: rows2)
    expected_columns column_rules = Ret (Worksheet.Validated s2) ->
  Worksheet.validate_excel_data re_match_user depth (headers :: rows1 ++ rows2)
    expected_columns column_rules = Ret (Worksheet.Validated (append s1 s2)).
Proof.
  cbn [Worksheet.validate_excel_data].
  destruct (Worksheet.header_issues expected_columns headers);
    [|discriminate].
  intros H1 H2. returned.
  pose proof (validate_data_rows_numbers _ _ _ _ _ _ Ha0) as Hnumbers.
  assert (Hlength : List.length a0 = List.length rows1).
  { rewrite <- (length_map Worksheet.row), Hnumbers, length_seq. reflexivity. }
  rewrite validate_data_rows_app, Ha0, validate_data_rows_renumber, Ha.
  cbn [bind]. unfold append.
  cbn [Worksheet.total_rows Worksheet.total_errors Worksheet.total_warnings
         Worksheet.error_rows Worksheet.validation_details Worksheet.is_valid].
  rewrite Hlength, !map_app, !sum_app, !length_app, !length_map, filter_app,
    map_app.
  assert (Hmoved : forall (f : Worksheet.row_results -> nat),
            (forall r, f (renumber (List.length rows1) r) = f r) ->
            map f (map (renumber (List.length rows1)) a) = map f a).
  { intros f Hf. rewrite map_map. apply map_ext. exact Hf. }
  rewrite !Hmoved by reflexivity.
  assert (Hrows : map Worksheet.row
                    (filter (fun r => match Worksheet.errors r with
                                      | [] => false
                                      | _ => true
                                      end)
                       (map (renumber (List.length rows1)) a))
                  = map (Nat.add (List.length rows1))
                      (map Worksheet.row
                         (filter (fun r => match Worksheet.errors r with
                                           | [] => false
                                           | _ => true
                                           end) a))).
  { clear. induction a as [|r a IH]; [reflexivity|].
    cbn [map filter renumber Worksheet.errors].
    destruct (Worksheet.errors r); cbn [map]; rewrite IH; reflexivity. }
  rewrite Hrows.
  assert (Hzero : forall x y, Nat.eqb (x + y) 0 = Nat.eqb x 0 && Nat.eqb y 0)
    by (intros [|x] [|y]; reflexivity).
  rewrite Hzero, ?Hlength. reflexivity.
Qed.

End Worksheets.

(** ** The validators of parameters *)

Section Loans.

Variable re_match_user : pystr -> pystr -> outcome bool.


(** [validate_loan_parameters] never reports valid parameters: on a
    principal that is not blank it raises [NameError], and what it returns
    on a blank principal is not valid and starts with the error of the
    REQUIRED rule. *)
Theorem loan_parameters_never_valid (depth : nat)
    (principal annual_rate years : pyval) :
  (blank principal = false ->
   Parameters.validate_loan_parameters re_match_user (S depth)
     principal annual_rate years = Raise NameError) /\
  (forall result,
     Parameters.validate_loan_parameters re_match_user depth
       principal annual_rate years = Ret result ->
     blank principal = true /\
     is_valid result = false /\
     exists others, errors result = lit "Field is required" :: others).
Proof.
  unfold Parameters.validate_loan_parameters. split.
  - intros Hblank. rewrite required_first_raises by exact Hblank. reflexivity.
  - intros result H. returned.
    apply required_first_returns in Ha.
    destruct Ha as (Hblank & _ & others & Herr).
    split; [exact Hblank|].
    rewrite Herr in *.
    repeat (split_test Ha2; returned); repeat (split_test Ha5; returned);
      cbn [fst snd app is_valid errors List.length Nat.eqb];
      (split; [reflexivity|eexists; reflexivity]).
Qed.


End Loans.

(** Two numbers always compare. *)
Lemma numbers_compare (a b : pyval) :
  Parameters.is_number a = true -> Parameters.is_number b = true ->
  exists c, compare a b = Ret c.
Proof.
  unfold Parameters.is_number, compare.
  destruct (as_number a), (as_number b); try discriminate.
  eexists; reflexivity.
Qed.

(** [validate_npv_parameters] never raises, and it reports the parameters
    valid exactly when the rate is a number and some cash flow is not equal
    to 0, whatever its warnings; an empty list of cash flows is reported
    with two errors. *)
Theorem npv_parameters_valid_iff (rate : pyval) (cash_flows : list pyval) :
  exists result,
    Parameters.validate_npv_parameters rate cash_flows = Ret result /\
    is_valid result
    = Parameters.is_number rate
      && existsb (fun cf => negb (Operators.equal cf (VInt 0))) cash_flows /\
    (Parameters.is_number rate = true -> cash_flows = [] ->
     errors result
     = [lit "Cash flows cannot be empty"; lit "All cash flows cannot be zero"]).
Proof.
  assert (Hall : forall l,
            forallb (fun cf => Operators.equal cf (VInt 0)) l
            = negb (existsb (fun cf => negb (Operators.equal cf (VInt 0))) l)).
  { induction l as [|cf l IH]; [reflexivity|]. cbn [forallb existsb].
    rewrite IH. destruct (Operators.equal cf (VInt 0)); reflexivity. }
  unfold Parameters.validate_npv_parameters. rewrite Hall.
  destruct (Parameters.is_number rate) eqn:Hrate; cbn [negb bind andb].
  - destruct (numbers_compare rate (VInt (-1)) Hrate eq_refl) as (c1 & H1).
    destruct (numbers_compare rate (VInt 1) Hrate eq_refl) as (c2 & H2).
    unfold lt, gt. rewrite H1, H2. cbn [bind].
    destruct cash_flows as [|cf [|cf' l]];
      destruct c1 as [[]|]; destruct c2 as [[]|]; cbn [bind fst snd app];
      try (eexists; split; [reflexivity|];
           split; [|intros _ E; try discriminate E; reflexivity];
           cbn [existsb negb orb is_valid errors List.length Nat.eqb fst snd app
                  Nat.ltb Nat.leb];
           repeat match goal with
                  | |- context [Operators.equal ?x ?y] =>
                      destruct (Operators.equal x y)
                  | |- context [existsb ?f ?l] => destruct (existsb f l)
                  end; reflexivity).
  - destruct cash_flows as [|cf [|cf' l]]; cbn [bind fst snd app];
      (eexists; split; [reflexivity|];
       split; [|intros E; discriminate E];
       cbn [existsb negb orb is_valid errors List.length Nat.eqb fst snd app
              Nat.ltb Nat.leb];
       repeat match goal with
              | |- context [Operators.equal ?x ?y] =>
                  destruct (Operators.equal x y)
              | |- context [existsb ?f ?l] => destruct (existsb f l)
              end; reflexivity).
Qed.

(** ** The further properties at work *)

#[local] Set Warnings "-inexact-float".

Lemma positive_rule_never_accepts_minus_5 :
  let outcome := Result false [lit "Value must be positive"] [] (VInt (-5)) in
  none_or_empty (VInt (-5)) = false /\
  (exists rule_config,
     In rule_config [RuleConfig POSITIVE] /\
     passes_on (rule_type rule_config) = true) /\
  validate_field no_user_patterns 2 (VInt (-5)) [RuleConfig POSITIVE]
  = Ret outcome /\
  is_valid outcome = false /\ errors outcome <> [].
Proof.
  intros outcome.
  assert (Hrule : exists rule_config,
            In rule_config [RuleConfig POSITIVE] /\
            passes_on (rule_type rule_config) = true).
  { exists (RuleConfig POSITIVE). split; [left|]; reflexivity. }
  split; [reflexivity|]. split; [exact Hrule|].
  split; [vm_compute; reflexivity|].
  apply (validate_field_never_accepts no_user_patterns 2 (VInt (-5))
           [RuleConfig POSITIVE] outcome);
    [reflexivity | exact Hrule | vm_compute; reflexivity].
Defined.

Lemma email_rule_cleans_to_a_string :
  let value := VStr (lit "Foo@Bar.COM") in
  let result := Result true [] [] (VStr (lit "foo@bar.com")) in
  none_or_empty value = false /\
  _apply_rule no_user_patterns 1 value (RuleConfig EMAIL) = Ret result /\
  is_valid result = true /\
  exists s, cleaned_value result = VStr s.
Proof.
  intros value result.
  split; [reflexivity|]. split; [vm_compute; reflexivity|].
  split; [reflexivity|].
  exact (accepted_values_are_cleaned no_user_patterns 1 value (RuleConfig EMAIL)
           result eq_refl eq_refl eq_refl).
Defined.

Lemma percentage_rule_on_a_quarter :
  let value := VStr (lit "0.25") in
  let result := Result true [] [] (VFloat (Prim2SF 0.25)) in
  rule_type (RuleConfig PERCENTAGE) = PERCENTAGE /\
  none_or_empty value = false /\
  _apply_rule no_user_patterns 2 value (RuleConfig PERCENTAGE) = Ret result /\
  is_valid result = true /\
  exists f,
    cleaned_value result = VFloat f /\
    (PyFloat.compare_Z f 0 = Some Eq \/ PyFloat.compare_Z f 0 = Some Gt) /\
    (PyFloat.compare_Z f 1 = Some Lt \/ PyFloat.compare_Z f 1 = Some Eq).
Proof.
  intros value result.
  split; [reflexivity|]. split; [reflexivity|].
  split; [vm_compute; reflexivity|]. split; [reflexivity|].
  apply (percentage_rule_cleans_into_unit_interval no_user_patterns 2 value
           (RuleConfig PERCENTAGE) result);
    [reflexivity | reflexivity | vm_compute; reflexivity | reflexivity].
Defined.

Lemma test_statement_raises :
  (get test_statement "revenue" = Some (VInt 100000) \/
   get test_statement "expenses" = Some (VInt 100000)) /\
  blank (VInt 100000) = false /\
  Records.validate_financial_statement no_user_patterns 2 test_statement
  = Raise NameError.
Proof.
  split; [left; reflexivity|]. split; [reflexivity|].
  apply (financial_statement_raises_on_revenue no_user_patterns 0 test_statement
           (VInt 100000)); [left; reflexivity | reflexivity].
Defined.

Lemma negative_statement_results :
  let invalid := Result false [lit "Value must be positive"] [] (VInt (-5)) in
  let results :=
    [(lit "assets", invalid); (lit "liabilities", invalid);
     (lit "equity", Result true [] [] (VFloat (S754_zero false)));
     (lit "balance_check", Result true [] [] VNone)] in
  Records.validate_financial_statement no_user_patterns 2 negative_statement
  = Ret results /\
  (forall field rules,
     In (field, rules) Records.statement_rules ->
     match get negative_statement field with
     | Some value =>
         exists result,
           validate_field no_user_patterns 2 value rules = Ret result /\
           Operators.lookup results (lit field) = Some result
     | None => Operators.lookup results (lit field) = None
     end) /\
  match Operators.lookup results (lit "balance_check") with
  | Some check =>
      (get negative_statement "assets" <> None /\
       get negative_statement "liabilities" <> None /\
       get negative_statement "equity" <> None) /\
      (check = Result true [] [] VNone \/
       check = Result false [Records.balance_message] [] VNone)
  | None =>
      get negative_statement "assets" = None \/
      get negative_statement "liabilities" = None \/
      get negative_statement "equity" = None
  end.
Proof.
  intros invalid results. split; [vm_compute; reflexivity|].
  apply (financial_statement_results no_user_patterns 2 negative_statement
           results).
  vm_compute. reflexivity.
Defined.

Lemma negative_assets_are_not_accepted :
  let invalid := Result false [lit "Value must be positive"] [] (VInt (-5)) in
  let results :=
    [(lit "assets", invalid); (lit "liabilities", invalid);
     (lit "equity", Result true [] [] (VFloat (S754_zero false)));
     (lit "balance_check", Result true [] [] VNone)] in
  Records.validate_financial_statement no_user_patterns 2 negative_statement
  = Ret results /\
  In "assets"%string ["revenue"; "expenses"; "assets"; "liabilities"]%string /\
  get negative_statement "assets" = Some (VInt (-5)) /\
  none_or_empty (VInt (-5)) = false /\
  exists result,
    Operators.lookup results (lit "assets") = Some result /\
    is_valid result = false.
Proof.
  intros invalid results.
  assert (Hin : In "assets"%string
                  ["revenue"; "expenses"; "assets"; "liabilities"]%string)
    by (right; right; left; reflexivity).
  split; [vm_compute; reflexivity|]. split; [exact Hin|].
  split; [reflexivity|]. split; [reflexivity|].
  apply (financial_statement_accepts_equity_only no_user_patterns 2
           negative_statement results "assets" (VInt (-5)));
    [vm_compute; reflexivity | exact Hin | reflexivity | reflexivity].
Defined.

Lemma blank_lease_has_no_date_range :
  let required value := Result false [lit "Field is required"] [] value in
  let results :=
    [(lit "lease_start_date", required (VStr []));
     (lit "lease_end_date", required VNone)] in
  Records.validate_rental_data no_user_patterns 2 blank_lease = Ret results /\
  Operators.lookup results (lit "date_range") = None /\
  forall field value,
    In field ["monthly_rent"; "lease_start_date"; "lease_end_date"]%string ->
    get blank_lease field = Some value ->
    blank value = true /\
    exists result,
      Operators.lookup results (lit field) = Some result /\
      is_valid result = false.
Proof.
  intros required results. split; [vm_compute; reflexivity|].
  apply (rental_data_never_checks_dates no_user_patterns 2 blank_lease results).
  vm_compute. reflexivity.
Defined.

Lemma lease_with_a_start_date_raises :
  let rental_data := [(lit "lease_start_date", VStr (lit "2024-01-01"))] in
  In "lease_start_date"%string
    ["monthly_rent"; "lease_start_date"; "lease_end_date"]%string /\
  get rental_data "lease_start_date" = Some (VStr (lit "2024-01-01")) /\
  blank (VStr (lit "2024-01-01")) = false /\
  Records.validate_rental_data no_user_patterns 2 rental_data = Raise NameError.
Proof.
  intros rental_data.
  assert (Hin : In "lease_start_date"%string
                  ["monthly_rent"; "lease_start_date"; "lease_end_date"]%string)
    by (right; left; reflexivity).
  split; [exact Hin|]. split; [reflexivity|]. split; [reflexivity|].
  apply (rental_data_raises_on_present_value no_user_patterns 0 rental_data
           "lease_start_date" (VStr (lit "2024-01-01")));
    [exact Hin | reflexivity | reflexivity].
Defined.

Lemma contacts_summary :
  let worksheet_data :=
    [contacts_header; contact "Ann" "ann@example.com"; contact "Bob" "bob"] in
  let s :=
    Worksheet.Summary 2 1 0 [3]
      [Worksheet.RowResults 2 [] [];
       Worksheet.RowResults 3 [lit "email: Invalid email format"] []] false in
  let details := Worksheet.validation_details s in
  Worksheet.validate_excel_data no_user_patterns 1 worksheet_data [lit "email"]
    email_rules = Ret (Worksheet.Validated s) /\
  S (Worksheet.total_rows s) = List.length worksheet_data /\
  map Worksheet.row details = List.seq 2 (Worksheet.total_rows s) /\
  Worksheet.total_errors s
  = List.length (List.concat (map Worksheet.errors details)) /\
  Worksheet.total_warnings s
  = List.length (List.concat (map Worksheet.warnings details)) /\
  Worksheet.error_rows s
  = map Worksheet.row
      (filter (fun r => negb (null (Worksheet.errors r))) details) /\
  Worksheet.is_valid s = null (Worksheet.error_rows s) /\
  forall r message,
    In r details ->
    In message (Worksheet.errors r ++ Worksheet.warnings r) ->
    exists col_name text,
      In col_name [lit "email"] /\
      has_rules email_rules col_name = true /\
      message = col_name ++ lit ": " ++ text.
Proof.
  intros worksheet_data s details. split; [vm_compute; reflexivity|].
  apply (excel_summary_counts no_user_patterns 1 worksheet_data [lit "email"]
           email_rules s).
  vm_compute. reflexivity.
Defined.

Lemma short_rows_are_clean :
  let data_rows := [[VStr (lit "Ann")]; []] in
  missing_columns [lit "email"] contacts_header = [] /\
  (forall col_name col_idx row,
     In col_name [lit "email"] ->
     Operators.index (VStr col_name) contacts_header = Some col_idx ->
     In row data_rows ->
     has_rules email_rules col_name = false \/
     (List.length row <= col_idx)%nat) /\
  Worksheet.validate_excel_data no_user_patterns 0 (contacts_header :: data_rows)
    [lit "email"] email_rules
  = Ret (Worksheet.Validated
           (Worksheet.Summary (List.length data_rows) 0 0 []
              (clean_rows (List.length data_rows)) true)).
Proof.
  intros data_rows.
  assert (Hshort : forall col_name col_idx row,
            In col_name [lit "email"] ->
            Operators.index (VStr col_name) contacts_header = Some col_idx ->
            In row data_rows ->
            has_rules email_rules col_name = false \/
            (List.length row <= col_idx)%nat).
  { intros col_name col_idx row [<-|[]] Hidx Hrow. right.
    injection Hidx as <-. destruct Hrow as [<-|[<-|[]]]; cbn; lia. }
  split; [reflexivity|]. split; [exact Hshort|].
  apply (excel_rows_without_rules_are_clean no_user_patterns 0 contacts_header
           data_rows [lit "email"] email_rules); [reflexivity|exact Hshort].
Defined.

Lemma contacts_one_by_one :
  let rows1 := [contact "Ann" "ann@example.com"] in
  let rows2 := [contact "Bob" "bob"] in
  let s1 := Worksheet.Summary 1 0 0 [] [Worksheet.RowResults 2 [] []] true in
  let s2 :=
    Worksheet.Summary 1 1 0 [2]
      [Worksheet.RowResults 2 [lit "email: Invalid email format"] []] false in
  Worksheet.validate_excel_data no_user_patterns 1 (contacts_header :: rows1)
    [lit "email"] email_rules = Ret (Worksheet.Validated s1) /\
  Worksheet.validate_excel_data no_user_patterns 1 (contacts_header :: rows2)
    [lit "email"] email_rules = Ret (Worksheet.Validated s2) /\
  Worksheet.validate_excel_data no_user_patterns 1
    (contacts_header :: rows1 ++ rows2) [lit "email"] email_rules
  = Ret (Worksheet.Validated (append s1 s2)) /\
  append s1 s2
  = Worksheet.Summary 2 1 0 [3]
      [Worksheet.RowResults 2 [] [];
       Worksheet.RowResults 3 [lit "email: Invalid email format"] []] false.
Proof.
  intros rows1 rows2 s1 s2.
  split; [vm_compute; reflexivity|]. split; [vm_compute; reflexivity|].
  split; [|reflexivity].
  apply (excel_rows_are_validated_one_by_one no_user_patterns 1 contacts_header
           rows1 rows2 [lit "email"] email_rules s1 s2);
    vm_compute; reflexivity.
Defined.

Lemma email_rule_is_idempotent_on_an_address :
  let rules := [RuleConfig EMAIL] in
  let outcome := Result true [] [] (VStr (lit "foo@bar.com")) in
  In (rule_type (RuleConfig EMAIL)) [DATE; EMAIL; TAX_ID] /\
  validate_field no_user_patterns 1 (VStr (lit "Foo@Bar.COM")) rules
  = Ret outcome /\
  is_valid outcome = true /\
  validate_field no_user_patterns 1 (cleaned_value outcome) rules
  = Ret (Result true [] [] (cleaned_value outcome)).
Proof.
  intros rules outcome.
  assert (Hrule : In (rule_type (RuleConfig EMAIL)) [DATE; EMAIL; TAX_ID])
    by (right; left; reflexivity).
  split; [exact Hrule|]. split; [vm_compute; reflexivity|].
  split; [reflexivity|].
  apply (date_email_tax_id_rules_are_idempotent no_user_patterns 0
           (VStr (lit "Foo@Bar.COM")) (RuleConfig EMAIL) outcome);
    [exact Hrule | vm_compute; reflexivity | reflexivity].
Defined.

Lemma date_rule_reads_a_leap_day :
  let d := DateTime.Date 2024 2 29 in
  rule_type (RuleConfig DATE) = DATE /\
  DateTime.valid_date (DateTime.year d) (DateTime.month d) (DateTime.day d)
  = true /\
  str (VDate d) = lit "2024-02-29" /\
  _apply_rule no_user_patterns 1 (VStr (str (VDate d))) (RuleConfig DATE)
  = Ret (Result true [] [] (VDate d)) /\
  _apply_rule no_user_patterns 1 (VDate d) (RuleConfig DATE)
  = Ret (Result true [] [] (VDate d)).
Proof.
  intros d. split; [reflexivity|]. split; [reflexivity|].
  split; [reflexivity|].
  apply (date_rule_reads_iso_dates no_user_patterns 0 d (RuleConfig DATE));
    reflexivity.
Defined.

Lemma currency_rule_on_minus_5_dollars :
  let s := lit "-$5" in
  let result := Result true [] [] (VFloat (Prim2SF 5)) in
  rule_type (RuleConfig CURRENCY) = CURRENCY /\
  s <> [] /\
  _apply_rule no_user_patterns 1 (VStr s) (RuleConfig CURRENCY) = Ret result /\
  is_valid result = true /\
  exists amount,
    cleaned_value result = VFloat amount /\
    sign_bit amount = false /\
    lt (VFloat amount) (VInt 0) = Ret false.
Proof.
  intros s result.
  assert (Hs : s <> []) by discriminate.
  split; [reflexivity|]. split; [exact Hs|].
  split; [vm_compute; reflexivity|]. split; [reflexivity|].
  apply (currency_rule_drops_the_sign no_user_patterns 0 s (RuleConfig CURRENCY)
           result);
    [reflexivity | exact Hs | vm_compute; reflexivity | reflexivity].
Defined.

Lemma numeric_rule_reads_minus_42 :
  rule_type (RuleConfig NUMERIC) = NUMERIC /\
  str (VInt (-42)) = lit "-42" /\
  PyFloat.round_Z (-42) = Prim2SF (-42) /\
  _apply_rule no_user_patterns 1 (VStr (str (VInt (-42)))) (RuleConfig NUMERIC)
  = Ret (Result true [] [] (VFloat (PyFloat.round_Z (-42)))) /\
  _apply_rule no_user_patterns 1 (VInt (-42)) (RuleConfig NUMERIC)
  = match PyFloat.round_Z (-42) with
    | S754_infinity _ => Raise OverflowError
    | f => Ret (Result true [] [] (VFloat f))
    end.
Proof.
  split; [reflexivity|]. split; [reflexivity|]. split; [reflexivity|].
  apply (numeric_rule_reads_the_text_of_an_int no_user_patterns 0 (-42)
           (RuleConfig NUMERIC)).
  reflexivity.
Defined.
